(** * Real-estate scraper: the scraping engine of the architecture document

    A shallow embedding of the Python classes of the architecture document
    ([IntelligentScraper], [FormatDetector], [DynamicParser],
    [ProxyRotation], [ErrorHandler], [DeduplicationEngine],
    [ScrapingScheduler], [ChangeDetector], the [Agency] and
    [AggregatedListing] tables) and of two components of the front end,
    together with the properties stated about them.

    Conventions of the embedding.
    - A Python [str] is the list of its code points; the text of a value is
      written as a Rocq [string] holding its UTF-8 bytes.
    - A Python [dict] with string keys is a [gmap string _]; a [dict] whose
      iteration order matters (a class-level table walked by [.items()]) is
      an association list in insertion order.
    - A call that may raise returns a [py_result]; an awaited call acts on
      a world, which it takes and hands back. *)

From Stdlib Require Import ZArith List Ascii String Sorted.
From stdpp Require Import base option list gmap strings pretty.

Import ListNotations.
Local Open Scope string_scope.

(** ** Strings

    A Python [str] is a sequence of Unicode code points.  The text of a
    value is written in this file as a Rocq [string], which holds its UTF-8
    bytes; [of_utf8] gives the [str] those bytes spell and [encode] is
    [str.encode()].  [str.lower] and [str.strip] follow CPython 3.11, the
    Python of the Dockerfile (Unicode 14.0): the lower-case mapping of every
    code point with the final-sigma rule, and the code points for which
    [str.isspace] holds.  A [str] that holds a lone surrogate has no UTF-8
    text and is not written in this file. *)

Module PyStr.
Local Open Scope Z_scope.
Local Open Scope list_scope.

Definition str : Type := list Z.

(** *** UTF-8 *)

(** A byte that belongs to no well-formed sequence stands for itself: it is
    decoded to a value above the last code point and encoded back to the
    same byte. *)
Definition escape (b : Z) : Z := 1114112 + b.

(** The decoder between two bytes: [need] continuation bytes are still
    expected, [acc] holds the bits read so far, [low] is the least code
    point a sequence of this length may spell, and [seen] is what the bytes
    read so far stand for if the sequence turns out not to be well formed. *)
Record decoder : Type := {
  need : nat;
  acc : Z;
  low : Z;
  seen : list Z
}.

Definition idle : decoder := {| need := 0; acc := 0; low := 0; seen := [] |}.

(** A sequence spells a code point when it is the shortest one for it and
    the code point is neither a surrogate nor beyond U+10FFFF. *)
Definition well_formed (least c : Z) : bool :=
  (least <=? c) && (c <? 1114112) && negb ((55296 <=? c) && (c <=? 57343)).

Definition feed (st : decoder) (b : Z) : list Z * decoder :=
  if b <? 128 then (seen st ++ [b], idle)
  else if b <? 192 then
    match need st with
    | O => ([escape b], idle)
    | S O =>
        let c := acc st * 64 + (b - 128) in
        (if well_formed (low st) c then [c] else seen st ++ [escape b], idle)
    | S n =>
        ([], {| need := n; acc := acc st * 64 + (b - 128); low := low st;
                seen := seen st ++ [escape b] |})
    end
  else if b <? 224 then
    (seen st, {| need := 1; acc := b - 192; low := 128; seen := [escape b] |})
  else if b <? 240 then
    (seen st, {| need := 2; acc := b - 224; low := 2048; seen := [escape b] |})
  else if b <? 248 then
    (seen st, {| need := 3; acc := b - 240; low := 65536; seen := [escape b] |})
  else (seen st ++ [escape b], idle).

Fixpoint decode_from (st : decoder) (s : string) : str :=
  match s with
  | EmptyString => seen st
  | String c s' =>
      let (out, st') := feed st (Z.of_nat (nat_of_ascii c)) in
      out ++ decode_from st' s'
  end.

(** The [str] whose UTF-8 bytes are [s]. *)
Definition of_utf8 (s : string) : str := decode_from idle s.

Definition encode_point (c : Z) : list Z :=
  if c <? 128 then [c]
  else if c <? 2048 then [192 + c / 64; 128 + c mod 64]
  else if c <? 65536 then
    [224 + c / 4096; 128 + (c / 64) mod 64; 128 + c mod 64]
  else if c <? 1114112 then
    [240 + c / 262144; 128 + (c / 4096) mod 64; 128 + (c / 64) mod 64;
     128 + c mod 64]
  else [c - 1114112].

(** [s.encode()]: the UTF-8 bytes. *)
Definition encode (s : str) : list Z := flat_map encode_point s.

(** The bytes of [s] as a Rocq string. *)
Definition to_utf8 (s : str) : string :=
  string_of_list_ascii (map (fun b => ascii_of_nat (Z.to_nat b)) (encode s)).

(** *** Character data (Unicode 14.0) *)

(** The code points [lo], [lo + step], ..., [hi] whose lower-case form is
    the code point [d] further. *)
Definition lower_table : list (Z * Z * Z * Z) :=
  [(65, 90, 1, 32); (192, 214, 1, 32); (216, 222, 1, 32); (256, 302, 2, 1);
   (306, 310, 2, 1); (313, 327, 2, 1); (330, 374, 2, 1);
   (376, 376, 1, -121); (377, 381, 2, 1); (385, 385, 1, 210);
   (386, 388, 2, 1); (390, 390, 1, 206); (391, 391, 1, 1);
   (393, 394, 1, 205); (395, 395, 1, 1); (398, 398, 1, 79);
   (399, 399, 1, 202); (400, 400, 1, 203); (401, 401, 1, 1);
   (403, 403, 1, 205); (404, 404, 1, 207); (406, 406, 1, 211);
   (407, 407, 1, 209); (408, 408, 1, 1); (412, 412, 1, 211);
   (413, 413, 1, 213); (415, 415, 1, 214); (416, 420, 2, 1);
   (422, 422, 1, 218); (423, 423, 1, 1); (425, 425, 1, 218);
   (428, 428, 1, 1); (430, 430, 1, 218); (431, 431, 1, 1);
   (433, 434, 1, 217); (435, 437, 2, 1); (439, 439, 1, 219);
   (440, 440, 1, 1); (444, 444, 1, 1); (452, 452, 1, 2); (453, 453, 1, 1);
   (455, 455, 1, 2); (456, 456, 1, 1); (458, 458, 1, 2); (459, 475, 2, 1);
   (478, 494, 2, 1); (497, 497, 1, 2); (498, 500, 2, 1); (502, 502, 1, -97);
   (503, 503, 1, -56); (504, 542, 2, 1); (544, 544, 1, -130);
   (546, 562, 2, 1); (570, 570, 1, 10795); (571, 571, 1, 1);
   (573, 573, 1, -163); (574, 574, 1, 10792); (577, 577, 1, 1);
   (579, 579, 1, -195); (580, 580, 1, 69); (581, 581, 1, 71);
   (582, 590, 2, 1); (880, 882, 2, 1); (886, 886, 1, 1); (895, 895, 1, 116);
   (902, 902, 1, 38); (904, 906, 1, 37); (908, 908, 1, 64);
   (910, 911, 1, 63); (913, 929, 1, 32); (931, 939, 1, 32);
   (975, 975, 1, 8); (984, 1006, 2, 1); (1012, 1012, 1, -60);
   (1015, 1015, 1, 1); (1017, 1017, 1, -7); (1018, 1018, 1, 1);
   (1021, 1023, 1, -130); (1024, 1039, 1, 80); (1040, 1071, 1, 32);
   (1120, 1152, 2, 1); (1162, 1214, 2, 1); (1216, 1216, 1, 15);
   (1217, 1229, 2, 1); (1232, 1326, 2, 1); (1329, 1366, 1, 48);
   (4256, 4293, 1, 7264); (4295, 4295, 1, 7264); (4301, 4301, 1, 7264);
   (5024, 5103, 1, 38864); (5104, 5109, 1, 8); (7312, 7354, 1, -3008);
   (7357, 7359, 1, -3008); (7680, 7828, 2, 1); (7838, 7838, 1, -7615);
   (7840, 7934, 2, 1); (7944, 7951, 1, -8); (7960, 7965, 1, -8);
   (7976, 7983, 1, -8); (7992, 7999, 1, -8); (8008, 8013, 1, -8);
   (8025, 8031, 2, -8); (8040, 8047, 1, -8); (8072, 8079, 1, -8);
   (8088, 8095, 1, -8); (8104, 8111, 1, -8); (8120, 8121, 1, -8);
   (8122, 8123, 1, -74); (8124, 8124, 1, -9); (8136, 8139, 1, -86);
   (8140, 8140, 1, -9); (8152, 8153, 1, -8); (8154, 8155, 1, -100);
   (8168, 8169, 1, -8); (8170, 8171, 1, -112); (8172, 8172, 1, -7);
   (8184, 8185, 1, -128); (8186, 8187, 1, -126); (8188, 8188, 1, -9);
   (8486, 8486, 1, -7517); (8490, 8490, 1, -8383); (8491, 8491, 1, -8262);
   (8498, 8498, 1, 28); (8544, 8559, 1, 16); (8579, 8579, 1, 1);
   (9398, 9423, 1, 26); (11264, 11311, 1, 48); (11360, 11360, 1, 1);
   (11362, 11362, 1, -10743); (11363, 11363, 1, -3814);
   (11364, 11364, 1, -10727); (11367, 11371, 2, 1);
   (11373, 11373, 1, -10780); (11374, 11374, 1, -10749);
   (11375, 11375, 1, -10783); (11376, 11376, 1, -10782);
   (11378, 11378, 1, 1); (11381, 11381, 1, 1); (11390, 11391, 1, -10815);
   (11392, 11490, 2, 1); (11499, 11501, 2, 1); (11506, 11506, 1, 1);
   (42560, 42604, 2, 1); (42624, 42650, 2, 1); (42786, 42798, 2, 1);
   (42802, 42862, 2, 1); (42873, 42875, 2, 1); (42877, 42877, 1, -35332);
   (42878, 42886, 2, 1); (42891, 42891, 1, 1); (42893, 42893, 1, -42280);
   (42896, 42898, 2, 1); (42902, 42920, 2, 1); (42922, 42922, 1, -42308);
   (42923, 42923, 1, -42319); (42924, 42924, 1, -42315);
   (42925, 42925, 1, -42305); (42926, 42926, 1, -42308);
   (42928, 42928, 1, -42258); (42929, 42929, 1, -42282);
   (42930, 42930, 1, -42261); (42931, 42931, 1, 928); (42932, 42946, 2, 1);
   (42948, 42948, 1, -48); (42949, 42949, 1, -42307);
   (42950, 42950, 1, -35384); (42951, 42953, 2, 1); (42960, 42960, 1, 1);
   (42966, 42968, 2, 1); (42997, 42997, 1, 1); (65313, 65338, 1, 32);
   (66560, 66599, 1, 40); (66736, 66771, 1, 40); (66928, 66938, 1, 39);
   (66940, 66954, 1, 39); (66956, 66962, 1, 39); (66964, 66965, 1, 39);
   (68736, 68786, 1, 64); (71840, 71871, 1, 32); (93760, 93791, 1, 32);
   (125184, 125217, 1, 34)].

(** The cased code points (lower case, upper case or title case). *)
Definition cased_table : list (Z * Z) :=
  [(65, 90); (97, 122); (170, 170); (181, 181); (186, 186); (192, 214);
   (216, 246); (248, 442); (444, 447); (452, 659); (661, 696); (704, 705);
   (736, 740); (837, 837); (880, 883); (886, 887); (890, 893); (895, 895);
   (902, 902); (904, 906); (908, 908); (910, 929); (931, 1013);
   (1015, 1153); (1162, 1327); (1329, 1366); (1376, 1416); (4256, 4293);
   (4295, 4295); (4301, 4301); (4304, 4346); (4349, 4351); (5024, 5109);
   (5112, 5117); (7296, 7304); (7312, 7354); (7357, 7359); (7424, 7615);
   (7680, 7957); (7960, 7965); (7968, 8005); (8008, 8013); (8016, 8023);
   (8025, 8025); (8027, 8027); (8029, 8029); (8031, 8061); (8064, 8116);
   (8118, 8124); (8126, 8126); (8130, 8132); (8134, 8140); (8144, 8147);
   (8150, 8155); (8160, 8172); (8178, 8180); (8182, 8188); (8305, 8305);
   (8319, 8319); (8336, 8348); (8450, 8450); (8455, 8455); (8458, 8467);
   (8469, 8469); (8473, 8477); (8484, 8484); (8486, 8486); (8488, 8488);
   (8490, 8493); (8495, 8500); (8505, 8505); (8508, 8511); (8517, 8521);
   (8526, 8526); (8544, 8575); (8579, 8580); (9398, 9449); (11264, 11492);
   (11499, 11502); (11506, 11507); (11520, 11557); (11559, 11559);
   (11565, 11565); (42560, 42605); (42624, 42653); (42786, 42887);
   (42891, 42894); (42896, 42954); (42960, 42961); (42963, 42963);
   (42965, 42969); (42997, 42998); (43000, 43002); (43824, 43866);
   (43868, 43880); (43888, 43967); (64256, 64262); (64275, 64279);
   (65313, 65338); (65345, 65370); (66560, 66639); (66736, 66771);
   (66776, 66811); (66928, 66938); (66940, 66954); (66956, 66962);
   (66964, 66965); (66967, 66977); (66979, 66993); (66995, 67001);
   (67003, 67004); (67456, 67456); (67459, 67461); (67463, 67504);
   (67506, 67514); (68736, 68786); (68800, 68850); (71840, 71903);
   (93760, 93823); (119808, 119892); (119894, 119964); (119966, 119967);
   (119970, 119970); (119973, 119974); (119977, 119980); (119982, 119993);
   (119995, 119995); (119997, 120003); (120005, 120069); (120071, 120074);
   (120077, 120084); (120086, 120092); (120094, 120121); (120123, 120126);
   (120128, 120132); (120134, 120134); (120138, 120144); (120146, 120485);
   (120488, 120512); (120514, 120538); (120540, 120570); (120572, 120596);
   (120598, 120628); (120630, 120654); (120656, 120686); (120688, 120712);
   (120714, 120744); (120746, 120770); (120772, 120779); (122624, 122633);
   (122635, 122654); (125184, 125251); (127280, 127305); (127312, 127337);
   (127344, 127369)].

(** The case-ignorable code points: marks, modifiers, format controls and
    the punctuation met inside words. *)
Definition case_ignorable_table : list (Z * Z) :=
  [(39, 39); (46, 46); (58, 58); (94, 94); (96, 96); (168, 168); (173, 173);
   (175, 175); (180, 180); (183, 184); (688, 879); (884, 885); (890, 890);
   (900, 901); (903, 903); (1155, 1161); (1369, 1369); (1375, 1375);
   (1425, 1469); (1471, 1471); (1473, 1474); (1476, 1477); (1479, 1479);
   (1524, 1524); (1536, 1541); (1552, 1562); (1564, 1564); (1600, 1600);
   (1611, 1631); (1648, 1648); (1750, 1757); (1759, 1768); (1770, 1773);
   (1807, 1807); (1809, 1809); (1840, 1866); (1958, 1968); (2027, 2037);
   (2042, 2042); (2045, 2045); (2070, 2093); (2137, 2139); (2184, 2184);
   (2192, 2193); (2200, 2207); (2249, 2306); (2362, 2362); (2364, 2364);
   (2369, 2376); (2381, 2381); (2385, 2391); (2402, 2403); (2417, 2417);
   (2433, 2433); (2492, 2492); (2497, 2500); (2509, 2509); (2530, 2531);
   (2558, 2558); (2561, 2562); (2620, 2620); (2625, 2626); (2631, 2632);
   (2635, 2637); (2641, 2641); (2672, 2673); (2677, 2677); (2689, 2690);
   (2748, 2748); (2753, 2757); (2759, 2760); (2765, 2765); (2786, 2787);
   (2810, 2815); (2817, 2817); (2876, 2876); (2879, 2879); (2881, 2884);
   (2893, 2893); (2901, 2902); (2914, 2915); (2946, 2946); (3008, 3008);
   (3021, 3021); (3072, 3072); (3076, 3076); (3132, 3132); (3134, 3136);
   (3142, 3144); (3146, 3149); (3157, 3158); (3170, 3171); (3201, 3201);
   (3260, 3260); (3263, 3263); (3270, 3270); (3276, 3277); (3298, 3299);
   (3328, 3329); (3387, 3388); (3393, 3396); (3405, 3405); (3426, 3427);
   (3457, 3457); (3530, 3530); (3538, 3540); (3542, 3542); (3633, 3633);
   (3636, 3642); (3654, 3662); (3761, 3761); (3764, 3772); (3782, 3782);
   (3784, 3789); (3864, 3865); (3893, 3893); (3895, 3895); (3897, 3897);
   (3953, 3966); (3968, 3972); (3974, 3975); (3981, 3991); (3993, 4028);
   (4038, 4038); (4141, 4144); (4146, 4151); (4153, 4154); (4157, 4158);
   (4184, 4185); (4190, 4192); (4209, 4212); (4226, 4226); (4229, 4230);
   (4237, 4237); (4253, 4253); (4348, 4348); (4957, 4959); (5906, 5908);
   (5938, 5939); (5970, 5971); (6002, 6003); (6068, 6069); (6071, 6077);
   (6086, 6086); (6089, 6099); (6103, 6103); (6109, 6109); (6155, 6159);
   (6211, 6211); (6277, 6278); (6313, 6313); (6432, 6434); (6439, 6440);
   (6450, 6450); (6457, 6459); (6679, 6680); (6683, 6683); (6742, 6742);
   (6744, 6750); (6752, 6752); (6754, 6754); (6757, 6764); (6771, 6780);
   (6783, 6783); (6823, 6823); (6832, 6862); (6912, 6915); (6964, 6964);
   (6966, 6970); (6972, 6972); (6978, 6978); (7019, 7027); (7040, 7041);
   (7074, 7077); (7080, 7081); (7083, 7085); (7142, 7142); (7144, 7145);
   (7149, 7149); (7151, 7153); (7212, 7219); (7222, 7223); (7288, 7293);
   (7376, 7378); (7380, 7392); (7394, 7400); (7405, 7405); (7412, 7412);
   (7416, 7417); (7468, 7530); (7544, 7544); (7579, 7679); (8125, 8125);
   (8127, 8129); (8141, 8143); (8157, 8159); (8173, 8175); (8189, 8190);
   (8203, 8207); (8216, 8217); (8228, 8228); (8231, 8231); (8234, 8238);
   (8288, 8292); (8294, 8303); (8305, 8305); (8319, 8319); (8336, 8348);
   (8400, 8432); (11388, 11389); (11503, 11505); (11631, 11631);
   (11647, 11647); (11744, 11775); (11823, 11823); (12293, 12293);
   (12330, 12333); (12337, 12341); (12347, 12347); (12441, 12446);
   (12540, 12542); (40981, 40981); (42232, 42237); (42508, 42508);
   (42607, 42610); (42612, 42621); (42623, 42623); (42652, 42655);
   (42736, 42737); (42752, 42785); (42864, 42864); (42888, 42890);
   (42994, 42996); (43000, 43001); (43010, 43010); (43014, 43014);
   (43019, 43019); (43045, 43046); (43052, 43052); (43204, 43205);
   (43232, 43249); (43263, 43263); (43302, 43309); (43335, 43345);
   (43392, 43394); (43443, 43443); (43446, 43449); (43452, 43453);
   (43471, 43471); (43493, 43494); (43561, 43566); (43569, 43570);
   (43573, 43574); (43587, 43587); (43596, 43596); (43632, 43632);
   (43644, 43644); (43696, 43696); (43698, 43700); (43703, 43704);
   (43710, 43711); (43713, 43713); (43741, 43741); (43756, 43757);
   (43763, 43764); (43766, 43766); (43867, 43871); (43881, 43883);
   (44005, 44005); (44008, 44008); (44013, 44013); (64286, 64286);
   (64434, 64450); (65024, 65039); (65043, 65043); (65056, 65071);
   (65106, 65106); (65109, 65109); (65279, 65279); (65287, 65287);
   (65294, 65294); (65306, 65306); (65342, 65342); (65344, 65344);
   (65392, 65392); (65438, 65439); (65507, 65507); (65529, 65531);
   (66045, 66045); (66272, 66272); (66422, 66426); (67456, 67461);
   (67463, 67504); (67506, 67514); (68097, 68099); (68101, 68102);
   (68108, 68111); (68152, 68154); (68159, 68159); (68325, 68326);
   (68900, 68903); (69291, 69292); (69446, 69456); (69506, 69509);
   (69633, 69633); (69688, 69702); (69744, 69744); (69747, 69748);
   (69759, 69761); (69811, 69814); (69817, 69818); (69821, 69821);
   (69826, 69826); (69837, 69837); (69888, 69890); (69927, 69931);
   (69933, 69940); (70003, 70003); (70016, 70017); (70070, 70078);
   (70089, 70092); (70095, 70095); (70191, 70193); (70196, 70196);
   (70198, 70199); (70206, 70206); (70367, 70367); (70371, 70378);
   (70400, 70401); (70459, 70460); (70464, 70464); (70502, 70508);
   (70512, 70516); (70712, 70719); (70722, 70724); (70726, 70726);
   (70750, 70750); (70835, 70840); (70842, 70842); (70847, 70848);
   (70850, 70851); (71090, 71093); (71100, 71101); (71103, 71104);
   (71132, 71133); (71219, 71226); (71229, 71229); (71231, 71232);
   (71339, 71339); (71341, 71341); (71344, 71349); (71351, 71351);
   (71453, 71455); (71458, 71461); (71463, 71467); (71727, 71735);
   (71737, 71738); (71995, 71996); (71998, 71998); (72003, 72003);
   (72148, 72151); (72154, 72155); (72160, 72160); (72193, 72202);
   (72243, 72248); (72251, 72254); (72263, 72263); (72273, 72278);
   (72281, 72283); (72330, 72342); (72344, 72345); (72752, 72758);
   (72760, 72765); (72767, 72767); (72850, 72871); (72874, 72880);
   (72882, 72883); (72885, 72886); (73009, 73014); (73018, 73018);
   (73020, 73021); (73023, 73029); (73031, 73031); (73104, 73105);
   (73109, 73109); (73111, 73111); (73459, 73460); (78896, 78904);
   (92912, 92916); (92976, 92982); (92992, 92995); (94031, 94031);
   (94095, 94111); (94176, 94177); (94179, 94180); (110576, 110579);
   (110581, 110587); (110589, 110590); (113821, 113822); (113824, 113827);
   (118528, 118573); (118576, 118598); (119143, 119145); (119155, 119170);
   (119173, 119179); (119210, 119213); (119362, 119364); (121344, 121398);
   (121403, 121452); (121461, 121461); (121476, 121476); (121499, 121503);
   (121505, 121519); (122880, 122886); (122888, 122904); (122907, 122913);
   (122915, 122916); (122918, 122922); (123184, 123197); (123566, 123566);
   (123628, 123631); (125136, 125142); (125252, 125259); (127995, 127999);
   (917505, 917505); (917536, 917631); (917760, 917999)].

(** The code points for which [str.isspace] holds. *)
Definition space_table : list (Z * Z) :=
  [(9, 13); (28, 32); (133, 133); (160, 160); (5760, 5760); (8192, 8202);
   (8232, 8233); (8239, 8239); (8287, 8287); (12288, 12288)].

Definition in_ranges (ranges : list (Z * Z)) (c : Z) : bool :=
  existsb (fun '(lo, hi) => (lo <=? c) && (c <=? hi)) ranges.

(** [c.isspace()] *)
Definition is_space (c : Z) : bool := in_ranges space_table c.

Definition cased (c : Z) : bool := in_ranges cased_table c.

Definition case_ignorable (c : Z) : bool := in_ranges case_ignorable_table c.

Fixpoint to_lower_in (table : list (Z * Z * Z * Z)) (c : Z) : Z :=
  match table with
  | [] => c
  | (lo, hi, step, d) :: table' =>
      if (lo <=? c) && (c <=? hi) && ((c - lo) mod step =? 0)
      then c + d
      else to_lower_in table' c
  end.

(** The lower-case form of one code point out of context: one code point,
    except for the capital I with dot above. *)
Definition lower_point (c : Z) : list Z :=
  if c =? 304 then [105; 775] else [to_lower_in lower_table c].

(** *** [s.lower()] *)

(** The nearest code point before, skipping the case-ignorable ones, is
    cased ([before] is the text before, nearest first). *)
Fixpoint cased_before (before : list Z) : bool :=
  match before with
  | [] => false
  | c :: before' => if case_ignorable c then cased_before before' else cased c
  end.

(** No cased code point follows, skipping the case-ignorable ones. *)
Fixpoint uncased_after (rest : list Z) : bool :=
  match rest with
  | [] => true
  | c :: rest' => if case_ignorable c then uncased_after rest' else negb (cased c)
  end.

Definition capital_sigma : Z := 931.

(** A capital sigma becomes the final small sigma at the end of a word and
    the small sigma elsewhere. *)
Definition lower_sigma (before rest : list Z) : Z :=
  if cased_before before && uncased_after rest then 962 else 963.

Fixpoint lower_from (before : list Z) (s : str) : str :=
  match s with
  | [] => []
  | c :: rest =>
      (if c =? capital_sigma then [lower_sigma before rest] else lower_point c)
      ++ lower_from (c :: before) rest
  end.

Definition lower (s : str) : str := lower_from [] s.

(** *** [s.strip()] *)

(** [s.lstrip()] *)
Fixpoint lstrip (s : str) : str :=
  match s with
  | [] => []
  | c :: s' => if is_space c then lstrip s' else s
  end.

(** [s.rstrip()]: a code point is dropped when it is whitespace and nothing
    but whitespace follows it. *)
Fixpoint rstrip (s : str) : str :=
  match s with
  | [] => []
  | c :: s' =>
      match rstrip s' with
      | [] => if is_space c then [] else [c]
      | r => c :: r
      end
  end.

Definition strip (s : str) : str := rstrip (lstrip s).

End PyStr.

(** ** Python values and exceptions *)

(** The exceptions the engine meets.  [KeyError], [IndexError] and
    [OtherError] (any other error: a timeout, an HTTP error, a
    [TypeError], ...) are subclasses of [Exception]; [CancelledError],
    [KeyboardInterrupt] and [SystemExit] derive from [BaseException] only
    (since Python 3.8 for [asyncio.CancelledError]). *)
Inductive py_exc : Type :=
  | KeyError (key : string)
  | IndexError
  | OtherError (msg : string)
  | CancelledError
  | KeyboardInterrupt
  | SystemExit.

(** [isinstance(e, Exception)]: what [except Exception] catches. *)
Definition is_Exception (e : py_exc) : bool :=
  match e with
  | KeyError _ | IndexError | OtherError _ => true
  | CancelledError | KeyboardInterrupt | SystemExit => false
  end.

Inductive py_result (A : Type) : Type :=
  | Return (a : A)
  | Raise (e : py_exc).

Arguments Return {A} a.
Arguments Raise {A} e.

#[global] Instance py_result_ret : MRet py_result := fun A a => Return a.

#[global] Instance py_result_bind : MBind py_result := fun A B k m =>
  match m with
  | Return a => k a
  | Raise e => Raise e
  end.

(** The values a listing dictionary holds: text scraped from the page, the
    integer columns of the data model, and [None] for a nullable column. *)
Inductive py_val : Type :=
  | VStr (s : string)
  | VInt (z : Z)
  | VNone.

(** [format(v, "")], what an f-string placeholder [{v}] produces. *)
Definition py_str (v : py_val) : PyStr.str :=
  match v with
  | VStr s => PyStr.of_utf8 s
  | VInt z => PyStr.of_utf8 (pretty z)
  | VNone => PyStr.of_utf8 "None"
  end.

(** [d[k]] on a dictionary: [KeyError] when the key is missing. *)
Definition getitem {V : Type} (d : gmap string V) (k : string) : py_result V :=
  match d !! k with
  | Some v => Return v
  | None => Raise (KeyError k)
  end.

(** ** SHA-256 (FIPS 180-4), as [hashlib.sha256(b).hexdigest()] *)

Module SHA256.
Local Open Scope Z_scope.

Definition mask32 : Z := 0xffffffff.
Definition add32 (x y : Z) : Z := Z.land (x + y) mask32.
Definition rotr (n x : Z) : Z :=
  Z.lor (Z.shiftr x n) (Z.land (Z.shiftl x (32 - n)) mask32).
Definition not32 (x : Z) : Z := Z.lxor x mask32.

Definition Ch (x y z : Z) : Z := Z.lxor (Z.land x y) (Z.land (not32 x) z).
Definition Maj (x y z : Z) : Z :=
  Z.lxor (Z.lxor (Z.land x y) (Z.land x z)) (Z.land y z).
Definition bsig0 (x : Z) : Z :=
  Z.lxor (Z.lxor (rotr 2 x) (rotr 13 x)) (rotr 22 x).
Definition bsig1 (x : Z) : Z :=
  Z.lxor (Z.lxor (rotr 6 x) (rotr 11 x)) (rotr 25 x).
Definition ssig0 (x : Z) : Z :=
  Z.lxor (Z.lxor (rotr 7 x) (rotr 18 x)) (Z.shiftr x 3).
Definition ssig1 (x : Z) : Z :=
  Z.lxor (Z.lxor (rotr 17 x) (rotr 19 x)) (Z.shiftr x 10).

(** The primes below 312, by trial division: the first 64 primes. *)
Definition is_prime (n : Z) : bool :=
  forallb (fun d => negb (n mod d =? 0)) (seqZ 2 (n - 2)).

Definition primes : list Z := List.filter is_prime (seqZ 2 310).

(** Integer cube root, one bit at a time from the top. *)
Definition icbrt (n : Z) : Z :=
  fold_left (fun r b => let c := r + 2 ^ b in
                        if c * c * c <=? n then c else r)
    (reverse (seqZ 0 40)) 0.

(** The round constants: the first 32 bits of the fractional parts of the
    cube roots of the first 64 primes. *)
Definition K : list Z :=
  Eval vm_compute in
    map (fun p => Z.land (icbrt (p * 2 ^ 96)) mask32) primes.

(** The initial hash value: the first 32 bits of the fractional parts of the
    square roots of the first 8 primes. *)
Definition H0 : list Z :=
  Eval vm_compute in
    map (fun p => Z.land (Z.sqrt (p * 2 ^ 64)) mask32) (take 8 primes).

(** Big-endian bytes of the low [8 * n] bits of [x]. *)
Fixpoint be_bytes (n : nat) (x : Z) : list Z :=
  match n with
  | O => []
  | S n' => Z.land (Z.shiftr x (8 * Z.of_nat n')) 0xff :: be_bytes n' x
  end.

(** Padding: the bit 1, zeros up to 56 modulo 64, the bit length on 8 bytes. *)
Definition pad (msg : list Z) : list Z :=
  let len := Z.of_nat (length msg) in
  msg ++ [0x80] ++ replicate (Z.to_nat ((55 - len) mod 64)) 0
      ++ be_bytes 8 (8 * len).

Fixpoint be_words (fuel : nat) (bs : list Z) : list Z :=
  match fuel, bs with
  | S fuel', b0 :: b1 :: b2 :: b3 :: rest =>
      (Z.shiftl b0 24 + Z.shiftl b1 16 + Z.shiftl b2 8 + b3)
        :: be_words fuel' rest
  | _, _ => []
  end.

Definition word_at (w : list Z) (i : nat) : Z := nth i w 0.

(** The message schedule: 16 block words extended to 64. *)
Fixpoint schedule (fuel : nat) (w : list Z) : list Z :=
  match fuel with
  | O => w
  | S fuel' =>
      let t := length w in
      let x :=
        add32 (add32 (ssig1 (word_at w (t - 2))) (word_at w (t - 7)))
              (add32 (ssig0 (word_at w (t - 15))) (word_at w (t - 16))) in
      schedule fuel' (w ++ [x])
  end.

Record regs : Type := Regs { ra : Z; rb : Z; rc : Z; rd : Z;
                             re : Z; rf : Z; rg : Z; rh : Z }.

Definition round (s : regs) (kw : Z * Z) : regs :=
  let t1 := add32 (add32 (add32 (rh s) (bsig1 (re s)))
                         (add32 (Ch (re s) (rf s) (rg s)) (fst kw)))
                  (snd kw) in
  let t2 := add32 (bsig0 (ra s)) (Maj (ra s) (rb s) (rc s)) in
  Regs (add32 t1 t2) (ra s) (rb s) (rc s) (add32 (rd s) t1) (re s) (rf s) (rg s).

Definition compress (h : regs) (block : list Z) : regs :=
  let w := schedule 48 (be_words 16 block) in
  let s := fold_left round (combine K w) h in
  Regs (add32 (ra h) (ra s)) (add32 (rb h) (rb s))
       (add32 (rc h) (rc s)) (add32 (rd h) (rd s))
       (add32 (re h) (re s)) (add32 (rf h) (rf s))
       (add32 (rg h) (rg s)) (add32 (rh h) (rh s)).

Fixpoint blocks (fuel : nat) (bs : list Z) : list (list Z) :=
  match fuel, bs with
  | S fuel', _ :: _ => take 64 bs :: blocks fuel' (drop 64 bs)
  | _, _ => []
  end.

Definition initial_hash : regs :=
  Regs (word_at H0 0) (word_at H0 1) (word_at H0 2) (word_at H0 3)
       (word_at H0 4) (word_at H0 5) (word_at H0 6) (word_at H0 7).

Definition digest_words (msg : list Z) : list Z :=
  let p := pad msg in
  let s := fold_left compress (blocks (length p) p) initial_hash in
  [ra s; rb s; rc s; rd s; re s; rf s; rg s; rh s].

Definition hex_digit (d : Z) : ascii :=
  if d <? 10 then ascii_of_nat (Z.to_nat (48 + d))
  else ascii_of_nat (Z.to_nat (87 + d)).

Fixpoint hex_of_bytes (bs : list Z) : string :=
  match bs with
  | [] => EmptyString
  | b :: rest =>
      String (hex_digit (Z.shiftr b 4))
        (String (hex_digit (Z.land b 0xf)) (hex_of_bytes rest))
  end.

(** [hashlib.sha256(msg).hexdigest()] *)
Definition hexdigest (msg : list Z) : string :=
  hex_of_bytes (flat_map (be_bytes 4) (digest_words msg)).

End SHA256.

(** Known answers (FIPS 180-4 test vectors). *)
Example sha256_empty :
  SHA256.hexdigest (PyStr.encode (PyStr.of_utf8 ""))
  = "e3b0c44298fc1c149afbf4c8996fb92427ae41e4649b934ca495991b7852b855".
Proof. vm_compute. reflexivity. Qed.

Example sha256_abc :
  SHA256.hexdigest (PyStr.encode (PyStr.of_utf8 "abc"))
  = "ba7816bf8f01cfea414140de5dae2223b00361a396177a9cb410ff61f20015ad".
Proof. vm_compute. reflexivity. Qed.

Example sha256_two_blocks :
  SHA256.hexdigest
    (PyStr.encode
       (PyStr.of_utf8 "abcdbcdecdefdefgefghfghighijhijkijkljklmklmnlmnomnopnopq"))
  = "248d6a61d20638b8e5c026930c3e6039a33ce45964ff2167f6ecedd419db06c1".
Proof. vm_compute. reflexivity. Qed.

(** ** The aggregated store *)

(** A row of [aggregated_listings]: the columns the engine reads or writes
    ([duplicate_of] is the column of the SQL schema). *)
Record AggregatedListing : Type := {
  al_id : Z;
  al_title : string;
  al_price : option Z;
  al_address : string;
  al_agency_id : Z;
  al_source_url : string;
  al_is_active : bool;
  al_hash : string;
  al_duplicate_of : option Z
}.

(** ** Deduplication *)

Module DeduplicationEngine.
Import PyStr.

(** The f-string of [generate_hash]. *)
Definition signature_of (title price address : py_val) : str :=
  (py_str title ++ of_utf8 "|" ++ py_str price ++ of_utf8 "|"
   ++ py_str address)%list.

Definition generate_hash (listing : gmap string py_val) : py_result string :=
  title ← getitem listing "title";
  price ← getitem listing "price";
  address ← getitem listing "address";
  let signature := signature_of title price address in
  let signature := strip (lower signature) in
  mret (SHA256.hexdigest (encode signature)).

(** [db.query(AggregatedListing).filter(AggregatedListing.hash == h).first()] *)
Definition query_by_hash (db : list AggregatedListing) (h : string)
  : option AggregatedListing :=
  head (filter (fun r => al_hash r = h) db).

(** [check_duplicate] reads the store and hands it back as it found it. *)
Definition check_duplicate (listing : gmap string py_val)
    (db : list AggregatedListing) : py_result bool * list AggregatedListing :=
  (hash_value ← generate_hash listing;
   let existing := query_by_hash db hash_value in
   mret (bool_decide (existing ≠ None)),
   db).

End DeduplicationEngine.

(** ** Format detection *)

Module FormatDetector.

Record pattern : Type := {
  selectors : list string;
  indicators : list string
}.

(** The class-level table, in the order [PATTERNS.items()] walks it. *)
Definition PATTERNS : list (string * pattern) :=
  [ ("wordpress",
     {| selectors := [".post"; ".property"; ".listing"];
        indicators := ["wp-content"; "wp-includes"] |});
    ("wix",
     {| selectors := ["[data-mesh-id]"; ".wixui"];
        indicators := ["wix.com"; "wixstatic.com"] |});
    ("shopify",
     {| selectors := [".product"; ".listing"];
        indicators := ["shopify.com"; "cdn.shopify.com"] |});
    ("custom",
     {| selectors := ["[data-listing]"; ".property-card"; ".annonce"];
        indicators := [] |});
    ("immobilier_pro",
     {| selectors := [".bien"; ".annonce"; ".property"];
        indicators := ["immobilier"; "bien"; "annonce"] |}) ].

(** The dictionary [detect] returns; the key ["structure"] is present only
    on the fallback path. *)
Record format_info (Structure : Type) : Type := {
  platform : string;
  fi_selectors : list string;
  structure : option Structure
}.
Arguments platform {Structure} _.
Arguments fi_selectors {Structure} _.
Arguments structure {Structure} _.

Definition keywords : list string :=
  ["annonce"; "bien"; "property"; "listing"; "offer"].

(** [generate_selectors]: five selectors per keyword, whatever the
    structure is. *)
Definition generate_selectors {Structure : Type} (structure : Structure)
  : list string :=
  flat_map
    (fun keyword =>
       [ "." +:+ keyword;
         "[class*='" +:+ keyword +:+ "']";
         "#" +:+ keyword;
         "[id*='" +:+ keyword +:+ "']";
         "[data-" +:+ keyword +:+ "]" ])
    keywords.

Section Detect.
Context {Structure : Type}.
(** [check_indicators] and [analyze_structure] are called by [detect]
    and defined nowhere in the document: they are parameters. *)
Variable check_indicators : string -> string -> list string -> bool.
Variable analyze_structure : string -> Structure.

(** The [for platform, patterns in ...items()] loop with its early return. *)
Fixpoint scan (table : list (string * pattern)) (html url : string)
  : option (format_info Structure) :=
  match table with
  | [] => None
  | (platform, patterns) :: rest =>
      if check_indicators html url (indicators patterns)
      then Some {| platform := platform;
                   fi_selectors := selectors patterns;
                   structure := None |}
      else scan rest html url
  end.

Definition detect (html url : string) : format_info Structure :=
  match scan PATTERNS html url with
  | Some found => found
  | None =>
      let structure := analyze_structure html in
      let selectors := generate_selectors structure in
      {| platform := "custom";
         fi_selectors := selectors;
         structure := Some structure |}
  end.
End Detect.

End FormatDetector.

(** ** Extraction *)

Module DynamicParser.

Definition FIELD_PATTERNS : list (string * list string) :=
  [ ("title", ["h1"; "h2"; ".title"; ".name"; "[data-title]"]);
    ("price", [".price"; ".montant"; "[data-price]"; "span:contains('€')"]);
    ("surface", [".surface"; ".m2"; "[data-surface]"]);
    ("rooms", [".rooms"; ".pieces"; "[data-rooms]"]);
    ("description", [".description"; ".details"; "p"]);
    ("images", ["img"; "[data-image]"; ".gallery"]);
    ("contact", [".contact"; ".agent"; "[data-agent]"]) ].

(** What [element.select_one(pattern)] does: it finds a tag, whose
    [get_text(strip=True)] is [text]; or it finds none and returns [None];
    or it raises (a selector the engine rejects). A tag is always truthy. *)
Inductive select_outcome : Type :=
  | Selected (text : string)
  | NoMatch
  | SelectRaises.

(** A listing element, seen through [select_one]. *)
Definition element : Type := string -> select_outcome.

(** The inner loop over one field's patterns: the first tag found wins,
    [break]; an exception moves on to the next pattern. *)
Fixpoint first_match (el : element) (patterns : list string) : option string :=
  match patterns with
  | [] => None
  | pattern :: rest =>
      match el pattern with
      | Selected text => Some text
      | NoMatch => first_match el rest
      | SelectRaises => first_match el rest
      end
  end.

(** The outer loop over the fields, filling the dictionary. *)
Fixpoint extract_fields (el : element) (table : list (string * list string))
    (listing : gmap string py_val) : gmap string py_val :=
  match table with
  | [] => listing
  | (field, patterns) :: rest =>
      match first_match el patterns with
      | Some text => extract_fields el rest (<[field := VStr text]> listing)
      | None => extract_fields el rest listing
      end
  end.

(** [return listing if listing else None]: an empty dictionary is falsy. *)
Definition extract_listing (el : element) : option (gmap string py_val) :=
  let listing := extract_fields el FIELD_PATTERNS ∅ in
  if decide (listing = ∅) then None else Some listing.

(** The loop of [parse] over the selected elements. *)
Fixpoint parse_elements (listing_elements : list element)
    (listings : list (gmap string py_val)) : list (gmap string py_val) :=
  match listing_elements with
  | [] => listings
  | el :: rest =>
      match extract_listing el with
      | Some listing => parse_elements rest (listings ++ [listing])
      | None => parse_elements rest listings
      end
  end.

(** [", ".join(selectors)] *)
Fixpoint join (sep : string) (l : list string) : string :=
  match l with
  | [] => ""
  | [x] => x
  | x :: rest => x +:+ sep +:+ join sep rest
  end.

Section Parse.
Context {Structure : Type}.
(** [BeautifulSoup(html, 'html.parser').select(selector)]: the page is
    outside the model, so what it selects is a parameter. *)
Variable soup_select : string -> string -> list element.

Definition parse (html : string)
    (format_info : FormatDetector.format_info Structure)
  : list (gmap string py_val) :=
  let listing_elements :=
    soup_select html (join ", " (FormatDetector.fi_selectors format_info)) in
  parse_elements listing_elements [].
End Parse.

End DynamicParser.

(** ** Proxy rotation *)

Module ProxyRotation.

(** [current_index] is a non-negative Python integer: it starts at 0 and is
    only ever assigned a remainder modulo the length of the list. *)
Record t : Type := {
  proxies : list string;
  current_index : nat
}.

(** The constructor, for a given proxy list. *)
Definition new (proxies : list string) : t :=
  {| proxies := proxies; current_index := 0 |}.

(** [__init__] as the document writes it. *)
Definition init : t :=
  new ["http://proxy1.com:8080"; "http://proxy2.com:8080";
       "http://proxy3.com:8080"].

(** Indexing raises [IndexError] before the modulo is reached, so an empty
    list never divides by zero. *)
Definition get_proxy (self : t) : py_result string * t :=
  match proxies self !! current_index self with
  | None => (Raise IndexError, self)
  | Some proxy =>
      (Return proxy,
       {| proxies := proxies self;
          current_index := (current_index self + 1) mod length (proxies self) |})
  end.

(** [n] calls in a row, with what each returned. *)
Fixpoint get_proxies (n : nat) (self : t) : list (py_result string) * t :=
  match n with
  | O => ([], self)
  | S n' =>
      let (r, self1) := get_proxy self in
      let (rs, self2) := get_proxies n' self1 in
      (r :: rs, self2)
  end.

End ProxyRotation.

(** ** Retry with backoff *)

Module ErrorHandler.

(** What the helper does that the outside can see. *)
Inductive event (A : Type) : Type :=
  | Invoke (outcome : py_result A)
  | Sleep (seconds : Z).
Arguments Invoke {A} outcome.
Arguments Sleep {A} seconds.

Section Retry.
Context {W A : Type}.
(** [await func()]: the operation runs in a world [W], may change it, and
    returns or raises. *)
Variable func : W -> py_result A * W.

(** The [for attempt in range(max_retries)] loop, on the attempts left.
    [except Exception] catches the instances of [Exception] only: any other
    exception leaves the loop as it is raised.  [asyncio.sleep] is taken to
    complete.  Falling off the end of the loop returns [None]. *)
Fixpoint retry_loop (attempts : list Z) (max_retries : Z) (w : W)
  : py_result (option A) * W * list (event A) :=
  match attempts with
  | [] => (Return None, w, [])
  | attempt :: rest =>
      let (r, w1) := func w in
      match r with
      | Return a => (Return (Some a), w1, [Invoke r])
      | Raise e =>
          if is_Exception e then
            if decide (attempt = max_retries - 1)%Z
            then (Raise e, w1, [Invoke r])
            else
              let wait_time := (2 ^ attempt)%Z in
              let '(res, w2, tr) := retry_loop rest max_retries w1 in
              (res, w2, Invoke r :: Sleep wait_time :: tr)
          else (Raise e, w1, [Invoke r])
      end
  end.

(** [range(n)] *)
Definition range (n : Z) : list Z := seqZ 0 n.

Definition retry_with_backoff (max_retries : Z) (w : W)
  : py_result (option A) * W * list (event A) :=
  retry_loop (range max_retries) max_retries w.

(** The default [max_retries=3]. *)
Definition retry_with_backoff_default (w : W)
  : py_result (option A) * W * list (event A) :=
  retry_with_backoff 3 w.

(** The outcomes of the first [n] invocations of the operation, run one
    after the other. *)
Fixpoint outcomes (n : nat) (w : W) : list (py_result A) :=
  match n with
  | O => []
  | S n' => let (r, w1) := func w in r :: outcomes n' w1
  end.
End Retry.

Definition invocations {A : Type} (tr : list (event A)) : list (py_result A) :=
  omap (fun ev => match ev with Invoke r => Some r | Sleep _ => None end) tr.

Definition sleeps {A : Type} (tr : list (event A)) : list Z :=
  omap (fun ev => match ev with Sleep s => Some s | Invoke _ => None end) tr.

Definition raised {A : Type} (r : py_result A) : bool :=
  match r with Raise _ => true | Return _ => false end.

(** An invocation that failed with an exception [except Exception]
    catches. *)
Definition caught {A : Type} (r : py_result A) : bool :=
  match r with Raise e => is_Exception e | Return _ => false end.

(** What the helper answers when [r] is the last invocation it makes. *)
Definition answer {A : Type} (r : py_result A) : py_result (option A) :=
  match r with Return a => Return (Some a) | Raise e => Raise e end.

End ErrorHandler.

(** ** Agencies *)

(** A row of [agencies]: the columns the engine reads or writes. *)
Record Agency : Type := {
  ag_id : Z;
  ag_name : string;
  ag_phone : option string;
  ag_email : option string;
  ag_website_url : string;
  ag_discovered_from : list string;
  ag_scraping_status : string;
  ag_is_active : bool
}.

(** ** Change detection *)

#[global] Instance AggregatedListing_eq_dec : EqDecision AggregatedListing.
Proof. solve_decision. Defined.

Module ChangeDetector.

(** [db.query(AggregatedListing).filter(agency_id == agency.id,
    is_active == True).all()] *)
Definition active_listings (agency : Agency) (rows : list AggregatedListing)
  : list AggregatedListing :=
  filter (fun r => al_agency_id r = ag_id agency /\ al_is_active r = true) rows.

Section Detect.
Context {W Scraped New Removed : Type}.
(** [self.scraper] is bound nowhere in the document.  Its [scrape_agency] is
    awaited: it acts on the world (the scraper of the document saves what it
    scrapes) and what it returns, [None] for a method without [return], is
    [current_listings]. *)
Variable scrape_agency : Agency -> W -> py_result Scraped * W.
(** The rows of [aggregated_listings] in a world: what [db.query] reads. *)
Variable stored : W -> list AggregatedListing.
(** [find_new], [find_removed] and [notify_changes] are called by
    [detect_changes] and defined nowhere in the document. *)
Variable find_new : Scraped -> list AggregatedListing -> py_result New.
Variable find_removed : Scraped -> list AggregatedListing -> py_result Removed.
Variable notify_changes : Agency -> New -> Removed -> W -> py_result unit * W.

(** One cycle.  The store is read after the scrape, in the world the scrape
    left. *)
Definition detect_changes (agency : Agency) (w : W) : py_result unit * W :=
  let (scraped, w1) := scrape_agency agency w in
  match scraped with
  | Raise e => (Raise e, w1)
  | Return current_listings =>
      let previous_listings := active_listings agency (stored w1) in
      match find_new current_listings previous_listings with
      | Raise e => (Raise e, w1)
      | Return new_listings =>
          match find_removed current_listings previous_listings with
          | Raise e => (Raise e, w1)
          | Return removed_listings =>
              notify_changes agency new_listings removed_listings w1
          end
      end
  end.
End Detect.

(** *** The comparison and the deactivation of the specification *)

(** The hashes of a scrape's listings; a listing without the three keys
    has none. *)
Definition fresh_hashes (current : list (gmap string py_val)) : list string :=
  omap (fun l => match DeduplicationEngine.generate_hash l with
                 | Return h => Some h
                 | Raise _ => None
                 end) current.

(** Modelled from the spec: [find_new] is absent from the document; the
    change detector "compares the set of hashes discovered in the current
    scrape against the set of currently-active hashes stored for that
    agency", the added ones being the scraped listings whose hash is not
    stored. *)
Definition find_new_by_hash (current : list (gmap string py_val))
    (previous : list AggregatedListing) : list (gmap string py_val) :=
  List.filter
    (fun l => match DeduplicationEngine.generate_hash l with
              | Return h => bool_decide (h ∉ map al_hash previous)
              | Raise _ => false
              end) current.

(** Modelled from the spec: [find_removed] is absent from the document;
    the removal candidates are the stored active rows whose hash the
    current scrape did not find. *)
Definition find_removed_by_hash (current : list (gmap string py_val))
    (previous : list AggregatedListing) : list AggregatedListing :=
  filter (fun r => al_hash r ∉ fresh_hashes current) previous.

(** Modelled from the spec: the count of absences is absent from the
    document and from its tables; a listing is "marked inactive only after
    it is absent across a configured number (default 3) of consecutive
    successful scrape cycles", so each stored row carries the number of
    successful cycles in a row that did not find it. *)
Record tracked : Type := {
  t_row : AggregatedListing;
  t_absent : nat
}.

(** What the notifier is handed. *)
Record notification : Type := {
  n_agency : Z;
  n_new : list (gmap string py_val);
  n_removed : list AggregatedListing
}.

(** The tracked store, the notifications sent so far, and whatever the
    scraper keeps between two scrapes. *)
Record world (St : Type) : Type := {
  rows : list tracked;
  outbox : list notification;
  scraper_state : St
}.
Arguments rows {St} _.
Arguments outbox {St} _.
Arguments scraper_state {St} _.

Definition default_threshold : nat := 3.

(** The storage operation [DeactivateListing]. *)
Definition deactivate (r : AggregatedListing) : AggregatedListing :=
  {| al_id := al_id r;
     al_title := al_title r;
     al_price := al_price r;
     al_address := al_address r;
     al_agency_id := al_agency_id r;
     al_source_url := al_source_url r;
     al_is_active := false;
     al_hash := al_hash r;
     al_duplicate_of := al_duplicate_of r |}.

(** Modelled from the spec: what a successful cycle does to one row, the
    removal candidates being [removed].  An active row of the agency that is
    a removal candidate has been absent once more and is deactivated when
    that makes [K] cycles in a row; an active row of the agency that the
    scrape found starts again from no absence; any other row is left
    alone. *)
Definition count_absence (K : nat) (agency : Agency)
    (removed : list AggregatedListing) (t : tracked) : tracked :=
  if decide (al_agency_id (t_row t) = ag_id agency
             /\ al_is_active (t_row t) = true)
  then
    if decide (t_row t ∈ removed)
    then
      {| t_row := if decide (K <= S (t_absent t))
                  then deactivate (t_row t) else t_row t;
         t_absent := S (t_absent t) |}
    else {| t_row := t_row t; t_absent := 0 |}
  else t.

(** Modelled from the spec: [notify_changes] is absent from the document;
    the storage write comes first and the events are emitted after it. *)
Definition record_changes {St : Type} (K : nat) (agency : Agency)
    (new_listings : list (gmap string py_val))
    (removed_listings : list AggregatedListing) (w : world St)
  : py_result unit * world St :=
  (Return (),
   {| rows := count_absence K agency removed_listings <$> rows w;
      outbox := outbox w ++ [ {| n_agency := ag_id agency;
                                n_new := new_listings;
                                n_removed := removed_listings |} ];
      scraper_state := scraper_state w |}).

Section Cycles.
Context {St : Type}.
(** The scraper bound to the detector.  The [scrape_agency] the document
    defines has no [return]; the comparison of the specification needs the
    listings of the scrape, so the scraper here is any one that returns the
    listings it found, as in the usage the document shows
    ([listings = await scraper.scrape_agency(...)]), or raises.  It acts on
    the world: it may save what it found. *)
Variable scrape_agency :
  Agency -> world St -> py_result (list (gmap string py_val)) * world St.

(** One cycle: [detect_changes] with the comparison and the deactivation of
    the specification. *)
Definition cycle (K : nat) (agency : Agency) (w : world St)
  : py_result unit * world St :=
  detect_changes
    scrape_agency
    (fun w => t_row <$> rows w)
    (fun current previous => Return (find_new_by_hash current previous))
    (fun current previous => Return (find_removed_by_hash current previous))
    (record_changes K)
    agency w.

(** The scheduler's [n] successive cycles for one agency; a cycle that
    raised is followed by the next one all the same. *)
Fixpoint run_cycles (K : nat) (agency : Agency) (n : nat) (w : world St)
  : world St :=
  match n with
  | O => w
  | S n' => run_cycles K agency n' (cycle K agency w).2
  end.

(** What the scraper answered in each of these cycles. *)
Fixpoint scrapes (K : nat) (agency : Agency) (n : nat) (w : world St)
  : list (py_result (list (gmap string py_val))) :=
  match n with
  | O => []
  | S n' => (scrape_agency agency w).1 :: scrapes K agency n' (cycle K agency w).2
  end.
End Cycles.

(** The listings of the successful scrapes, in order. *)
Definition snapshots (cycles : list (py_result (list (gmap string py_val))))
  : list (list (gmap string py_val)) :=
  omap (fun scraped => match scraped with
                       | Return current => Some current
                       | Raise _ => None
                       end) cycles.

End ChangeDetector.

(** ** Agency discovery *)

Module Discovery.

(** What a lookup provider returns for an agency, with the tags of the
    providers that found it. *)
Record AgencyCandidate : Type := {
  cand_name : string;
  cand_phone : option string;
  cand_email : option string;
  cand_url : string;
  cand_provenance : list string
}.

(** First non-empty value wins. *)
Definition fill {A : Type} (stored incoming : option A) : option A :=
  match stored with
  | Some _ => stored
  | None => incoming
  end.

Definition fill_text (stored incoming : string) : string :=
  if decide (stored = "") then incoming else stored.

(** Union of provenance tags: the stored ones, then the new ones. *)
Definition add_tag (tags : list string) (tag : string) : list string :=
  if decide (tag ∈ tags) then tags else tags ++ [tag].

Definition union_tags (tags more : list string) : list string :=
  fold_left add_tag more tags.

Section KeyedUpsert.
Context {X C : Type}.
Variable key : X -> string.
Variable ckey : C -> string.
Variable combine : X -> C -> X.
Variable create : C -> X.

(** Modelled from the spec: the merge by key that both the candidate merge
    and the store upsert perform, absent from the document: the first row
    with the incoming key absorbs the incoming record ("on collision ..."),
    and a key not yet seen gets a new row at the end. *)
Fixpoint upsert_by (rows : list X) (c : C) : list X :=
  match rows with
  | [] => [create c]
  | x :: rest =>
      if decide (key x = ckey c)
      then combine x c :: rest
      else x :: upsert_by rest c
  end.
End KeyedUpsert.

Section Engine.
(** The URL normalizer (scheme, host and path canonicalization, trailing
    slash and [www.] stripped) is absent from the document: a parameter. *)
Variable normalize_url : string -> string.

Definition cand_key (c : AgencyCandidate) : string := normalize_url (cand_url c).
Definition agency_key (a : Agency) : string := normalize_url (ag_website_url a).

(** Modelled from the spec: the merge of two candidates, absent from the
    document: "on collision, provenance sets are unioned and non-empty fields
    are filled from whichever candidate supplies them (first-non-empty-wins,
    deterministic by provider priority order)". *)
Definition combine_candidates (kept incoming : AgencyCandidate) : AgencyCandidate :=
  {| cand_name := fill_text (cand_name kept) (cand_name incoming);
     cand_phone := fill (cand_phone kept) (cand_phone incoming);
     cand_email := fill (cand_email kept) (cand_email incoming);
     cand_url := cand_url kept;
     cand_provenance := union_tags (cand_provenance kept) (cand_provenance incoming) |}.

(** Modelled from the spec: the merge of the found candidates, absent from
    the document: "candidates are merged by normalized URL". *)
Definition merge_candidates (found : list AgencyCandidate) : list AgencyCandidate :=
  fold_left (upsert_by cand_key cand_key combine_candidates id) found [].

(** What the providers found for an area, in priority order; a provider that
    failed or timed out answers [None] and contributes nothing. *)
Definition lookup_all (providers : list (string -> option (list AgencyCandidate)))
    (area : string) : list AgencyCandidate :=
  concat ((fun lookup => default [] (lookup area)) <$> providers).

(** Modelled from the spec: [Discover(area)], absent from the document: it
    "queries N independent external lookup providers", "a provider failure
    does not fail the overall call", and the candidates are merged. *)
Definition Discover (providers : list (string -> option (list AgencyCandidate)))
    (area : string) : list AgencyCandidate :=
  merge_candidates (lookup_all providers area).

(** Modelled from the spec: the enrichment of a stored agency, absent from
    the document: "existing agencies get provenance/contact enrichment"; a
    candidate for an inactive agency "reactivates it". *)
Definition enrich (a : Agency) (c : AgencyCandidate) : Agency :=
  {| ag_id := ag_id a;
     ag_name := fill_text (ag_name a) (cand_name c);
     ag_phone := fill (ag_phone a) (cand_phone c);
     ag_email := fill (ag_email a) (cand_email c);
     ag_website_url := ag_website_url a;
     ag_discovered_from := union_tags (ag_discovered_from a) (cand_provenance c);
     ag_scraping_status := ag_scraping_status a;
     ag_is_active := true |}.

(** Modelled from the spec: the row created for an unseen URL, absent from
    the document: "unseen URLs create new Agency rows in pending status". *)
Definition new_agency (id : Z) (c : AgencyCandidate) : Agency :=
  {| ag_id := id;
     ag_name := cand_name c;
     ag_phone := cand_phone c;
     ag_email := cand_email c;
     ag_website_url := cand_url c;
     ag_discovered_from := cand_provenance c;
     ag_scraping_status := "pending";
     ag_is_active := true |}.

(** Modelled from the spec: the upsert of one candidate into the agency
    store, absent from the document. The new row's key is the next one of
    the table. *)
Definition upsert (store : list Agency) (c : AgencyCandidate) : list Agency :=
  upsert_by agency_key cand_key enrich
    (new_agency (1 + Z.of_nat (length store))) store c.

(** Modelled from the spec: [DiscoverArea(area)], absent from the document:
    "output candidates are upserted into the Agency store". *)
Definition DiscoverArea (providers : list (string -> option (list AgencyCandidate)))
    (area : string) (store : list Agency) : list Agency :=
  fold_left upsert (Discover providers area) store.

(** Modelled from the spec: the discoveries run one after the other, each
    with the providers and the area of its run, on the store the one before
    left. *)
Definition DiscoverAreas
    (runs : list (list (string -> option (list AgencyCandidate)) * string))
    (store : list Agency) : list Agency :=
  fold_left (fun store run => DiscoverArea run.1 run.2 store) runs store.

(** The rows of the store that stand for a URL. *)
Definition rows_for (url : string) (store : list Agency) : list Agency :=
  filter (fun a => agency_key a = normalize_url url) store.

(** One agency per normalized website URL. *)
Definition one_per_url (store : list Agency) : Prop :=
  NoDup (agency_key <$> store).
End Engine.

(** Modelled from the spec: a URL normalizer, absent from the document:
    "trailing slash and [www.] stripped", with the scheme dropped and the
    case folded. *)
Definition drop_prefix (pre s : string) : string :=
  if String.prefix pre s
  then String.substring (String.length pre) (String.length s - String.length pre) s
  else s.

Fixpoint drop_trailing_slash (s : string) : string :=
  match s with
  | EmptyString => EmptyString
  | String c EmptyString => if Ascii.eqb c "/" then EmptyString else s
  | String c s' => String c (drop_trailing_slash s')
  end.

Definition normalize_url (url : string) : string :=
  drop_trailing_slash
    (drop_prefix "www."
       (drop_prefix "http://"
          (drop_prefix "https://"
             (PyStr.to_utf8 (PyStr.lower (PyStr.of_utf8 url)))))).

End Discovery.

(** * Properties *)

Local Open Scope list_scope.

(** ** Strings *)

Section PyStrFacts.
Import PyStr.

(** Left-stripping stops at the first code point that is not whitespace,
    wherever the text before it ends. *)
Lemma lstrip_app_stop (s1 : str) (c : Z) (s2 : str) :
  is_space c = false ->
  lstrip (s1 ++ c :: s2) = lstrip s1 ++ c :: s2.
Proof.
  intros Hc. induction s1 as [|d s1 IH]; cbn [lstrip app].
  - by rewrite Hc.
  - destruct (is_space d); [exact IH | done].
Qed.

Lemma rstrip_cons_stop (c : Z) (s : str) :
  is_space c = false -> rstrip (c :: s) = c :: rstrip s.
Proof. intros Hc. cbn [rstrip]. rewrite Hc. by destruct (rstrip s). Qed.

Lemma rstrip_app_keep (s1 s2 : str) :
  rstrip s2 <> [] -> rstrip (s1 ++ s2) = s1 ++ rstrip s2.
Proof.
  intros Hne. induction s1 as [|d s1 IH]; cbn [rstrip app]; [done |].
  rewrite IH. destruct s1; cbn [app]; by destruct (rstrip s2).
Qed.

Lemma rstrip_app_stop (s1 : str) (c : Z) (s2 : str) :
  is_space c = false ->
  rstrip (s1 ++ c :: s2) = s1 ++ c :: rstrip s2.
Proof.
  intros Hc. rewrite <- (rstrip_cons_stop c s2 Hc).
  apply rstrip_app_keep. by rewrite rstrip_cons_stop.
Qed.

(** A separator: a code point that has no case, is not skipped when the
    context of a sigma is looked up, and is its own lower-case form.  The
    text on one side of it never changes how the other side is
    lower-cased. *)
Section Separator.
Variable sep : Z.
Hypothesis sep_not_ignorable : case_ignorable sep = false.
Hypothesis sep_not_cased : cased sep = false.
Hypothesis sep_lower : lower_point sep = [sep].
Hypothesis sep_not_sigma : (sep =? capital_sigma)%Z = false.

Lemma cased_before_sep (x y : list Z) :
  cased_before (x ++ sep :: y) = cased_before x.
Proof.
  induction x as [|d x IH]; cbn [cased_before app].
  - by rewrite sep_not_ignorable, sep_not_cased.
  - by rewrite IH.
Qed.

Lemma uncased_after_sep (x y : list Z) :
  uncased_after (x ++ sep :: y) = uncased_after x.
Proof.
  induction x as [|d x IH]; cbn [uncased_after app].
  - by rewrite sep_not_ignorable, sep_not_cased.
  - by rewrite IH.
Qed.

Lemma lower_from_sep_before (x y : list Z) (s : str) :
  lower_from (x ++ sep :: y) s = lower_from x s.
Proof.
  revert x. induction s as [|d s IH]; intros x; cbn [lower_from]; [done |].
  change (d :: x ++ sep :: y) with ((d :: x) ++ sep :: y).
  rewrite IH. unfold lower_sigma. by rewrite cased_before_sep.
Qed.

Lemma lower_from_sep (before : list Z) (s1 s2 : str) :
  lower_from before (s1 ++ sep :: s2)
  = lower_from before s1 ++ sep :: lower_from [] s2.
Proof.
  revert before. induction s1 as [|d s1 IH]; intros before;
    cbn [lower_from app].
  - rewrite sep_not_sigma, sep_lower.
    change (sep :: before) with ([] ++ sep :: before).
    by rewrite lower_from_sep_before.
  - rewrite IH. unfold lower_sigma. rewrite uncased_after_sep.
    by rewrite <- app_assoc.
Qed.

Lemma lower_sep (s1 s2 : str) :
  lower (s1 ++ sep :: s2) = lower s1 ++ sep :: lower s2.
Proof. apply lower_from_sep. Qed.

End Separator.

(** The bytes on either side of a vertical bar are decoded on their own. *)
Lemma decode_from_bar (st : decoder) (s1 s2 : string) :
  decode_from st (s1 +:+ String "|" s2)
  = decode_from st s1 ++ 124%Z :: of_utf8 s2.
Proof.
  revert st. induction s1 as [|c s1 IH]; intros st.
  - change ((seen st ++ [124%Z]) ++ decode_from idle s2
            = seen st ++ 124%Z :: of_utf8 s2).
    by rewrite <- app_assoc.
  - change ((let (out, st') := feed st (Z.of_nat (nat_of_ascii c)) in
             out ++ decode_from st' (s1 +:+ String "|" s2))
            = (let (out, st') := feed st (Z.of_nat (nat_of_ascii c)) in
               out ++ decode_from st' s1) ++ 124%Z :: of_utf8 s2).
    destruct (feed st (Z.of_nat (nat_of_ascii c))) as [out st'].
    by rewrite IH, app_assoc.
Qed.

Lemma of_utf8_bar (s1 s2 : string) :
  of_utf8 (s1 +:+ "|" +:+ s2) = of_utf8 s1 ++ of_utf8 "|" ++ of_utf8 s2.
Proof. apply decode_from_bar. Qed.

(** The vertical bar is a separator, and it is not whitespace. *)
Lemma lower_bar (s1 s2 : str) :
  lower (s1 ++ 124%Z :: s2) = lower s1 ++ 124%Z :: lower s2.
Proof. apply lower_sep; vm_compute; reflexivity. Qed.

Lemma bar_not_space : is_space 124 = false.
Proof. vm_compute. reflexivity. Qed.

End PyStrFacts.

(** ** Deduplication *)

Section DedupFacts.
Import PyStr DeduplicationEngine.

(** Normalizing the joined signature trims the title on the left only and
    the address on the right only; the price is not trimmed at all. *)
Lemma normalized_signature (t p a : py_val) :
  strip (lower (signature_of t p a))
  = lstrip (lower (py_str t)) ++ of_utf8 "|" ++ lower (py_str p)
      ++ of_utf8 "|" ++ rstrip (lower (py_str a)).
Proof.
  unfold signature_of, strip.
  change (of_utf8 "|") with [124%Z]. cbn [app].
  rewrite !lower_bar.
  rewrite lstrip_app_stop by apply bar_not_space.
  rewrite rstrip_app_stop by apply bar_not_space.
  by rewrite rstrip_app_stop by apply bar_not_space.
Qed.

Lemma generate_hash_eq (listing : gmap string py_val) (t p a : py_val) :
  listing !! "title" = Some t ->
  listing !! "price" = Some p ->
  listing !! "address" = Some a ->
  generate_hash listing
  = Return (SHA256.hexdigest (encode (strip (lower (signature_of t p a))))).
Proof.
  intros Ht Hp Ha. unfold generate_hash, getitem.
  rewrite Ht, Hp, Ha. reflexivity.
Qed.
End DedupFacts.

(** Two spellings of an accented listing. *)
Definition listing_capitals : gmap string py_val :=
  {[ "title" := VStr "  APPARTEMENT D'ÉTÉ"; "price" := VStr "450000";
     "address" := VStr "12 RUE DE L’ÉGLISE, 75015 PARIS " ]}.

Definition listing_small : gmap string py_val :=
  {[ "title" := VStr "appartement d'été"; "price" := VInt 450000;
     "address" := VStr "12 rue de l’église, 75015 paris";
     "rooms" := VInt 3 ]}.

(** The hash is the one Python computes for the signature
    [appartement d'été|450000|12 rue de l’église, 75015 paris]. *)
Example generate_hash_accents :
  DeduplicationEngine.generate_hash listing_capitals
  = Return "ff65c374dd90040fc19d238523a707d7d69bab1df8c790b8c5445944a1fefdbf".
Proof. vm_compute. reflexivity. Qed.

(** A capital sigma at the end of a word is lower-cased to the final sigma
    and elsewhere to the plain one: the signature is [οδος|1|σ]. *)
Example generate_hash_final_sigma :
  DeduplicationEngine.generate_hash
    {[ "title" := VStr "ΟΔΟΣ"; "price" := VInt 1; "address" := VStr "Σ" ]}
  = Return "ee070da4e02f91312ad7b90e2b175f6a2f734fc5a19f03ffccd7faef2d1b7e91".
Proof. vm_compute. reflexivity. Qed.

(** Two listings that agree on the triple once every field is lower-cased
    and trimmed on both sides. *)
Definition normalized_field (l : gmap string py_val) (k : string)
  : option PyStr.str :=
  (fun v => PyStr.strip (PyStr.lower (py_str v))) <$> (l !! k).

Definition fields_equal_normalized (l1 l2 : gmap string py_val) : Prop :=
  normalized_field l1 "title" = normalized_field l2 "title"
  /\ normalized_field l1 "price" = normalized_field l2 "price"
  /\ normalized_field l1 "address" = normalized_field l2 "address".

Definition listing_trailing_space : gmap string py_val :=
  {[ "title" := VStr "Appt 3p "; "price" := VInt 450000;
     "address" := VStr "12 Rue X, 75015" ]}.

Definition listing_trimmed : gmap string py_val :=
  {[ "title" := VStr "Appt 3p"; "price" := VInt 450000;
     "address" := VStr "12 Rue X, 75015" ]}.

(** C1, as stated, fails: a title with a trailing space and the same title
    without it are identical once each field is lower-cased and trimmed, yet
    the two listings get different hashes, because only the two ends of the
    joined signature are trimmed. *)
Lemma generate_hash_field_trim_counterexample :
  fields_equal_normalized listing_trailing_space listing_trimmed
  /\ DeduplicationEngine.generate_hash listing_trailing_space
     <> DeduplicationEngine.generate_hash listing_trimmed.
Proof.
  split.
  - repeat split; vm_compute; reflexivity.
  - vm_compute. discriminate.
Qed.

(** C1, amended: two listings whose titles agree once lower-cased and
    stripped of leading whitespace, whose prices agree once formatted and
    lower-cased, and whose addresses agree once lower-cased and stripped of
    trailing whitespace get the same hash; no other field of either listing
    is looked at.  Lower-casing and whitespace are Python's, on every code
    point. *)
Theorem generate_hash_same_signature
    (l1 l2 : gmap string py_val) (t1 p1 a1 t2 p2 a2 : py_val) :
  l1 !! "title" = Some t1 -> l1 !! "price" = Some p1 ->
  l1 !! "address" = Some a1 ->
  l2 !! "title" = Some t2 -> l2 !! "price" = Some p2 ->
  l2 !! "address" = Some a2 ->
  PyStr.lstrip (PyStr.lower (py_str t1)) = PyStr.lstrip (PyStr.lower (py_str t2)) ->
  PyStr.lower (py_str p1) = PyStr.lower (py_str p2) ->
  PyStr.rstrip (PyStr.lower (py_str a1)) = PyStr.rstrip (PyStr.lower (py_str a2)) ->
  exists h,
    DeduplicationEngine.generate_hash l1 = Return h
    /\ DeduplicationEngine.generate_hash l2 = Return h.
Proof.
  intros Ht1 Hp1 Ha1 Ht2 Hp2 Ha2 Et Ep Ea.
  rewrite (generate_hash_eq l1 t1 p1 a1), (generate_hash_eq l2 t2 p2 a2) by done.
  rewrite !normalized_signature, Et, Ep, Ea. eauto.
Qed.

Definition listing_site_a : gmap string py_val :=
  {[ "title" := VStr "  Appt 3P"; "price" := VInt 450000;
     "address" := VStr "12 Rue X, 75015 ";
     "source_url" := VStr "https://agence-a.fr/annonce/1" ]}.

Definition listing_site_b : gmap string py_val :=
  {[ "title" := VStr "appt 3p"; "price" := VStr "450000";
     "address" := VStr "12 rue x, 75015";
     "source_url" := VStr "https://agence-b.fr/biens/77";
     "surface" := VInt 75 ]}.

Lemma generate_hash_same_signature_witness :
  (exists h,
     DeduplicationEngine.generate_hash listing_capitals = Return h
     /\ DeduplicationEngine.generate_hash listing_small = Return h)
  /\ (exists h,
        DeduplicationEngine.generate_hash listing_site_a = Return h
        /\ DeduplicationEngine.generate_hash listing_site_b = Return h).
Proof.
  split.
  - apply (generate_hash_same_signature listing_capitals listing_small
             (VStr "  APPARTEMENT D'ÉTÉ") (VStr "450000")
             (VStr "12 RUE DE L’ÉGLISE, 75015 PARIS ")
             (VStr "appartement d'été") (VInt 450000)
             (VStr "12 rue de l’église, 75015 paris"));
      vm_compute; reflexivity.
  - apply (generate_hash_same_signature listing_site_a listing_site_b
             (VStr "  Appt 3P") (VInt 450000) (VStr "12 Rue X, 75015 ")
             (VStr "appt 3p") (VStr "450000") (VStr "12 rue x, 75015"));
      vm_compute; reflexivity.
Defined.

(** ** Duplicate check *)

Section CheckDuplicateFacts.
Import DeduplicationEngine.

Lemma query_by_hash_found (db : list AggregatedListing) (h : string) :
  query_by_hash db h <> None <-> Exists (fun r => al_hash r = h) db.
Proof.
  unfold query_by_hash. rewrite Exists_exists. split.
  - intros Hne. destruct (filter _ db) as [|r rest] eqn:E; [done |].
    assert (r ∈ filter (fun r => al_hash r = h) db) as Hr
      by (rewrite E; left).
    apply list_elem_of_filter in Hr as [Hr Hin]. by exists r.
  - intros (r & Hin & Hr) Hnone. apply head_None in Hnone.
    by apply (filter_nil_not_elem_of _ _ r Hnone Hr).
Qed.
End CheckDuplicateFacts.

(** The rule of C2 at one incoming listing: a stored, active row with the
    same hash and another source URL stays, and a new row for the incoming
    URL appears that points to it through [duplicate_of]. *)
Definition links_duplicate (listing : gmap string py_val) (url : string)
    (db : list AggregatedListing) : Prop :=
  forall existing,
    existing ∈ db ->
    DeduplicationEngine.generate_hash listing = Return (al_hash existing) ->
    al_is_active existing = true ->
    al_source_url existing <> url ->
    let db' := (DeduplicationEngine.check_duplicate listing db).2 in
    existing ∈ db'
    /\ exists r, (r ∈ db') /\ (r ∉ db) /\ al_source_url r = url
                 /\ al_duplicate_of r = Some (al_id existing).

Definition stored_site_a : AggregatedListing :=
  {| al_id := 1;
     al_title := "Appt 3P";
     al_price := Some 450000%Z;
     al_address := "12 Rue X, 75015";
     al_agency_id := 10;
     al_source_url := "https://agence-a.fr/annonce/1";
     al_is_active := true;
     al_hash := "1b2f17c6414fe7a96665d6c92209a3de082cb2715aafff3a3c89a5d0de8c18a8";
     al_duplicate_of := None |}.

(** C2, as stated, fails: the listing of site B collides with the active row
    scraped from site A, and [check_duplicate] answers [True] and leaves the
    store with that single row: no linked record is created. *)
Lemma check_duplicate_links_nothing_counterexample :
  DeduplicationEngine.check_duplicate listing_site_b [stored_site_a]
  = (Return true, [stored_site_a])
  /\ ~ links_duplicate listing_site_b "https://agence-b.fr/biens/77"
         [stored_site_a].
Proof.
  split; [by vm_compute |].
  intros Hclaim.
  destruct (Hclaim stored_site_a) as (_ & r & Hin & Hnew & _).
  - left.
  - by vm_compute.
  - reflexivity.
  - by vm_compute.
  - by apply Hnew.
Qed.

(** C2, amended: on a hash collision [check_duplicate] leaves every stored
    record unchanged and creates none; it only reports whether some stored
    record, active or not and whatever its source URL, has the incoming
    listing's hash. *)
Theorem check_duplicate_read_only (listing : gmap string py_val)
    (db : list AggregatedListing) :
  (DeduplicationEngine.check_duplicate listing db).2 = db
  /\ (DeduplicationEngine.check_duplicate listing db).1
     = (h ← DeduplicationEngine.generate_hash listing;
        mret (bool_decide (Exists (fun r => al_hash r = h) db))).
Proof.
  split; [reflexivity |].
  unfold DeduplicationEngine.check_duplicate. simpl.
  destruct (DeduplicationEngine.generate_hash listing) as [h|e]; [| done].
  simpl. f_equal. apply bool_decide_ext, query_by_hash_found.
Qed.

(** ** Change detection *)

(** The successful cycles contain [K] in a row that did not find the hash
    [h]. *)
Definition absent_run (K : nat) (h : string)
    (snaps : list (list (gmap string py_val))) : Prop :=
  exists before run after,
    snaps = before ++ run ++ after
    /\ length run = K
    /\ Forall (fun current => h ∉ ChangeDetector.fresh_hashes current) run.

(** The same for a row that has already been absent [n] times in a row: the
    run may be the [K - n] first successful cycles. *)
Definition absent_run_from (n K : nat) (h : string)
    (snaps : list (list (gmap string py_val))) : Prop :=
  (exists run after,
      snaps = run ++ after
      /\ length run + n = K
      /\ Forall (fun current => h ∉ ChangeDetector.fresh_hashes current) run)
  \/ absent_run K h snaps.

Section ChangeDetectorFacts.
Import ChangeDetector.
Variable K : nat.
Variable agency : Agency.

(** What a cycle does to one row, told from the row's hash. *)
Definition row_after_cycle
    (scraped : py_result (list (gmap string py_val))) (t : tracked) : tracked :=
  match scraped with
  | Raise _ => t
  | Return current =>
      if decide (al_agency_id (t_row t) = ag_id agency
                 /\ al_is_active (t_row t) = true)
      then
        if decide (al_hash (t_row t) ∈ fresh_hashes current)
        then {| t_row := t_row t; t_absent := 0 |}
        else {| t_row := if decide (K <= S (t_absent t))
                         then deactivate (t_row t) else t_row t;
                t_absent := S (t_absent t) |}
      else t
  end.

Fixpoint row_after
    (cycles : list (py_result (list (gmap string py_val)))) (t : tracked)
  : tracked :=
  match cycles with
  | [] => t
  | scraped :: rest => row_after rest (row_after_cycle scraped t)
  end.

Lemma removal_candidate (current : list (gmap string py_val))
    (store : list AggregatedListing) (r : AggregatedListing) :
  r ∈ store ->
  al_agency_id r = ag_id agency -> al_is_active r = true ->
  r ∈ find_removed_by_hash current (active_listings agency store)
  <-> al_hash r ∉ fresh_hashes current.
Proof.
  intros Hin Hag Hact. unfold find_removed_by_hash, active_listings.
  rewrite !list_elem_of_filter. split.
  - by intros [Hh _].
  - intros Hh. by repeat split.
Qed.

End ChangeDetectorFacts.

Section CycleFacts.
Import ChangeDetector.
Context {St : Type}.
Variable scrape_agency :
  Agency -> world St -> py_result (list (gmap string py_val)) * world St.
Variable K : nat.
Variable agency : Agency.

(** The scraper may add rows to the store, and leaves the rows it found
    there as they are. *)
Definition only_adds_rows : Prop :=
  forall agency w,
    exists saved, rows (scrape_agency agency w).2 = rows w ++ saved.

Hypothesis scraper_frame : only_adds_rows.

Lemma cycle_lookup (w : world St) (i : nat) (t : tracked) :
  rows w !! i = Some t ->
  rows (cycle scrape_agency K agency w).2 !! i
  = Some (row_after_cycle K agency (scrape_agency agency w).1 t).
Proof.
  intros Hi. destruct (scraper_frame agency w) as [saved Hframe].
  unfold cycle, detect_changes.
  destruct (scrape_agency agency w) as [[current|e] w1]; cbn [fst snd] in *.
  - cbn [snd rows record_changes]. rewrite list_lookup_fmap.
    assert (rows w1 !! i = Some t) as Hi1
      by (rewrite Hframe; by apply lookup_app_l_Some).
    rewrite Hi1. cbn [fmap option_fmap option_map]. f_equal.
    unfold count_absence. cbn [row_after_cycle].
    destruct (decide (al_agency_id (t_row t) = ag_id agency
                      /\ al_is_active (t_row t) = true)) as [[Hag Hact]|];
      [| done].
    assert (t_row t ∈ t_row <$> rows w1) as Hin.
    { apply list_elem_of_fmap. exists t. split; [done |].
      by apply list_elem_of_lookup_2 in Hi1. }
    pose proof (removal_candidate agency current _ _ Hin Hag Hact) as Hrem.
    destruct (decide (t_row t ∈ _)) as [Hr|Hr],
      (decide (al_hash (t_row t) ∈ fresh_hashes current)) as [Hf|Hf];
      try done.
    + by apply Hrem in Hr.
    + by apply Hrem in Hf.
  - cbn [snd row_after_cycle]. rewrite Hframe. by apply lookup_app_l_Some.
Qed.

Lemma run_cycles_lookup (n : nat) (w : world St) (i : nat) (t : tracked) :
  rows w !! i = Some t ->
  rows (run_cycles scrape_agency K agency n w) !! i
  = Some (row_after K agency (scrapes scrape_agency K agency n w) t).
Proof.
  revert w t. induction n as [|n IH]; intros w t Hi;
    cbn [run_cycles scrapes row_after]; [done |].
  apply IH. by apply cycle_lookup.
Qed.
End CycleFacts.

Section ThresholdFacts.
Import ChangeDetector.
Variable K : nat.
Variable agency : Agency.
Hypothesis K_positive : 1 <= K.

(** An inactive row is never touched again. *)
Lemma row_after_inactive
    (cycles : list (py_result (list (gmap string py_val)))) (t : tracked) :
  al_is_active (t_row t) = false -> row_after K agency cycles t = t.
Proof.
  intros Hoff. induction cycles as [|scraped rest IH]; cbn [row_after]; [done |].
  destruct scraped as [current|e]; cbn [row_after_cycle]; [| done].
  rewrite decide_False; [done |]. intros [_ Hon]. congruence.
Qed.

Lemma absent_run_from_absent (n : nat) (h : string)
    (current : list (gmap string py_val))
    (snaps : list (list (gmap string py_val))) :
  S n < K ->
  h ∉ fresh_hashes current ->
  absent_run_from n K h (current :: snaps) <-> absent_run_from (S n) K h snaps.
Proof.
  intros Hn Habs. split.
  - intros [(run & after & Hsnaps & Hlen & Hrun)
           |(before & run & after & Hsnaps & Hlen & Hrun)].
    + destruct run as [|c run]; [simpl in Hlen; lia |].
      injection Hsnaps as <- ->. left. exists run, after.
      split; [done |]. split; [simpl in Hlen; lia |].
      by apply Forall_cons in Hrun as [_ Hrun].
    + destruct before as [|b before].
      * destruct run as [|c run]; [simpl in Hlen; lia |].
        injection Hsnaps as <- ->. left.
        exists (take (K - S n) run), (drop (K - S n) run ++ after).
        split; [by rewrite app_assoc, take_drop |].
        split; [rewrite length_take; simpl in Hlen; lia |].
        apply Forall_take. by apply Forall_cons in Hrun as [_ Hrun].
      * injection Hsnaps as <- ->. right. by exists before, run, after.
  - intros [(run & after & -> & Hlen & Hrun)
           |(before & run & after & -> & Hlen & Hrun)].
    + left. exists (current :: run), after.
      split; [done |]. split; [simpl; lia |]. by constructor.
    + right. by exists (current :: before), run, after.
Qed.

Lemma absent_run_from_present (n : nat) (h : string)
    (current : list (gmap string py_val))
    (snaps : list (list (gmap string py_val))) :
  n < K ->
  h ∈ fresh_hashes current ->
  absent_run_from n K h (current :: snaps) <-> absent_run_from 0 K h snaps.
Proof.
  intros Hn Hpres. split.
  - intros [(run & after & Hsnaps & Hlen & Hrun)
           |(before & run & after & Hsnaps & Hlen & Hrun)].
    + destruct run as [|c run]; [simpl in Hlen; lia |].
      injection Hsnaps as <- ->. by apply Forall_cons in Hrun as [Hc _].
    + destruct before as [|b before].
      * destruct run as [|c run]; [simpl in Hlen; lia |].
        injection Hsnaps as <- ->. by apply Forall_cons in Hrun as [Hc _].
      * injection Hsnaps as <- ->. right. by exists before, run, after.
  - intros [(run & after & -> & Hlen & Hrun)
           |(before & run & after & -> & Hlen & Hrun)].
    + right. exists [current], run, after.
      split; [done |]. split; [lia | done].
    + right. by exists (current :: before), run, after.
Qed.

Lemma absent_run_from_done (n : nat) (h : string)
    (current : list (gmap string py_val))
    (snaps : list (list (gmap string py_val))) :
  S n = K ->
  h ∉ fresh_hashes current ->
  absent_run_from n K h (current :: snaps).
Proof.
  intros Hn Habs. left. exists [current], snaps.
  split; [done |]. split; [simpl; lia |]. by repeat constructor.
Qed.

(** A row of the agency that is active and has been absent [n < K] times in
    a row is inactive after the cycles exactly when they complete a run of
    [K] absences; nothing else of the row changes. *)
Lemma row_after_threshold
    (cycles : list (py_result (list (gmap string py_val)))) (t : tracked) :
  al_agency_id (t_row t) = ag_id agency ->
  al_is_active (t_row t) = true ->
  t_absent t < K ->
  (al_is_active (t_row (row_after K agency cycles t)) = false
   <-> absent_run_from (t_absent t) K (al_hash (t_row t)) (snapshots cycles))
  /\ (t_row (row_after K agency cycles t) = t_row t
      \/ t_row (row_after K agency cycles t) = deactivate (t_row t)).
Proof.
  revert t. induction cycles as [|scraped rest IH]; intros t Hag Hact Hn.
  - cbn [row_after snapshots omap list_omap]. split; [| by left].
    rewrite Hact. split; [done |].
    intros [(run & after & Hsnaps & Hlen & _)
           |(before & run & after & Hsnaps & Hlen & _)].
    + symmetry in Hsnaps. apply app_eq_nil in Hsnaps as [-> _].
      simpl in Hlen. lia.
    + symmetry in Hsnaps. apply app_eq_nil in Hsnaps as [_ Hsnaps].
      apply app_eq_nil in Hsnaps as [-> _]. simpl in Hlen. lia.
  - cbn [row_after]. destruct scraped as [current|e].
    + change (snapshots (Return current :: rest))
        with (current :: snapshots rest).
      cbn [row_after_cycle]. rewrite decide_True by done.
      destruct (decide (al_hash (t_row t) ∈ fresh_hashes current)) as [Hf|Hf].
      * rewrite absent_run_from_present by done.
        apply (IH {| t_row := t_row t; t_absent := 0 |}); simpl; [done.. | lia].
      * destruct (decide (K <= S (t_absent t))) as [Hk|Hk].
        -- rewrite row_after_inactive by done. simpl.
           split; [| by right].
           split; [| done]. intros _. apply absent_run_from_done; [lia | done].
        -- rewrite absent_run_from_absent by (done || lia).
           apply (IH {| t_row := t_row t; t_absent := S (t_absent t) |});
             simpl; [done.. | lia].
    + change (snapshots (Raise e :: rest)) with (snapshots rest).
      cbn [row_after_cycle]. by apply IH.
Qed.

Lemma absent_run_from_zero (h : string)
    (snaps : list (list (gmap string py_val))) :
  absent_run_from 0 K h snaps <-> absent_run K h snaps.
Proof.
  split; [| by right].
  intros [(run & after & -> & Hlen & Hrun)|Hrun]; [| done].
  exists [], run, after. split; [done |]. split; [lia | done].
Qed.

End ThresholdFacts.

Definition agency_a : Agency :=
  {| ag_id := 10;
     ag_name := "Agence A";
     ag_phone := None;
     ag_email := None;
     ag_website_url := "https://agence-a.fr";
     ag_discovered_from := ["google_maps"];
     ag_scraping_status := "active";
     ag_is_active := true |}.


(** A row for a scraped listing that the store does not have yet. *)
Definition new_row (agency : Agency) (id : Z) (listing : gmap string py_val)
    (h : string) : ChangeDetector.tracked :=
  {| ChangeDetector.t_row :=
       {| al_id := id;
          al_title := match listing !! "title" with
                      | Some (VStr title) => title
                      | _ => ""
                      end;
          al_price := match listing !! "price" with
                      | Some (VInt price) => Some price
                      | _ => None
                      end;
          al_address := match listing !! "address" with
                        | Some (VStr address) => address
                        | _ => ""
                        end;
          al_agency_id := ag_id agency;
          al_source_url := match listing !! "source_url" with
                           | Some (VStr url) => url
                           | _ => ""
                           end;
          al_is_active := true;
          al_hash := h;
          al_duplicate_of := None |};
     ChangeDetector.t_absent := 0 |}.

(** The rows a scraper saves for the listings whose hash is not stored. *)
Fixpoint save_new (agency : Agency) (listings : list (gmap string py_val))
    (rows : list ChangeDetector.tracked) : list ChangeDetector.tracked :=
  match listings with
  | [] => []
  | listing :: rest =>
      match DeduplicationEngine.generate_hash listing with
      | Return h =>
          if decide (h ∈ (fun t => al_hash (ChangeDetector.t_row t)) <$> rows)
          then save_new agency rest rows
          else
            let row := new_row agency (1 + Z.of_nat (length rows)) listing h in
            row :: save_new agency rest (rows ++ [row])
      | Raise _ => save_new agency rest rows
      end
  end.

(** A scraper for a site whose successive answers are known: it keeps the
    answers to come, saves the new listings of a scrape that succeeded and
    returns them. *)
Definition scripted_scraper (agency : Agency)
    (w : ChangeDetector.world (list (py_result (list (gmap string py_val)))))
  : py_result (list (gmap string py_val))
    * ChangeDetector.world (list (py_result (list (gmap string py_val)))) :=
  match ChangeDetector.scraper_state w with
  | [] => (Raise (OtherError "site is gone"), w)
  | Raise e :: rest =>
      (Raise e,
       {| ChangeDetector.rows := ChangeDetector.rows w;
          ChangeDetector.outbox := ChangeDetector.outbox w;
          ChangeDetector.scraper_state := rest |})
  | Return listings :: rest =>
      (Return listings,
       {| ChangeDetector.rows :=
            ChangeDetector.rows w ++ save_new agency listings (ChangeDetector.rows w);
          ChangeDetector.outbox := ChangeDetector.outbox w;
          ChangeDetector.scraper_state := rest |})
  end.

Lemma scripted_scraper_only_adds_rows : only_adds_rows scripted_scraper.
Proof.
  intros agency w. unfold scripted_scraper.
  destruct (ChangeDetector.scraper_state w) as [|[listings|e] rest]; cbn [snd].
  - exists []. by rewrite app_nil_r.
  - by eexists.
  - exists []. by rewrite app_nil_r.
Qed.

(** The listing of site B has the hash of the stored row: a scrape that
    finds it finds the row. *)
Definition found_again : py_result (list (gmap string py_val)) :=
  Return [listing_site_b].

(** A scrape that finds another listing only. *)
Definition found_other : py_result (list (gmap string py_val)) :=
  Return [listing_small].

Definition found_nothing : py_result (list (gmap string py_val)) :=
  Return [].

Definition timed_out : py_result (list (gmap string py_val)) :=
  Raise (OtherError "timeout").

(** The store holding the listing scraped from site A, no absence counted,
    before the site answers as [answers] tells. *)
Definition tracked_site_a (answers : list (py_result (list (gmap string py_val))))
  : ChangeDetector.world (list (py_result (list (gmap string py_val)))) :=
  {| ChangeDetector.rows :=
       [ {| ChangeDetector.t_row := stored_site_a;
            ChangeDetector.t_absent := 0 |} ];
     ChangeDetector.outbox := [];
     ChangeDetector.scraper_state := answers |}.

Definition seven_scrapes : list (py_result (list (gmap string py_val))) :=
  [found_other; found_nothing; found_again; found_nothing; timed_out;
   found_nothing; found_other].


(** What the scraper answered is what the site was to answer. *)
Example scrapes_of_scripted_scraper :
  ChangeDetector.scrapes scripted_scraper 3 agency_a 7
    (tracked_site_a seven_scrapes)
  = seven_scrapes.
Proof. vm_compute. reflexivity. Qed.

(** Two absences, a sighting, then two absences around a failed scrape: the
    listing is still active after six cycles, and the third absence in a row
    deactivates it in the seventh.  The other listing, saved by the first
    scrape, is absent from the next three and is inactive from the fourth
    cycle on, also when the seventh scrape finds it again. *)
Example run_cycles_below_threshold :
  (fun t => (al_id (ChangeDetector.t_row t),
             al_is_active (ChangeDetector.t_row t), ChangeDetector.t_absent t))
    <$> ChangeDetector.rows
          (ChangeDetector.run_cycles scripted_scraper 3 agency_a 6
             (tracked_site_a seven_scrapes))
  = [(1%Z, true, 2); (2%Z, false, 3)].
Proof. vm_compute. reflexivity. Qed.

Example run_cycles_at_threshold :
  (fun t => (al_id (ChangeDetector.t_row t),
             al_is_active (ChangeDetector.t_row t), ChangeDetector.t_absent t))
    <$> ChangeDetector.rows
          (ChangeDetector.run_cycles scripted_scraper 3 agency_a 7
             (tracked_site_a seven_scrapes))
  = [(1%Z, false, 3); (2%Z, false, 3)].
Proof. vm_compute. reflexivity. Qed.

(** ** Extraction *)

(** The pattern list of a field in a table. *)
Fixpoint assoc (table : list (string * list string)) (field : string)
  : option (list string) :=
  match table with
  | [] => None
  | (k, v) :: rest => if decide (k = field) then Some v else assoc rest field
  end.

(** What a field resolves to on an element: the text of the first of the
    field's patterns that selects a tag. *)
Definition field_patterns (field : string) : list string :=
  default [] (assoc DynamicParser.FIELD_PATTERNS field).

Definition resolves (el : DynamicParser.element) (field : string) : option string :=
  DynamicParser.first_match el (field_patterns field).

Section ParserFacts.
Import DynamicParser.

Lemma first_match_None (el : element) (patterns : list string) :
  first_match el patterns = None
  <-> Forall (fun p => forall text, el p <> Selected text) patterns.
Proof.
  induction patterns as [|p rest IH]; simpl.
  - split; [constructor | done].
  - destruct (el p) as [text| |] eqn:E.
    + split; [done |]. intros H. inversion H as [|? ? Hp _]; subst.
      by destruct (Hp text).
    + rewrite IH. split.
      * intros H. constructor; [congruence | done].
      * intros H. by inversion H.
    + rewrite IH. split.
      * intros H. constructor; [congruence | done].
      * intros H. by inversion H.
Qed.

Lemma assoc_not_key (table : list (string * list string)) (field : string) :
  field ∉ table.*1 -> assoc table field = None.
Proof.
  induction table as [|[k v] rest IH]; simpl; [done |].
  intros Hnot. apply not_elem_of_cons in Hnot as [Hne Hrest].
  destruct (decide (k = field)); [congruence | by apply IH].
Qed.

(** What the outer loop leaves under a key: the field's first match if it
    has one, else what was there before. *)
Lemma extract_fields_lookup (el : element) (table : list (string * list string))
    (listing : gmap string py_val) (field : string) :
  NoDup table.*1 ->
  extract_fields el table listing !! field
  = match assoc table field with
    | Some patterns =>
        match first_match el patterns with
        | Some text => Some (VStr text)
        | None => listing !! field
        end
    | None => listing !! field
    end.
Proof.
  revert listing. induction table as [|[k v] rest IH]; intros listing Hnd;
    simpl; [done |].
  simpl in Hnd. apply NoDup_cons in Hnd as [Hk Hnd].
  destruct (decide (k = field)) as [->|Hne].
  - destruct (first_match el v) as [text|]; rewrite IH by done;
      rewrite (assoc_not_key rest field Hk); [apply lookup_insert_eq | done].
  - destruct (first_match el v) as [text|]; rewrite IH by done;
      [| done].
    rewrite lookup_insert_ne by done. done.
Qed.

Lemma FIELD_PATTERNS_NoDup : NoDup FIELD_PATTERNS.*1.
Proof. apply (bool_decide_unpack _). by vm_compute. Qed.

Lemma extract_fields_resolves (el : element) (field : string) :
  extract_fields el FIELD_PATTERNS ∅ !! field = VStr <$> resolves el field.
Proof.
  rewrite extract_fields_lookup by apply FIELD_PATTERNS_NoDup.
  unfold resolves, field_patterns. rewrite lookup_empty.
  destruct (assoc FIELD_PATTERNS field) as [patterns|]; simpl; [| done].
  by destruct (first_match el patterns).
Qed.

Lemma extract_listing_Some (el : element) (listing : gmap string py_val) :
  extract_listing el = Some listing ->
  forall field, listing !! field = VStr <$> resolves el field.
Proof.
  unfold extract_listing. intros H field.
  destruct (decide (_ = ∅)); [done |].
  injection H as <-. apply extract_fields_resolves.
Qed.

Lemma extract_listing_None (el : element) :
  extract_listing el = None <-> forall field, resolves el field = None.
Proof.
  unfold extract_listing.
  destruct (decide (extract_fields el FIELD_PATTERNS ∅ = ∅)) as [E|Hne].
  - split; [| done]. intros _ field.
    pose proof (extract_fields_resolves el field) as H.
    rewrite E, lookup_empty in H. by destruct (resolves el field).
  - split; [done |]. intros Hall. destruct Hne.
    apply map_eq. intros field.
    by rewrite extract_fields_resolves, Hall, lookup_empty.
Qed.

Lemma resolves_not_target (el : element) (field : string) :
  field ∉ FIELD_PATTERNS.*1 -> resolves el field = None.
Proof.
  intros Hnot. unfold resolves, field_patterns.
  by rewrite (assoc_not_key _ _ Hnot).
Qed.

Lemma parse_elements_omap (els : list element)
    (listings : list (gmap string py_val)) :
  parse_elements els listings = (listings ++ omap extract_listing els)%list.
Proof.
  revert listings. induction els as [|el rest IH]; intros listings; simpl.
  - by rewrite app_nil_r.
  - destruct (extract_listing el) as [listing|]; rewrite IH; [| done].
    by rewrite <- app_assoc.
Qed.
End ParserFacts.

(** The rule of C4 at one element: it is dropped exactly when neither its
    title nor its price resolves. *)
Definition dropped_iff_no_title_no_price (el : DynamicParser.element) : Prop :=
  DynamicParser.extract_listing el = None
  <-> (resolves el "title" = None /\ resolves el "price" = None).

(** An element in which only a paragraph is found. *)
Definition el_description_only : DynamicParser.element :=
  fun pattern =>
    if decide (pattern = "p")
    then DynamicParser.Selected "Bel appartement avec vue"
    else DynamicParser.NoMatch.

(** C4, as stated, fails: an element with neither title nor price but with a
    description is kept, with the description as its one entry. *)
Lemma extract_listing_keeps_description_counterexample :
  resolves el_description_only "title" = None
  /\ resolves el_description_only "price" = None
  /\ DynamicParser.parse_elements [el_description_only] []
     = [ {[ "description" := VStr "Bel appartement avec vue" ]} ]
  /\ ~ dropped_iff_no_title_no_price el_description_only.
Proof.
  assert (resolves el_description_only "title" = None) as Ht
    by (vm_compute; reflexivity).
  assert (resolves el_description_only "price" = None) as Hp
    by (vm_compute; reflexivity).
  assert (DynamicParser.extract_listing el_description_only
          = Some {[ "description" := VStr "Bel appartement avec vue" ]}) as E
    by (vm_compute; reflexivity).
  split; [exact Ht |]. split; [exact Hp |].
  split; [vm_compute; reflexivity |].
  intros [_ Hdrop]. specialize (Hdrop (conj Ht Hp)).
  rewrite E in Hdrop. discriminate Hdrop.
Qed.

(** C4, amended: extraction discards a candidate exactly when none of the
    seven target fields resolves; a candidate with at least one resolved
    field (a title or a price among them) is kept in the output of [parse],
    each resolved field holding its text and each unresolved one absent. *)
Theorem extract_listing_discards_iff_empty (el : DynamicParser.element) :
  (DynamicParser.extract_listing el = None
   <-> Forall (fun field => resolves el field = None)
         DynamicParser.FIELD_PATTERNS.*1)
  /\ (forall listing,
        DynamicParser.extract_listing el = Some listing ->
        (forall field, listing !! field = VStr <$> resolves el field)
        /\ forall before after,
             listing ∈ DynamicParser.parse_elements (before ++ el :: after) []).
Proof.
  split.
  - rewrite extract_listing_None, Forall_forall. split.
    + intros H field _. apply H.
    + intros H field.
      destruct (decide (field ∈ DynamicParser.FIELD_PATTERNS.*1)) as [Hin|Hnot].
      * by apply H.
      * by apply resolves_not_target.
  - intros listing E. split.
    + by apply extract_listing_Some.
    + intros before after. rewrite parse_elements_omap. simpl.
      apply list_elem_of_omap. exists el. split; [| done].
      apply elem_of_app. right. left.
Qed.

(** The rule of C5 at one element: a price that resolves is stored as an
    integer. *)
Definition stores_integer_price (el : DynamicParser.element) : Prop :=
  forall listing,
    DynamicParser.extract_listing el = Some listing ->
    is_Some (resolves el "price") ->
    exists n : Z, listing !! "price" = Some (VInt n).

(** An element whose price tag reads "450 000 €". *)
Definition el_price_text : DynamicParser.element :=
  fun pattern =>
    if decide (pattern = ".price")
    then DynamicParser.Selected "450 000 €"
    else DynamicParser.NoMatch.

(** C5, as stated, fails: the price stored for a tag that reads "450 000 €"
    is that very text, currency symbol and separators included, and not the
    integer 450000. *)
Lemma extract_listing_price_is_text_counterexample :
  DynamicParser.extract_listing el_price_text
  = Some {[ "price" := VStr "450 000 €" ]}
  /\ ~ stores_integer_price el_price_text.
Proof.
  assert (DynamicParser.extract_listing el_price_text
          = Some {[ "price" := VStr "450 000 €" ]}) as E
    by (vm_compute; reflexivity).
  split; [exact E |].
  intros Hclaim. destruct (Hclaim _ E) as [n Hn].
  - exists "450 000 €". vm_compute. reflexivity.
  - rewrite lookup_singleton_eq in Hn. discriminate Hn.
Qed.

(** C5, amended: for every extracted listing whose price field resolves,
    the price stored in the listing is the text of the first tag a price
    pattern selects, as [get_text(strip=True)] returns it; no symbol or
    separator is removed and nothing is parsed as an integer. *)
Theorem extract_listing_price_text (el : DynamicParser.element) (text : string) :
  resolves el "price" = Some text ->
  exists listing,
    DynamicParser.extract_listing el = Some listing
    /\ listing !! "price" = Some (VStr text).
Proof.
  intros Hprice.
  destruct (DynamicParser.extract_listing el) as [listing|] eqn:E.
  - exists listing. split; [done |].
    by rewrite (extract_listing_Some el listing E), Hprice.
  - rewrite extract_listing_None in E. by rewrite E in Hprice.
Qed.

Lemma extract_listing_price_text_witness :
  exists listing,
    DynamicParser.extract_listing el_price_text = Some listing
    /\ listing !! "price" = Some (VStr "450 000 €").
Proof.
  apply (extract_listing_price_text el_price_text "450 000 €").
  vm_compute. reflexivity.
Defined.

(** C9: for every field, the seven target fields in particular, if none of
    the field's patterns selects a tag in the element, the dictionary built
    for the element has no entry for the field, and so has the listing
    returned: no zero, no placeholder. *)
Theorem extract_listing_unmatched_field_absent
    (el : DynamicParser.element) (field : string) :
  Forall (fun pattern => forall text, el pattern <> DynamicParser.Selected text)
    (field_patterns field) ->
  DynamicParser.extract_fields el DynamicParser.FIELD_PATTERNS ∅ !! field = None
  /\ forall listing,
       DynamicParser.extract_listing el = Some listing ->
       listing !! field = None.
Proof.
  intros Hnone. apply first_match_None in Hnone.
  fold (resolves el field) in Hnone. split.
  - by rewrite extract_fields_resolves, Hnone.
  - intros listing E. by rewrite (extract_listing_Some el listing E), Hnone.
Qed.

Lemma extract_listing_unmatched_field_absent_witness :
  DynamicParser.extract_fields el_price_text DynamicParser.FIELD_PATTERNS ∅
    !! "surface" = None
  /\ forall listing,
       DynamicParser.extract_listing el_price_text = Some listing ->
       listing !! "surface" = None.
Proof.
  apply (extract_listing_unmatched_field_absent el_price_text "surface").
  vm_compute. repeat constructor; intros text; discriminate.
Defined.

(** ** Format detection *)

Section DetectFacts.
Import FormatDetector.
Context {Structure : Type}.
Variable check_indicators : string -> string -> list string -> bool.
Variable analyze_structure : string -> Structure.

Lemma scan_first (html url : string) (before after : list (string * pattern))
    (name : string) (patterns : pattern) :
  Forall (fun entry => check_indicators html url (indicators entry.2) = false)
    before ->
  check_indicators html url (indicators patterns) = true ->
  scan check_indicators (before ++ (name, patterns) :: after) html url
  = Some {| platform := name;
            fi_selectors := selectors patterns;
            structure := @None Structure |}.
Proof.
  intros Hbefore Hhit. induction Hbefore as [|[n p] rest Hmiss _ IH]; simpl.
  - by rewrite Hhit.
  - simpl in Hmiss. by rewrite Hmiss.
Qed.

Lemma scan_none (html url : string) (table : list (string * pattern)) :
  Forall (fun entry => check_indicators html url (indicators entry.2) = false)
    table ->
  scan (Structure := Structure) check_indicators table html url = None.
Proof.
  intros Hall. induction Hall as [|[n p] rest Hmiss _ IH]; simpl; [done |].
  simpl in Hmiss. by rewrite Hmiss.
Qed.

Lemma scan_cases (html url : string) (table : list (string * pattern)) :
  (exists found, scan check_indicators table html url = Some found
                 /\ structure found = @None Structure)
  \/ (scan (Structure := Structure) check_indicators table html url = None
      /\ Forall (fun entry =>
                   check_indicators html url (indicators entry.2) = false) table).
Proof.
  induction table as [|[n p] rest IH]; simpl.
  - right. by split.
  - destruct (check_indicators html url (indicators p)) eqn:E.
    + left. by eexists.
    + destruct IH as [Hfound|[Hnone Hall]]; [by left |].
      right. split; [done |]. by constructor.
Qed.
End DetectFacts.

(** A sample [check_indicators]: some indicator occurs in the page. *)
Definition indicator_in_page (html url : string) (indicators : list string) : bool :=
  existsb (fun indicator =>
             match String.index 0 indicator html with
             | Some _ => true
             | None => false
             end) indicators.

(** The selectors of the fallback: five forms for each of the five
    keywords. *)
Definition fallback_selectors : list string :=
  [ ".annonce"; "[class*='annonce']"; "#annonce"; "[id*='annonce']";
    "[data-annonce]";
    ".bien"; "[class*='bien']"; "#bien"; "[id*='bien']"; "[data-bien]";
    ".property"; "[class*='property']"; "#property"; "[id*='property']";
    "[data-property]";
    ".listing"; "[class*='listing']"; "#listing"; "[id*='listing']";
    "[data-listing]";
    ".offer"; "[class*='offer']"; "#offer"; "[id*='offer']"; "[data-offer]" ].

(** C8: detection walks the signature table in order; the first platform
    whose indicators match gives the answer, its tag with its static
    selectors; when no entry matches, and only then, the structure of the
    page is analysed and the answer is the platform "custom" with the
    analysed structure and the selectors [generate_selectors] builds, which
    are the twenty-five of [fallback_selectors]. *)
Theorem detect_first_match_wins {Structure : Type}
    (check_indicators : string -> string -> list string -> bool)
    (analyze_structure : string -> Structure) (html url : string) :
  (forall before name patterns after,
      FormatDetector.PATTERNS = (before ++ (name, patterns) :: after)%list ->
      Forall (fun entry =>
                check_indicators html url (FormatDetector.indicators entry.2) = false)
        before ->
      check_indicators html url (FormatDetector.indicators patterns) = true ->
      FormatDetector.detect check_indicators analyze_structure html url
      = {| FormatDetector.platform := name;
           FormatDetector.fi_selectors := FormatDetector.selectors patterns;
           FormatDetector.structure := None |})
  /\ (Forall (fun entry =>
                check_indicators html url (FormatDetector.indicators entry.2) = false)
        FormatDetector.PATTERNS ->
      FormatDetector.detect check_indicators analyze_structure html url
      = {| FormatDetector.platform := "custom";
           FormatDetector.fi_selectors := fallback_selectors;
           FormatDetector.structure := Some (analyze_structure html) |})
  /\ (FormatDetector.structure
        (FormatDetector.detect check_indicators analyze_structure html url)
      <> None ->
      Forall (fun entry =>
                check_indicators html url (FormatDetector.indicators entry.2) = false)
        FormatDetector.PATTERNS).
Proof.
  split; [| split].
  - intros before name patterns after Htable Hbefore Hhit.
    unfold FormatDetector.detect. rewrite Htable.
    by rewrite (scan_first check_indicators html url before after name patterns).
  - intros Hall. unfold FormatDetector.detect.
    by rewrite (scan_none check_indicators html url _ Hall).
  - unfold FormatDetector.detect.
    destruct (scan_cases (Structure := Structure) check_indicators html url
                FormatDetector.PATTERNS)
      as [(found & -> & Hstatic)|[-> Hall]]; [| done].
    intros Hfallback. by rewrite Hstatic in Hfallback.
Qed.

Lemma detect_first_match_wins_witness :
  FormatDetector.detect indicator_in_page (fun _ => tt)
    "<img src='https://static.wixstatic.com/a.png'>" "https://agence-a.fr"
  = {| FormatDetector.platform := "wix";
       FormatDetector.fi_selectors := ["[data-mesh-id]"; ".wixui"];
       FormatDetector.structure := None |}
  /\ FormatDetector.detect indicator_in_page (fun _ => tt)
       "<div class='card'>Maison</div>" "https://agence-a.fr"
     = {| FormatDetector.platform := "custom";
          FormatDetector.fi_selectors := fallback_selectors;
          FormatDetector.structure := Some tt |}.
Proof.
  split.
  - destruct (detect_first_match_wins indicator_in_page (fun _ => tt)
                "<img src='https://static.wixstatic.com/a.png'>"
                "https://agence-a.fr") as (Hfirst & _ & _).
    apply (Hfirst [("wordpress",
                    {| FormatDetector.selectors := [".post"; ".property"; ".listing"];
                       FormatDetector.indicators := ["wp-content"; "wp-includes"] |})]
                  "wix"
                  {| FormatDetector.selectors := ["[data-mesh-id]"; ".wixui"];
                     FormatDetector.indicators := ["wix.com"; "wixstatic.com"] |}
                  (drop 2 FormatDetector.PATTERNS)).
    + reflexivity.
    + repeat constructor.
    + vm_compute. reflexivity.
  - destruct (detect_first_match_wins indicator_in_page (fun _ => tt)
                "<div class='card'>Maison</div>"
                "https://agence-a.fr") as (_ & Hnone & _).
    apply Hnone. repeat constructor.
Defined.

(** ** Proxy rotation *)

Section ProxyFacts.
Import ProxyRotation.

Lemma get_proxies_from (ps : list string) (n i : nat) :
  i < length ps ->
  (get_proxies n {| proxies := ps; current_index := i |}).2
  = {| proxies := ps; current_index := (i + n) mod length ps |}
  /\ length (get_proxies n {| proxies := ps; current_index := i |}).1 = n
  /\ forall k, k < n ->
       (get_proxies n {| proxies := ps; current_index := i |}).1 !! k
       = Return <$> ps !! ((i + k) mod length ps).
Proof.
  revert i. induction n as [|n IH]; intros i Hi.
  - simpl. rewrite Nat.add_0_r, Nat.mod_small by done.
    split; [done |]. split; [done |]. intros k Hk. lia.
  - simpl. unfold get_proxy. simpl.
    destruct (lookup_lt_is_Some_2 ps i Hi) as [p Hp]. rewrite Hp.
    assert ((i + 1) mod length ps < length ps) as Hi'
      by (apply Nat.mod_upper_bound; lia).
    destruct (IH _ Hi') as (Hst & Hlen & Hout).
    destruct (get_proxies n _) as [rs st]. simpl in *.
    split; [| split].
    + rewrite Hst. f_equal.
      rewrite Nat.Div0.add_mod_idemp_l. f_equal. lia.
    + by rewrite Hlen.
    + intros [|k] Hk; simpl.
      * by rewrite Nat.add_0_r, Nat.mod_small, Hp.
      * rewrite Hout by lia. rewrite Nat.Div0.add_mod_idemp_l.
        do 3 f_equal. lia.
Qed.

Lemma rotate_perm (ps : list string) (m : nat) : rotate m ps ≡ₚ ps.
Proof.
  unfold rotate. rewrite Permutation_app_comm. by rewrite take_drop.
Qed.
End ProxyFacts.

(** C10: [get_proxy] is a round robin over a non-empty proxy list. From a
    fresh instance, the call of rank [k + 1] returns [proxies[k mod len]];
    the index stays below [len] and the list is never changed; and, after
    any number [m] of calls, the next [len] calls return the list rotated by
    [m], so each proxy exactly once, and leave the instance as it was. *)
Theorem get_proxy_round_robin (ps : list string) :
  ps <> [] ->
  (forall n k, k < n ->
     exists p, ps !! (k mod length ps) = Some p
               /\ (ProxyRotation.get_proxies n (ProxyRotation.new ps)).1 !! k
                  = Some (Return p))
  /\ (forall n,
        let self := (ProxyRotation.get_proxies n (ProxyRotation.new ps)).2 in
        ProxyRotation.current_index self < length ps
        /\ ProxyRotation.proxies self = ps)
  /\ (forall m,
        let self := (ProxyRotation.get_proxies m (ProxyRotation.new ps)).2 in
        ProxyRotation.get_proxies (length ps) self
        = (Return <$> rotate m ps, self)
        /\ rotate m ps ≡ₚ ps).
Proof.
  intros Hne.
  assert (0 < length ps) as Hlen by (destruct ps; [done | simpl; lia]).
  split; [| split].
  - intros n k Hk.
    destruct (get_proxies_from ps n 0 Hlen) as (_ & _ & Hout).
    assert (k mod length ps < length ps) as Hlt
      by (apply Nat.mod_upper_bound; lia).
    destruct (lookup_lt_is_Some_2 ps _ Hlt) as [p Hp].
    exists p. split; [done |].
    unfold ProxyRotation.new. rewrite (Hout k Hk). simpl. by rewrite Hp.
  - intros n. simpl.
    destruct (get_proxies_from ps n 0 Hlen) as (Hst & _ & _).
    unfold ProxyRotation.new. rewrite Hst. simpl.
    split; [apply Nat.mod_upper_bound; lia | done].
  - intros m. simpl.
    destruct (get_proxies_from ps m 0 Hlen) as (Hst & _ & _).
    unfold ProxyRotation.new. rewrite Hst. simpl.
    split; [| apply rotate_perm].
    assert (m mod length ps < length ps) as Hi
      by (apply Nat.mod_upper_bound; lia).
    destruct (get_proxies_from ps (length ps) _ Hi) as (Hst' & Hlen' & Hout).
    destruct (ProxyRotation.get_proxies (length ps) _) as [rs st]. simpl in *.
    f_equal.
    + apply list_eq. intros k.
      destruct (decide (k < length ps)) as [Hk|Hk].
      * rewrite (Hout k Hk), list_lookup_fmap, lookup_rotate_r by done.
        do 2 f_equal. unfold rotate_nat_add.
        rewrite Nat.Div0.add_mod_idemp_l.
        rewrite <- Nat2Z.inj_add, <- Nat2Z.inj_mod. by rewrite Nat2Z.id.
      * rewrite !lookup_ge_None_2; [done | |].
        -- rewrite length_fmap, length_rotate. lia.
        -- lia.
    + rewrite Hst'. f_equal.
      rewrite Nat.Div0.add_mod_idemp_l.
      rewrite <- (Nat.mul_1_l (length ps)) at 1.
      by rewrite Nat.Div0.mod_add.
Qed.

Lemma get_proxy_round_robin_witness :
  (forall n k, k < n ->
     exists p, ProxyRotation.proxies ProxyRotation.init !! (k mod 3) = Some p
               /\ (ProxyRotation.get_proxies n ProxyRotation.init).1 !! k
                  = Some (Return p))
  /\ (forall n,
        let self := (ProxyRotation.get_proxies n ProxyRotation.init).2 in
        ProxyRotation.current_index self < 3
        /\ ProxyRotation.proxies self = ProxyRotation.proxies ProxyRotation.init)
  /\ (forall m,
        let self := (ProxyRotation.get_proxies m ProxyRotation.init).2 in
        ProxyRotation.get_proxies 3 self
        = (Return <$> rotate m (ProxyRotation.proxies ProxyRotation.init), self)
        /\ rotate m (ProxyRotation.proxies ProxyRotation.init)
           ≡ₚ ProxyRotation.proxies ProxyRotation.init).
Proof.
  apply (get_proxy_round_robin (ProxyRotation.proxies ProxyRotation.init)).
  discriminate.
Defined.

(** ** Retry with backoff *)

(** The invocations [calls] with the wait that follows each failed one but
    the last: [2 ^ attempt] seconds after the attempt of that rank. *)
Fixpoint with_waits {A : Type} (attempt : Z) (calls : list (py_result A))
  : list (ErrorHandler.event A) :=
  match calls with
  | [] => []
  | [r] => [ErrorHandler.Invoke r]
  | r :: rest =>
      ErrorHandler.Invoke r :: ErrorHandler.Sleep (2 ^ attempt)
        :: with_waits (attempt + 1) rest
  end.

(** Any positive [max_retries]: at most [max_retries] invocations, waits of
    [2 ^ attempt] seconds between them, every invocation but the last a
    caught failure. *)
Section RetryAnyBound.
Import ErrorHandler.
Context {W A : Type}.
Variable func : W -> py_result A * W.

Lemma range_of_nat (n : nat) : range (Z.of_nat n) = Z.of_nat <$> seq 0 n.
Proof.
  unfold range, seqZ. rewrite Nat2Z.id.
  apply list_fmap_ext. intros _ i _. lia.
Qed.

Lemma retry_loop_cons (attempt : Z) (rest : list Z) (max_retries : Z) (w : W) :
  retry_loop func (attempt :: rest) max_retries w
  = let (r, w1) := func w in
    match r with
    | Return a => (Return (Some a), w1, [Invoke r])
    | Raise e =>
        if is_Exception e then
          if decide (attempt = max_retries - 1)%Z
          then (Raise e, w1, [Invoke r])
          else
            let '(res, w2, tr) := retry_loop func rest max_retries w1 in
            (res, w2, Invoke r :: Sleep (2 ^ attempt) :: tr)
        else (Raise e, w1, [Invoke r])
    end.
Proof. reflexivity. Qed.

Lemma with_waits_cons (attempt : Z) (r r' : py_result A)
    (calls : list (py_result A)) :
  with_waits attempt (r :: r' :: calls)
  = Invoke r :: Sleep (2 ^ attempt) :: with_waits (attempt + 1) (r' :: calls).
Proof. reflexivity. Qed.

(** The run that stops at its first invocation [r]. *)
Lemma retry_loop_stops (start n : nat) (r : py_result A)
    (rest : list (py_result A)) :
  (caught r = true -> n = 0 /\ rest = []) ->
  let tr : list (event A) := [Invoke r] in
  (1 <= length (invocations tr) <= S n)
  /\ invocations tr = take (length (invocations tr)) (r :: rest)
  /\ sleeps tr
     = (fun attempt : nat => (2 ^ Z.of_nat attempt)%Z)
         <$> seq start (length (invocations tr) - 1)
  /\ tr = with_waits (Z.of_nat start) (invocations tr)
  /\ (exists failed r',
        invocations tr = failed ++ [r']
        /\ Forall (fun r => caught r = true) failed
        /\ answer r = answer r'
        /\ (caught r' = true -> length (invocations tr) = S n))
  /\ ((exists e, answer r = Raise e /\ is_Exception e = true)
      <-> Forall (fun r => caught r = true) (r :: rest)).
Proof.
  intros Hfull tr. subst tr. cbn [invocations sleeps omap list_omap length take].
  split; [lia |]. split; [done |]. split; [done |]. split; [done |].
  split.
  { exists [], r. split; [done |]. split; [constructor |]. split; [done |].
    intros Hr. destruct (Hfull Hr) as [-> _]. done. }
  split.
  - intros (e & He & Hexc). destruct r as [a|e']; [discriminate He |].
    injection He as ->.
    destruct (Hfull Hexc) as [_ ->]. by repeat constructor.
  - intros H. apply Forall_cons in H as [H _].
    destruct r as [a|e]; [discriminate H |]. by exists e.
Qed.

Lemma retry_loop_attempts (n start : nat) (w w' : W)
    (res : py_result (option A)) (tr : list (event A)) :
  retry_loop func (Z.of_nat <$> seq start (S n)) (Z.of_nat (start + S n)) w
  = (res, w', tr) ->
  (1 <= length (invocations tr) <= S n)
  /\ invocations tr = take (length (invocations tr)) (outcomes func (S n) w)
  /\ sleeps tr
     = (fun attempt : nat => (2 ^ Z.of_nat attempt)%Z)
         <$> seq start (length (invocations tr) - 1)
  /\ tr = with_waits (Z.of_nat start) (invocations tr)
  /\ (exists failed r,
        invocations tr = failed ++ [r]
        /\ Forall (fun r => caught r = true) failed
        /\ res = answer r
        /\ (caught r = true -> length (invocations tr) = S n))
  /\ ((exists e, res = Raise e /\ is_Exception e = true)
      <-> Forall (fun r => caught r = true) (outcomes func (S n) w)).
Proof.
  revert start w w' res tr. induction n as [|n IH]; intros start w w' res tr.
  - cbn [seq fmap list_fmap]. rewrite retry_loop_cons.
    cbn [outcomes].
    destruct (func w) as [[a|e] w1].
    + intros [= <- <- <-].
      by apply (retry_loop_stops start 0 (Return a) []).
    + destruct (is_Exception e) eqn:Ee.
      * rewrite decide_True by lia. intros [= <- <- <-].
        by apply (retry_loop_stops start 0 (Raise e) []).
      * intros [= <- <- <-].
        by apply (retry_loop_stops start 0 (Raise e) []).
  - change (seq start (S (S n))) with (start :: seq (S start) (S n)).
    rewrite fmap_cons, retry_loop_cons.
    change (outcomes func (S (S n)) w)
      with (let (r, w1) := func w in r :: outcomes func (S n) w1).
    destruct (func w) as [[a|e] w1].
    + intros [= <- <- <-].
      by apply (retry_loop_stops start (S n) (Return a)).
    + destruct (is_Exception e) eqn:Ee.
      * rewrite decide_False by lia.
        replace (Z.of_nat (start + S (S n))) with (Z.of_nat (S start + S n))
          by lia.
        destruct (retry_loop func (Z.of_nat <$> seq (S start) (S n))
                    (Z.of_nat (S start + S n)) w1) as [[res2 w2] tr2] eqn:E.
        intros [= <- <- <-].
        destruct (IH _ _ _ _ _ E)
          as (Hlen & Htake & Hsleep & Hwaits & Hlast & Hraise).
        cbn [invocations sleeps omap list_omap].
        fold (invocations tr2). fold (sleeps tr2).
        destruct (invocations tr2) as [|r2 calls2] eqn:Ecalls;
          [simpl in Hlen; lia |].
        split; [cbn [length] in *; lia |].
        split; [cbn [length take] in *; by rewrite <- Htake |].
        split; [rewrite Hsleep; cbn [length]; simpl; by rewrite Nat.sub_0_r |].
        split.
        { rewrite with_waits_cons.
          replace (Z.of_nat start + 1)%Z with (Z.of_nat (S start)) by lia.
          by rewrite <- Hwaits. }
        split.
        { destruct Hlast as (failed & r & Hcalls & Hfailed & Hres & Hfull).
          exists (Raise e :: failed), r.
          split; [cbn [app]; by rewrite Hcalls |].
          split; [constructor; [exact Ee | exact Hfailed] |].
          split; [exact Hres |].
          intros Hr. cbn [length] in *. by rewrite (Hfull Hr). }
        split.
        { intros Hres. constructor; [exact Ee |]. by apply Hraise. }
        { intros H. apply Forall_cons in H as [_ H]. by apply Hraise. }
      * intros [= <- <- <-].
        apply (retry_loop_stops start (S n) (Raise e)).
        cbn. by rewrite Ee.
Qed.

Lemma retry_with_backoff_attempts (n : nat) (w w' : W)
    (res : py_result (option A)) (tr : list (event A)) :
  retry_with_backoff func (Z.of_nat (S n)) w = (res, w', tr) ->
  (1 <= length (invocations tr) <= S n)
  /\ invocations tr = take (length (invocations tr)) (outcomes func (S n) w)
  /\ sleeps tr
     = (fun attempt : nat => (2 ^ Z.of_nat attempt)%Z)
         <$> seq 0 (length (invocations tr) - 1)
  /\ tr = with_waits 0 (invocations tr)
  /\ (exists failed r,
        invocations tr = failed ++ [r]
        /\ Forall (fun r => caught r = true) failed
        /\ res = answer r
        /\ (caught r = true -> length (invocations tr) = S n))
  /\ ((exists e, res = Raise e /\ is_Exception e = true)
      <-> Forall (fun r => caught r = true) (outcomes func (S n) w)).
Proof.
  unfold retry_with_backoff. rewrite range_of_nat.
  apply (retry_loop_attempts n 0).
Qed.
End RetryAnyBound.

(** An operation whose first invocation is cancelled and which would answer
    from the second on: its world counts the invocations made. *)
Definition cancelled_once (w : nat) : py_result string * nat :=
  (if decide (w < 1) then Raise CancelledError else Return "<html>", S w).

(** The rule of C6 for raising, at one operation and starting world: the
    helper raises exactly when every one of the three permitted attempts
    fails. *)
Definition raises_iff_all_fail {W A : Type} (func : W -> py_result A * W)
    (w : W) : Prop :=
  (exists e, (ErrorHandler.retry_with_backoff_default func w).1.1 = Raise e)
  <-> Forall (fun r => ErrorHandler.raised r = true)
        (ErrorHandler.outcomes func 3 w).

(** C6, as stated, fails: [CancelledError] is not an [Exception], so
    [except Exception] does not catch it and the helper raises after a single
    invocation, although the second and the third permitted attempts would
    have succeeded. *)
Lemma retry_with_backoff_cancelled_counterexample :
  ErrorHandler.retry_with_backoff_default cancelled_once 0
  = (Raise CancelledError, 1, [ErrorHandler.Invoke (Raise CancelledError)])
  /\ ErrorHandler.outcomes cancelled_once 3 0
     = [Raise CancelledError; Return "<html>"; Return "<html>"]
  /\ ~ raises_iff_all_fail cancelled_once 0.
Proof.
  split; [vm_compute; reflexivity |].
  split; [vm_compute; reflexivity |].
  intros [Hall _].
  assert (Forall (fun r => ErrorHandler.raised r = true)
            (ErrorHandler.outcomes cancelled_once 3 0)) as H
    by (apply Hall; by exists CancelledError).
  apply Forall_cons in H as [_ H]. apply Forall_cons in H as [H _].
  discriminate H.
Qed.

(** C6, amended: with the default [max_retries=3] the operation is invoked at
    least once and at most 3 times, each invocation starting where the one
    before left the world; a wait of [2 ^ attempt] seconds (1, then 2)
    separates consecutive attempts; every invocation but the last failed with
    an exception that is an [Exception]; the helper answers as the last
    invocation did, returning its value or raising its exception; the last
    invocation is a caught failure only when it is the third; and the helper
    raises an [Exception] exactly when all three attempts fail with one.  An
    exception that is not an [Exception] therefore leaves the helper at the
    attempt that raised it. *)
Theorem retry_with_backoff_default_spec {W A : Type}
    (func : W -> py_result A * W) (w : W) :
  let '(res, _, tr) := ErrorHandler.retry_with_backoff_default func w in
  let calls := ErrorHandler.invocations tr in
  (1 <= length calls <= 3)
  /\ calls = take (length calls) (ErrorHandler.outcomes func 3 w)
  /\ tr = with_waits 0 calls
  /\ ErrorHandler.sleeps tr
     = (fun attempt : nat => (2 ^ Z.of_nat attempt)%Z) <$> seq 0 (length calls - 1)
  /\ (exists failed r,
        calls = failed ++ [r]
        /\ Forall (fun r => ErrorHandler.caught r = true) failed
        /\ res = ErrorHandler.answer r
        /\ (ErrorHandler.caught r = true -> length calls = 3))
  /\ ((exists e, res = Raise e /\ is_Exception e = true)
      <-> Forall (fun r => ErrorHandler.caught r = true)
            (ErrorHandler.outcomes func 3 w))
  /\ (forall e, res = Raise e -> is_Exception e = false ->
        exists failed,
          calls = failed ++ [Raise e]
          /\ Forall (fun r => ErrorHandler.caught r = true) failed)
  /\ res <> Return None.
Proof.
  unfold ErrorHandler.retry_with_backoff_default.
  destruct (ErrorHandler.retry_with_backoff func 3 w) as [[res w'] tr] eqn:E.
  destruct (retry_with_backoff_attempts func 2 w w' res tr E)
    as (Hlen & Htake & Hsleep & Hwaits & (failed & r & Hcalls & Hfailed & Hres & Hfull)
        & Hraise).
  cbn zeta. repeat split; try done; try lia.
  - by exists failed, r.
  - by apply Hraise.
  - by apply Hraise.
  - intros e He Hbase. exists failed. split; [| done].
    rewrite Hcalls. destruct r as [a|e']; [by rewrite Hres in He |].
    cbn in Hres. congruence.
  - rewrite Hres. by destruct r.
Qed.

(** An operation that times out twice and then answers: its world counts
    the invocations made. *)
Definition flaky (w : nat) : py_result string * nat :=
  (if decide (w < 2) then Raise (OtherError "timeout") else Return "<html>",
   S w).

Example retry_flaky :
  ErrorHandler.retry_with_backoff_default flaky 0
  = (Return (Some "<html>"), 3,
     [ ErrorHandler.Invoke (Raise (OtherError "timeout")); ErrorHandler.Sleep 1;
       ErrorHandler.Invoke (Raise (OtherError "timeout")); ErrorHandler.Sleep 2;
       ErrorHandler.Invoke (Return "<html>") ]).
Proof. vm_compute. reflexivity. Qed.

(** ** Agency discovery *)

Section KeyedUpsertFacts.
Import Discovery.
Context {X C : Type}.
Variable key : X -> string.
Variable ckey : C -> string.

(** A step that merges by key: the keys stay, in order, and an unseen key
    is added at the end. *)
Definition keyed_step (step : list X -> C -> list X) : Prop :=
  forall rows c,
    key <$> step rows c
    = if decide (ckey c ∈ key <$> rows)
      then key <$> rows
      else (key <$> rows) ++ [ckey c].

Lemma upsert_by_keyed (combine : X -> C -> X) (create : C -> X) (rows : list X)
    (c : C) :
  (forall x c', key (combine x c') = key x) ->
  key (create c) = ckey c ->
  key <$> upsert_by key ckey combine create rows c
  = if decide (ckey c ∈ key <$> rows)
    then key <$> rows
    else (key <$> rows) ++ [ckey c].
Proof.
  intros Hcombine Hcreate.
  induction rows as [|x rest IH]; cbn [upsert_by].
  - rewrite decide_False by (rewrite fmap_nil; apply not_elem_of_nil).
    rewrite !fmap_cons, Hcreate. reflexivity.
  - destruct (decide (key x = ckey c)) as [Hsame|Hother]; rewrite !fmap_cons.
    + rewrite decide_True; [by rewrite Hcombine |]. rewrite <- Hsame. left.
    + rewrite IH.
      destruct (decide (ckey c ∈ key <$> rest)) as [Hin|Hnot].
      * rewrite decide_True; [done |]. by right.
      * rewrite decide_False; [done |].
        intros Hin. apply elem_of_cons in Hin as [Heq|Hin]; [| done].
        by destruct Hother.
Qed.

Variable step : list X -> C -> list X.
Hypothesis Hstep : keyed_step step.

Lemma step_keeps_keys (rows : list X) (c : C) (k : string) :
  k ∈ key <$> rows -> k ∈ key <$> step rows c.
Proof.
  intros Hk. rewrite Hstep. case_decide; [done |]. apply elem_of_app. by left.
Qed.

Lemma step_adds_key (rows : list X) (c : C) : ckey c ∈ key <$> step rows c.
Proof.
  rewrite Hstep. case_decide; [done |]. apply elem_of_app. right. left.
Qed.

Lemma step_NoDup (rows : list X) (c : C) :
  NoDup (key <$> rows) -> NoDup (key <$> step rows c).
Proof.
  intros Hnd. rewrite Hstep. case_decide as Hin; [done |].
  apply NoDup_app. split; [done |]. split; [| apply NoDup_singleton].
  intros k Hk Hk'. apply list_elem_of_singleton in Hk'. by subst.
Qed.

Lemma fold_NoDup (cs : list C) (rows : list X) :
  NoDup (key <$> rows) -> NoDup (key <$> fold_left step cs rows).
Proof.
  revert rows. induction cs as [|c rest IH]; intros rows Hnd; simpl; [done |].
  by apply IH, step_NoDup.
Qed.

Lemma fold_keeps_keys (cs : list C) (rows : list X) (k : string) :
  k ∈ key <$> rows -> k ∈ key <$> fold_left step cs rows.
Proof.
  revert rows. induction cs as [|c rest IH]; intros rows Hk; simpl; [done |].
  by apply IH, step_keeps_keys.
Qed.

Lemma fold_covers (cs : list C) (rows : list X) (c : C) :
  c ∈ cs -> ckey c ∈ key <$> fold_left step cs rows.
Proof.
  revert rows. induction cs as [|c' rest IH]; intros rows Hc.
  - by apply elem_of_nil in Hc.
  - simpl. apply elem_of_cons in Hc as [->|Hc].
    + apply fold_keeps_keys, step_adds_key.
    + by apply IH.
Qed.
End KeyedUpsertFacts.

Section KeyedPayload.
Context {X C : Type}.
Variable key : X -> string.
Variable ckey : C -> string.
Variable Q : X -> Prop.
Variable Qc : C -> Prop.

(** Some row with key [k] has the property [Q]. *)
Definition carried (k : string) (rows : list X) : Prop :=
  exists x, x ∈ rows /\ key x = k /\ Q x.

Lemma upsert_by_keeps_carried (combine : X -> C -> X) (create : C -> X)
    (rows : list X) (c : C) (k : string) :
  (forall x c', key (combine x c') = key x) ->
  (forall x c', Q x -> Q (combine x c')) ->
  carried k rows ->
  carried k (Discovery.upsert_by key ckey combine create rows c).
Proof.
  intros Hkey Hmono (x & Hin & Hk & Hq).
  induction rows as [|y rest IH]; [by apply elem_of_nil in Hin |].
  cbn [Discovery.upsert_by].
  destruct (decide (key y = ckey c)) as [Hsame|Hother].
  - apply elem_of_cons in Hin as [->|Hin].
    + exists (combine y c). split; [left |]. split; [by rewrite Hkey | by apply Hmono].
    + exists x. split; [by right | done].
  - apply elem_of_cons in Hin as [->|Hin].
    + exists y. split; [left | done].
    + destruct (IH Hin) as (x' & Hin' & Hk' & Hq').
      exists x'. split; [by right | done].
Qed.

Lemma upsert_by_adds_carried (combine : X -> C -> X) (create : C -> X)
    (rows : list X) (c : C) :
  (forall x c', key (combine x c') = key x) ->
  key (create c) = ckey c ->
  (forall x, Qc c -> Q (combine x c)) ->
  (Qc c -> Q (create c)) ->
  Qc c ->
  carried (ckey c) (Discovery.upsert_by key ckey combine create rows c).
Proof.
  intros Hkey Hcreate Hcombine Hnew Hc.
  induction rows as [|y rest IH]; cbn [Discovery.upsert_by].
  - exists (create c). split; [left |]. split; [done | by apply Hnew].
  - destruct (decide (key y = ckey c)) as [Hsame|Hother].
    + exists (combine y c). split; [left |].
      split; [by rewrite Hkey | by apply Hcombine].
    + destruct IH as (x & Hin & Hk & Hq). exists x. split; [by right | done].
Qed.

Variable step : list X -> C -> list X.
Hypothesis step_keeps : forall rows c k, carried k rows -> carried k (step rows c).

Lemma fold_keeps_carried (cs : list C) (rows : list X) (k : string) :
  carried k rows -> carried k (fold_left step cs rows).
Proof.
  revert rows. induction cs as [|c rest IH]; intros rows Hk; simpl; [done |].
  by apply IH, step_keeps.
Qed.

Hypothesis step_adds : forall rows c, Qc c -> carried (ckey c) (step rows c).

Lemma fold_adds_carried (cs : list C) (rows : list X) (c : C) :
  c ∈ cs -> Qc c -> carried (ckey c) (fold_left step cs rows).
Proof.
  revert rows. induction cs as [|c' rest IH]; intros rows Hc Hq.
  - by apply elem_of_nil in Hc.
  - simpl. apply elem_of_cons in Hc as [->|Hc].
    + by apply fold_keeps_carried, step_adds.
    + by apply IH.
Qed.
End KeyedPayload.

Section KeysFromFacts.
Context {X C : Type}.
Variable key : X -> string.
Variable ckey : C -> string.
Variable step : list X -> C -> list X.
Hypothesis Hstep : keyed_step key ckey step.

(** No key comes from nowhere. *)
Lemma fold_keys_from (cs : list C) (rows : list X) (k : string) :
  k ∈ key <$> fold_left step cs rows ->
  k ∈ key <$> rows \/ k ∈ ckey <$> cs.
Proof.
  revert rows. induction cs as [|c rest IH]; intros rows Hk; simpl in Hk.
  - by left.
  - destruct (IH _ Hk) as [Hin|Hin].
    + rewrite Hstep in Hin. case_decide.
      * by left.
      * apply elem_of_app in Hin as [Hin|Hin]; [by left |].
        apply list_elem_of_singleton in Hin as ->. right. rewrite fmap_cons. left.
    + right. rewrite fmap_cons. by right.
Qed.
End KeysFromFacts.

Section DiscoveryFacts.
Import Discovery.
Variable normalize_url : string -> string.

Lemma absorb_keyed :
  keyed_step (cand_key normalize_url) (cand_key normalize_url)
    (upsert_by (cand_key normalize_url) (cand_key normalize_url)
       combine_candidates id).
Proof. intros rows c. by apply upsert_by_keyed. Qed.

Lemma upsert_keyed :
  keyed_step (agency_key normalize_url) (cand_key normalize_url)
    (upsert normalize_url).
Proof. intros rows c. by apply upsert_by_keyed. Qed.

Lemma Discover_one_per_url
    (providers : list (string -> option (list AgencyCandidate))) (area : string) :
  NoDup (cand_key normalize_url <$> Discover normalize_url providers area).
Proof.
  unfold Discover, merge_candidates.
  apply (fold_NoDup _ _ _ absorb_keyed). rewrite fmap_nil. apply NoDup_nil_2.
Qed.

Lemma Discover_covers
    (providers : list (string -> option (list AgencyCandidate))) (area : string)
    (c : AgencyCandidate) :
  c ∈ lookup_all providers area ->
  exists m, m ∈ Discover normalize_url providers area
            /\ cand_key normalize_url m = cand_key normalize_url c.
Proof.
  intros Hc. unfold Discover, merge_candidates.
  pose proof (fold_covers _ _ _ absorb_keyed (lookup_all providers area) [] c Hc)
    as Hk.
  apply list_elem_of_fmap in Hk as (m & Hm & Hin). by exists m.
Qed.

(** What a provider answered is among what the providers found, and
    conversely. *)
Lemma lookup_all_elem
    (providers : list (string -> option (list AgencyCandidate))) (area : string)
    (c : AgencyCandidate) :
  c ∈ lookup_all providers area
  <-> exists lookup candidates,
        lookup ∈ providers /\ lookup area = Some candidates /\ c ∈ candidates.
Proof.
  unfold lookup_all. induction providers as [|p rest IH]; cbn [fmap list_fmap concat].
  - split; [by intros Hc%elem_of_nil |].
    by intros (lookup & candidates & Hin%elem_of_nil & _).
  - rewrite elem_of_app, IH. split.
    + intros [Hc|(lookup & candidates & Hin & Hans & Hc)].
      * destruct (p area) as [candidates|] eqn:Ep; [| by apply elem_of_nil in Hc].
        exists p, candidates. split; [left | done].
      * exists lookup, candidates. split; [by right | done].
    + intros (lookup & candidates & Hin & Hans & Hc).
      apply elem_of_cons in Hin as [->|Hin].
      * left. by rewrite Hans.
      * right. by exists lookup, candidates.
Qed.

Lemma union_tags_keeps (tags more : list string) (tag : string) :
  tag ∈ tags -> tag ∈ union_tags tags more.
Proof.
  unfold union_tags. revert tags.
  induction more as [|t more IH]; intros tags Hin; simpl; [done |].
  apply IH. unfold add_tag. case_decide; [done |]. apply elem_of_app. by left.
Qed.

Lemma union_tags_adds (tags more : list string) (tag : string) :
  tag ∈ more -> tag ∈ union_tags tags more.
Proof.
  unfold union_tags. revert tags.
  induction more as [|t more IH]; intros tags Hin; [by apply elem_of_nil in Hin |].
  simpl. apply elem_of_cons in Hin as [->|Hin]; [| by apply IH].
  apply (union_tags_keeps _ more). unfold add_tag.
  case_decide; [done |]. apply elem_of_app. right. left.
Qed.

(** A tag of a found candidate is a tag of the merged candidate that stands
    for its URL. *)
Lemma Discover_carries_tag
    (providers : list (string -> option (list AgencyCandidate))) (area : string)
    (c : AgencyCandidate) (tag : string) :
  c ∈ lookup_all providers area ->
  tag ∈ cand_provenance c ->
  carried (cand_key normalize_url) (fun m => tag ∈ cand_provenance m)
    (cand_key normalize_url c) (Discover normalize_url providers area).
Proof.
  intros Hc Htag. unfold Discover, merge_candidates.
  apply (fold_adds_carried _ _ _ (fun c => tag ∈ cand_provenance c)); try done.
  - intros rows c' k. apply upsert_by_keeps_carried; [done |].
    intros x c'' Hx. by apply union_tags_keeps.
  - intros rows c' Hc'. apply (upsert_by_adds_carried _ _ _ (fun c => tag ∈ cand_provenance c)); try done.
    intros x _. by apply union_tags_adds.
Qed.

(** Upserting keeps what a row carries as long as enrichment keeps it. *)
Lemma store_keeps (Q : Agency -> Prop) (cs : list AgencyCandidate)
    (store : list Agency) (k : string) :
  (forall a c, Q a -> Q (enrich a c)) ->
  carried (agency_key normalize_url) Q k store ->
  carried (agency_key normalize_url) Q k (fold_left (upsert normalize_url) cs store).
Proof.
  intros Hmono. apply fold_keeps_carried.
  intros rows c k'. by apply upsert_by_keeps_carried.
Qed.

Lemma store_adds (Q : Agency -> Prop) (Qc : AgencyCandidate -> Prop)
    (cs : list AgencyCandidate) (store : list Agency) (c : AgencyCandidate) :
  (forall a c', Q a -> Q (enrich a c')) ->
  (forall a c', Qc c' -> Q (enrich a c')) ->
  (forall id c', Qc c' -> Q (new_agency id c')) ->
  c ∈ cs -> Qc c ->
  carried (agency_key normalize_url) Q (cand_key normalize_url c)
    (fold_left (upsert normalize_url) cs store).
Proof.
  intros Hmono Hcombine Hnew. apply (fold_adds_carried _ _ _ Qc).
  - intros rows c' k'. by apply upsert_by_keeps_carried.
  - intros rows c' Hc'.
    apply (upsert_by_adds_carried _ _ _ Qc); try done.
    + intros a _. by apply Hcombine.
    + intros _. by apply Hnew.
Qed.

Lemma rows_for_none (store : list Agency) (url : string) :
  normalize_url url ∉ agency_key normalize_url <$> store ->
  rows_for normalize_url url store = [].
Proof.
  unfold rows_for. induction store as [|a rest IH]; intros Hnot; [done |].
  rewrite fmap_cons in Hnot. apply not_elem_of_cons in Hnot as [Hne Hnot].
  rewrite filter_cons_False; [by apply IH | congruence].
Qed.

(** With distinct keys, a key that occurs selects exactly one row. *)
Lemma rows_for_unique (store : list Agency) (url : string) :
  one_per_url normalize_url store ->
  normalize_url url ∈ agency_key normalize_url <$> store ->
  exists a, rows_for normalize_url url store = [a].
Proof.
  unfold one_per_url, rows_for.
  induction store as [|a rest IH]; intros Hnd Hin.
  - by apply elem_of_nil in Hin.
  - rewrite fmap_cons in Hnd, Hin. apply NoDup_cons in Hnd as [Hfresh Hnd].
    rewrite filter_cons.
    destruct (decide (agency_key normalize_url a = normalize_url url))
      as [Hsame|Hother].
    + exists a. f_equal. apply rows_for_none. by rewrite <- Hsame.
    + apply IH; [done |].
      apply elem_of_cons in Hin as [Heq|Hin]; [| done].
      by destruct Hother.
Qed.

(** What some row for a URL carries, the only row for that URL has. *)
Lemma carried_row (Q : Agency -> Prop) (store : list Agency) (url : string)
    (a : Agency) :
  rows_for normalize_url url store = [a] ->
  carried (agency_key normalize_url) Q (normalize_url url) store ->
  Q a.
Proof.
  intros Hrows (x & Hin & Hk & Hq).
  assert (x ∈ rows_for normalize_url url store) as Hx
    by (by apply list_elem_of_filter).
  rewrite Hrows in Hx. by apply list_elem_of_singleton in Hx as <-.
Qed.

Lemma DiscoverArea_one_per_url
    (providers : list (string -> option (list AgencyCandidate))) (area : string)
    (store : list Agency) :
  one_per_url normalize_url store ->
  one_per_url normalize_url (DiscoverArea normalize_url providers area store).
Proof. intros Hinv. by apply (fold_NoDup _ _ _ upsert_keyed). Qed.

Lemma DiscoverAreas_one_per_url
    (runs : list (list (string -> option (list AgencyCandidate)) * string))
    (store : list Agency) :
  one_per_url normalize_url store ->
  one_per_url normalize_url (DiscoverAreas normalize_url runs store).
Proof.
  unfold DiscoverAreas. revert store.
  induction runs as [|run rest IH]; intros store Hinv; simpl; [done |].
  by apply IH, DiscoverArea_one_per_url.
Qed.

(** A found candidate is stood for by exactly one row of the store after
    the discovery; the row is active and has the candidate's tags. *)
Lemma found_row
    (providers : list (string -> option (list AgencyCandidate))) (area : string)
    (store : list Agency) (c : AgencyCandidate) :
  one_per_url normalize_url store ->
  c ∈ lookup_all providers area ->
  exists a,
    rows_for normalize_url (cand_url c)
      (DiscoverArea normalize_url providers area store) = [a]
    /\ ag_is_active a = true
    /\ forall tag, tag ∈ cand_provenance c -> tag ∈ ag_discovered_from a.
Proof.
  intros Hinv Hc. unfold DiscoverArea.
  set (store' := fold_left (upsert normalize_url)
                   (Discover normalize_url providers area) store).
  assert (one_per_url normalize_url store') as Hinv'
    by (by apply (fold_NoDup _ _ _ upsert_keyed)).
  destruct (Discover_covers providers area c Hc) as (m & Hm & Hkey).
  destruct (rows_for_unique store' (cand_url c)) as [a Ha]; [done | |].
  { fold (cand_key normalize_url c). rewrite <- Hkey.
    by apply (fold_covers _ _ _ upsert_keyed). }
  exists a. split; [done |]. split.
  - apply (carried_row (fun a => ag_is_active a = true) store' (cand_url c));
      [done |].
    fold (cand_key normalize_url c). rewrite <- Hkey.
    by apply (store_adds _ (fun _ => True)).
  - intros tag Htag.
    destruct (Discover_carries_tag providers area c tag Hc Htag)
      as (m' & Hm' & Hkey' & Htag').
    apply (carried_row (fun a => tag ∈ ag_discovered_from a) store' (cand_url c));
      [done |].
    fold (cand_key normalize_url c). rewrite <- Hkey'.
    apply (store_adds _ (fun c => tag ∈ cand_provenance c)); try done.
    + intros a' c' Ha'. by apply union_tags_keeps.
    + intros a' c' Hc'. by apply union_tags_adds.
Qed.

(** A stored agency is still stood for by exactly one row, with its key and
    its tags. *)
Lemma stored_row
    (providers : list (string -> option (list AgencyCandidate))) (area : string)
    (store : list Agency) (a0 : Agency) :
  one_per_url normalize_url store ->
  a0 ∈ store ->
  exists a,
    rows_for normalize_url (ag_website_url a0)
      (DiscoverArea normalize_url providers area store) = [a]
    /\ ag_id a = ag_id a0
    /\ forall tag, tag ∈ ag_discovered_from a0 -> tag ∈ ag_discovered_from a.
Proof.
  intros Hinv Hin. unfold DiscoverArea.
  set (store' := fold_left (upsert normalize_url)
                   (Discover normalize_url providers area) store).
  assert (one_per_url normalize_url store') as Hinv'
    by (by apply (fold_NoDup _ _ _ upsert_keyed)).
  destruct (rows_for_unique store' (ag_website_url a0)) as [a Ha]; [done | |].
  { apply (fold_keeps_keys _ _ _ upsert_keyed).
    apply list_elem_of_fmap. by exists a0. }
  exists a. split; [done |]. split.
  - apply (carried_row (fun a => ag_id a = ag_id a0) store' (ag_website_url a0));
      [done |].
    apply store_keeps; [done |]. by exists a0.
  - intros tag Htag.
    apply (carried_row (fun a => tag ∈ ag_discovered_from a) store'
             (ag_website_url a0)); [done |].
    apply store_keeps; [| by exists a0].
    intros a' c' Ha'. by apply union_tags_keeps.
Qed.

(** Every row after the discovery stands for a stored agency or for a found
    candidate. *)
Lemma row_origin
    (providers : list (string -> option (list AgencyCandidate))) (area : string)
    (store : list Agency) (a : Agency) :
  a ∈ DiscoverArea normalize_url providers area store ->
  (exists a0, a0 ∈ store
              /\ agency_key normalize_url a0 = agency_key normalize_url a)
  \/ (exists c, c ∈ lookup_all providers area
                /\ cand_key normalize_url c = agency_key normalize_url a).
Proof.
  intros Ha. unfold DiscoverArea in Ha.
  assert (agency_key normalize_url a
          ∈ agency_key normalize_url
              <$> fold_left (upsert normalize_url)
                    (Discover normalize_url providers area) store) as Hk
    by (apply list_elem_of_fmap; by exists a).
  apply (fold_keys_from _ _ _ upsert_keyed) in Hk as [Hk|Hk].
  - left. apply list_elem_of_fmap in Hk as (a0 & Hkey & Hin). by exists a0.
  - right. unfold Discover, merge_candidates in Hk.
    apply (fold_keys_from _ _ _ absorb_keyed) in Hk as [Hk|Hk].
    + rewrite fmap_nil in Hk. by apply elem_of_nil in Hk.
    + apply list_elem_of_fmap in Hk as (c & Hkey & Hin). by exists c.
Qed.
End DiscoveryFacts.

(** C7: spec-modelled.  Whatever the URL normalizer, the providers and their
    answers, and whatever store with one agency per normalized URL the
    discovery starts from: the merged candidates have pairwise distinct
    normalized URLs; the store the discovery leaves has one agency per
    normalized URL; every agency that was stored is still stood for by exactly one row,
    with its key and at least its provenance; every candidate that some
    provider answered is stood for by exactly one row, which is active and
    carries the candidate's provenance, and every other answered candidate
    whose URL normalizes to the same value is stood for by that same row,
    which carries its provenance too; every row stands for a stored agency
    or for an answered candidate; and after any further sequence of
    discoveries the store still has one agency per normalized URL. *)
Theorem discovery_one_agency_per_url (normalize_url : string -> string)
    (providers : list (string -> option (list Discovery.AgencyCandidate)))
    (area : string) (store : list Agency) :
  Discovery.one_per_url normalize_url store ->
  let store' := Discovery.DiscoverArea normalize_url providers area store in
  let answered (c : Discovery.AgencyCandidate) : Prop :=
    exists lookup candidates,
      lookup ∈ providers /\ lookup area = Some candidates /\ c ∈ candidates in
  NoDup (Discovery.cand_key normalize_url
           <$> Discovery.Discover normalize_url providers area)
  /\ Discovery.one_per_url normalize_url store'
  /\ (forall a0,
        a0 ∈ store ->
        exists a,
          Discovery.rows_for normalize_url (ag_website_url a0) store' = [a]
          /\ ag_id a = ag_id a0
          /\ forall tag, tag ∈ ag_discovered_from a0 -> tag ∈ ag_discovered_from a)
  /\ (forall A,
        answered A ->
        exists a,
          Discovery.rows_for normalize_url (Discovery.cand_url A) store' = [a]
          /\ ag_is_active a = true
          /\ (forall tag,
                tag ∈ Discovery.cand_provenance A -> tag ∈ ag_discovered_from a)
          /\ forall B,
               answered B ->
               normalize_url (Discovery.cand_url A)
               = normalize_url (Discovery.cand_url B) ->
               Discovery.rows_for normalize_url (Discovery.cand_url B) store' = [a]
               /\ forall tag,
                    tag ∈ Discovery.cand_provenance B ->
                    tag ∈ ag_discovered_from a)
  /\ (forall a,
        a ∈ store' ->
        (exists a0, a0 ∈ store
                    /\ normalize_url (ag_website_url a0)
                       = normalize_url (ag_website_url a))
        \/ (exists A, answered A
                      /\ normalize_url (Discovery.cand_url A)
                         = normalize_url (ag_website_url a)))
  /\ (forall runs,
        Discovery.one_per_url normalize_url
          (Discovery.DiscoverAreas normalize_url runs store)).
Proof.
  intros Hinv store' answered.
  split; [apply Discover_one_per_url |].
  split; [by apply DiscoverArea_one_per_url |].
  split; [intros a0 Hin; by apply stored_row |].
  split; [| split; [| intros runs; by apply DiscoverAreas_one_per_url]].
  - intros A HA. apply lookup_all_elem in HA.
    destruct (found_row normalize_url providers area store A Hinv HA)
      as (a & Ha & Hactive & Htags).
    exists a. split; [done |]. split; [done |]. split; [done |].
    intros B HB Hsame. apply lookup_all_elem in HB.
    destruct (found_row normalize_url providers area store B Hinv HB)
      as (b & Hb & _ & Htags').
    assert (Discovery.rows_for normalize_url (Discovery.cand_url B) store' = [a])
      as Hrows.
    { rewrite <- Ha. apply list_filter_iff. intros x. by rewrite Hsame. }
    split; [done |].
    fold store' in Hb. rewrite Hrows in Hb. by injection Hb as <-.
  - intros a Ha.
    destruct (row_origin normalize_url providers area store a Ha)
      as [(a0 & Hin & Hkey)|(c & Hc & Hkey)].
    + left. by exists a0.
    + right. exists c. split; [by apply lookup_all_elem | done].
Qed.

(** Two providers that found the same agency under two spellings of its URL,
    and a third that timed out. *)
Definition google_maps (area : string)
  : option (list Discovery.AgencyCandidate) :=
  Some [ {| Discovery.cand_name := "Agence XYZ";
            Discovery.cand_phone := Some "+33123456789";
            Discovery.cand_email := None;
            Discovery.cand_url := "https://www.agence-xyz.fr/";
            Discovery.cand_provenance := ["google_maps"] |} ].

Definition pages_jaunes (area : string)
  : option (list Discovery.AgencyCandidate) :=
  Some [ {| Discovery.cand_name := "Agence XYZ";
            Discovery.cand_phone := None;
            Discovery.cand_email := Some "contact@agence-xyz.fr";
            Discovery.cand_url := "http://agence-xyz.fr";
            Discovery.cand_provenance := ["pages_jaunes"] |} ].

Definition linkedin (area : string)
  : option (list Discovery.AgencyCandidate) := None.

Example discovery_merges_two_sightings :
  Discovery.DiscoverArea Discovery.normalize_url
    [google_maps; pages_jaunes; linkedin] "75015" []
  = [ {| ag_id := 1;
         ag_name := "Agence XYZ";
         ag_phone := Some "+33123456789";
         ag_email := Some "contact@agence-xyz.fr";
         ag_website_url := "https://www.agence-xyz.fr/";
         ag_discovered_from := ["google_maps"; "pages_jaunes"];
         ag_scraping_status := "pending";
         ag_is_active := true |} ].
Proof. vm_compute. reflexivity. Qed.

(** A store that already has the agency, inactive, under a third spelling. *)
Definition stored_xyz : Agency :=
  {| ag_id := 7;
     ag_name := "";
     ag_phone := None;
     ag_email := None;
     ag_website_url := "http://WWW.agence-xyz.fr";
     ag_discovered_from := ["import"];
     ag_scraping_status := "failed";
     ag_is_active := false |}.

Example discovery_enriches_stored_agency :
  Discovery.DiscoverArea Discovery.normalize_url
    [google_maps; pages_jaunes; linkedin] "75015" [stored_xyz]
  = [ {| ag_id := 7;
         ag_name := "Agence XYZ";
         ag_phone := Some "+33123456789";
         ag_email := Some "contact@agence-xyz.fr";
         ag_website_url := "http://WWW.agence-xyz.fr";
         ag_discovered_from := ["import"; "google_maps"; "pages_jaunes"];
         ag_scraping_status := "failed";
         ag_is_active := true |} ].
Proof. vm_compute. reflexivity. Qed.

Lemma discovery_one_agency_per_url_witness :
  let store' :=
    Discovery.DiscoverArea Discovery.normalize_url
      [google_maps; pages_jaunes; linkedin] "75015" [stored_xyz] in
  let answered (c : Discovery.AgencyCandidate) : Prop :=
    exists lookup candidates,
      lookup ∈ [google_maps; pages_jaunes; linkedin]
      /\ lookup "75015" = Some candidates /\ c ∈ candidates in
  NoDup (Discovery.cand_key Discovery.normalize_url
           <$> Discovery.Discover Discovery.normalize_url
                 [google_maps; pages_jaunes; linkedin] "75015")
  /\ Discovery.one_per_url Discovery.normalize_url store'
  /\ (forall a0,
        a0 ∈ [stored_xyz] ->
        exists a,
          Discovery.rows_for Discovery.normalize_url (ag_website_url a0) store'
          = [a]
          /\ ag_id a = ag_id a0
          /\ forall tag, tag ∈ ag_discovered_from a0 -> tag ∈ ag_discovered_from a)
  /\ (forall A,
        answered A ->
        exists a,
          Discovery.rows_for Discovery.normalize_url (Discovery.cand_url A) store'
          = [a]
          /\ ag_is_active a = true
          /\ (forall tag,
                tag ∈ Discovery.cand_provenance A -> tag ∈ ag_discovered_from a)
          /\ forall B,
               answered B ->
               Discovery.normalize_url (Discovery.cand_url A)
               = Discovery.normalize_url (Discovery.cand_url B) ->
               Discovery.rows_for Discovery.normalize_url (Discovery.cand_url B)
                 store' = [a]
               /\ forall tag,
                    tag ∈ Discovery.cand_provenance B ->
                    tag ∈ ag_discovered_from a)
  /\ (forall a,
        a ∈ store' ->
        (exists a0, a0 ∈ [stored_xyz]
                    /\ Discovery.normalize_url (ag_website_url a0)
                       = Discovery.normalize_url (ag_website_url a))
        \/ (exists A, answered A
                      /\ Discovery.normalize_url (Discovery.cand_url A)
                         = Discovery.normalize_url (ag_website_url a)))
  /\ (forall runs,
        Discovery.one_per_url Discovery.normalize_url
          (Discovery.DiscoverAreas Discovery.normalize_url runs [stored_xyz])).
Proof.
  apply (discovery_one_agency_per_url Discovery.normalize_url
           [google_maps; pages_jaunes; linkedin] "75015" [stored_xyz]).
  apply NoDup_singleton.
Defined.

(** * Further properties of the engine *)

(** ** Hashing: missing keys, digest format, field separator *)

Section HashFacts.
Import PyStr DeduplicationEngine.

Lemma length_be_bytes (n : nat) (x : Z) : length (SHA256.be_bytes n x) = n.
Proof. induction n as [|n IH]; simpl; [done | by rewrite IH]. Qed.

Lemma be_bytes_range (n : nat) (x : Z) :
  Forall (fun b => 0 <= b < 256)%Z (SHA256.be_bytes n x).
Proof.
  induction n as [|n IH]; simpl; constructor; [| done].
  change 255%Z with (Z.ones 8). rewrite Z.land_ones by lia.
  apply Z.mod_pos_bound. lia.
Qed.

Lemma length_hex_of_bytes (bs : list Z) :
  String.length (SHA256.hex_of_bytes bs) = 2 * length bs.
Proof. induction bs as [|b bs IH]; simpl; [done | rewrite IH; lia]. Qed.
End HashFacts.

(** A lower-case hexadecimal digit. *)
Definition is_hex (c : ascii) : bool :=
  existsb (Ascii.eqb c) (list_ascii_of_string "0123456789abcdef").

Lemma hex_digit_is_hex (d : Z) : (0 <= d < 16)%Z -> is_hex (SHA256.hex_digit d) = true.
Proof.
  intros Hd.
  assert (forallb (fun d => is_hex (SHA256.hex_digit d)) (seqZ 0 16) = true) as Hall
    by (vm_compute; reflexivity).
  rewrite forallb_forall in Hall. apply Hall.
  apply list_elem_of_In, elem_of_seqZ. lia.
Qed.

Lemma hex_of_bytes_is_hex (bs : list Z) :
  Forall (fun b => 0 <= b < 256)%Z bs ->
  Forall (fun c => is_hex c = true) (list_ascii_of_string (SHA256.hex_of_bytes bs)).
Proof.
  induction 1 as [|b bs Hb _ IH]; simpl; [constructor |].
  constructor; [| constructor; [| exact IH]].
  - apply hex_digit_is_hex. rewrite Z.shiftr_div_pow2 by lia.
    change (2 ^ 4)%Z with 16%Z. split.
    + apply Z.div_pos; lia.
    + apply Z.div_lt_upper_bound; lia.
  - apply hex_digit_is_hex. change 15%Z with (Z.ones 4).
    rewrite Z.land_ones by lia. apply Z.mod_pos_bound. lia.
Qed.

Lemma be_bytes_of_words (n : nat) (ws : list Z) :
  length (flat_map (SHA256.be_bytes n) ws) = n * length ws
  /\ Forall (fun b => 0 <= b < 256)%Z (flat_map (SHA256.be_bytes n) ws).
Proof.
  induction ws as [|w ws [IHlen IHrange]]; cbn [flat_map].
  - split; [simpl; lia | constructor].
  - split.
    + rewrite length_app, length_be_bytes, IHlen. simpl. lia.
    + apply Forall_app. split; [apply be_bytes_range | done].
Qed.

Lemma length_digest_words (msg : list Z) : length (SHA256.digest_words msg) = 8.
Proof. reflexivity. Qed.

Lemma hexdigest_format (msg : list Z) :
  String.length (SHA256.hexdigest msg) = 64
  /\ Forall (fun c => is_hex c = true)
       (list_ascii_of_string (SHA256.hexdigest msg)).
Proof.
  unfold SHA256.hexdigest.
  destruct (be_bytes_of_words 4 (SHA256.digest_words msg)) as [Hlen Hrange].
  split.
  - rewrite length_hex_of_bytes, Hlen, length_digest_words. reflexivity.
  - by apply hex_of_bytes_is_hex.
Qed.

(** X1: [generate_hash] returns a hash exactly when the listing has the three
    keys title, price and address; otherwise it raises [KeyError] for the
    first of the three, in that order, that is missing. *)
Theorem generate_hash_missing_key (listing : gmap string py_val) :
  ((exists h, DeduplicationEngine.generate_hash listing = Return h)
   <-> is_Some (listing !! "title") /\ is_Some (listing !! "price")
       /\ is_Some (listing !! "address"))
  /\ (listing !! "title" = None ->
      DeduplicationEngine.generate_hash listing = Raise (KeyError "title"))
  /\ (is_Some (listing !! "title") -> listing !! "price" = None ->
      DeduplicationEngine.generate_hash listing = Raise (KeyError "price"))
  /\ (is_Some (listing !! "title") -> is_Some (listing !! "price") ->
      listing !! "address" = None ->
      DeduplicationEngine.generate_hash listing = Raise (KeyError "address")).
Proof.
  unfold DeduplicationEngine.generate_hash, getitem.
  destruct (listing !! "title") as [t|], (listing !! "price") as [p|],
    (listing !! "address") as [a|]; simpl;
    repeat split; try done; try (by intros [? ?]); try (by intros (? & ? & ?));
    try (by intros [h Hh]); try (by intros ([? ?] & ?));
    try (by intros (_ & [? ?] & _)); try (by intros (_ & _ & [? ?]));
    try (by intros _; eexists); try (by eexists);
    match goal with
    | H : exists _, Raise _ = Return _ |- _ => by destruct H
    end.
Qed.

(** X2: every hash [generate_hash] returns is made of exactly 64 lower-case
    hexadecimal digits, the width of the [hash] column. *)
Theorem generate_hash_hex64 (listing : gmap string py_val) (h : string) :
  DeduplicationEngine.generate_hash listing = Return h ->
  String.length h = 64
  /\ Forall (fun c => is_hex c = true) (list_ascii_of_string h).
Proof.
  unfold DeduplicationEngine.generate_hash, getitem.
  destruct (listing !! "title") as [t|]; [| done].
  destruct (listing !! "price") as [p|]; [| done].
  destruct (listing !! "address") as [a|]; [| done].
  simpl. intros [= <-]. apply hexdigest_format.
Qed.

Lemma generate_hash_hex64_witness :
  String.length "1b2f17c6414fe7a96665d6c92209a3de082cb2715aafff3a3c89a5d0de8c18a8" = 64
  /\ Forall (fun c => is_hex c = true)
       (list_ascii_of_string
          "1b2f17c6414fe7a96665d6c92209a3de082cb2715aafff3a3c89a5d0de8c18a8").
Proof.
  apply (generate_hash_hex64 listing_site_b). vm_compute. reflexivity.
Defined.

(** X3: the separator is not escaped: moving a piece of text with a bar from
    the end of the title to the start of the price (both being text) leaves
    the hash unchanged, so two different triples can share a hash. *)
Theorem generate_hash_separator_ambiguous
    (l1 l2 : gmap string py_val) (t x p : string) (a : py_val) :
  l1 !! "title" = Some (VStr (t +:+ "|" +:+ x)) ->
  l1 !! "price" = Some (VStr p) ->
  l1 !! "address" = Some a ->
  l2 !! "title" = Some (VStr t) ->
  l2 !! "price" = Some (VStr (x +:+ "|" +:+ p)) ->
  l2 !! "address" = Some a ->
  DeduplicationEngine.generate_hash l1 = DeduplicationEngine.generate_hash l2.
Proof.
  intros Ht1 Hp1 Ha1 Ht2 Hp2 Ha2.
  rewrite (generate_hash_eq l1 _ _ _ Ht1 Hp1 Ha1).
  rewrite (generate_hash_eq l2 _ _ _ Ht2 Hp2 Ha2).
  do 4 f_equal. unfold DeduplicationEngine.signature_of. cbn [py_str].
  by rewrite !of_utf8_bar, <- !app_assoc.
Qed.

Definition listing_bar_in_title : gmap string py_val :=
  {[ "title" := VStr "Studio|T2"; "price" := VStr "900";
     "address" := VStr "Paris" ]}.

Definition listing_bar_in_price : gmap string py_val :=
  {[ "title" := VStr "Studio"; "price" := VStr "T2|900";
     "address" := VStr "Paris" ]}.

Lemma generate_hash_separator_ambiguous_witness :
  DeduplicationEngine.generate_hash listing_bar_in_title
  = DeduplicationEngine.generate_hash listing_bar_in_price.
Proof.
  apply (generate_hash_separator_ambiguous listing_bar_in_title
           listing_bar_in_price "Studio" "T2" "900" (VStr "Paris"));
    vm_compute; reflexivity.
Defined.

(** ** Extraction: shape of the listings, pattern order, swallowed errors *)

(** The element that answers like [el] but finds nothing where [el] raises. *)
Definition quiet (el : DynamicParser.element) : DynamicParser.element :=
  fun pattern =>
    match el pattern with
    | DynamicParser.SelectRaises => DynamicParser.NoMatch
    | outcome => outcome
    end.

Section ExtractionFacts.
Import DynamicParser.

Lemma first_match_first (el : element) (before after : list string)
    (pattern text : string) :
  Forall (fun p => forall t, el p <> Selected t) before ->
  el pattern = Selected text ->
  first_match el (before ++ pattern :: after) = Some text.
Proof.
  intros Hbefore Hhit. induction Hbefore as [|p rest Hp _ IH]; simpl.
  - by rewrite Hhit.
  - destruct (el p) as [t| |] eqn:E; [by destruct (Hp t) | done | done].
Qed.

Lemma first_match_quiet (el : element) (patterns : list string) :
  first_match (quiet el) patterns = first_match el patterns.
Proof.
  induction patterns as [|p rest IH]; simpl; [done |].
  unfold quiet at 1. by destruct (el p).
Qed.

Lemma extract_fields_quiet (el : element) (table : list (string * list string))
    (listing : gmap string py_val) :
  extract_fields (quiet el) table listing = extract_fields el table listing.
Proof.
  revert listing. induction table as [|[field patterns] rest IH];
    intros listing; simpl; [done |].
  rewrite first_match_quiet. by destruct (first_match el patterns).
Qed.

Lemma omap_length_le {A B : Type} (f : A -> option B) (l : list A) :
  length (omap f l) <= length l.
Proof.
  induction l as [|x l IH]; [done |].
  cbn [omap list_omap]. fold (omap f l).
  destruct (f x); simpl; lia.
Qed.

Lemma extract_listing_nonempty (el : element) (listing : gmap string py_val) :
  extract_listing el = Some listing -> listing <> ∅.
Proof.
  unfold extract_listing. destruct (decide (_ = ∅)); [done |].
  by intros [= <-].
Qed.

Lemma extract_listing_entry (el : element) (listing : gmap string py_val)
    (k : string) (v : py_val) :
  extract_listing el = Some listing ->
  listing !! k = Some v ->
  k ∈ FIELD_PATTERNS.*1 /\ exists text, v = VStr text.
Proof.
  intros E Hk. rewrite (extract_listing_Some el listing E) in Hk. split.
  - destruct (decide (k ∈ FIELD_PATTERNS.*1)) as [|Hnot]; [done |].
    by rewrite (resolves_not_target el k Hnot) in Hk.
  - destruct (resolves el k) as [text|]; [| done].
    exists text. by injection Hk as <-.
Qed.
End ExtractionFacts.

(** X4: a listing the parser extracts cannot be hashed as it is: no pattern
    list fills the key address, so [generate_hash] raises [KeyError] on it,
    for address when both title and price were found, and [check_duplicate]
    raises the same and leaves the store alone. *)
Theorem extracted_listing_not_hashable (el : DynamicParser.element)
    (listing : gmap string py_val) (db : list AggregatedListing) :
  DynamicParser.extract_listing el = Some listing ->
  exists k,
    k ∈ ["title"; "price"; "address"]
    /\ DeduplicationEngine.generate_hash listing = Raise (KeyError k)
    /\ DeduplicationEngine.check_duplicate listing db = (Raise (KeyError k), db)
    /\ (is_Some (resolves el "title") -> is_Some (resolves el "price") ->
        k = "address").
Proof.
  intros E.
  assert (listing !! "address" = None) as Ha.
  { rewrite (extract_listing_Some el listing E).
    rewrite resolves_not_target; [done |].
    apply (bool_decide_unpack _). vm_compute. reflexivity. }
  pose proof (extract_listing_Some el listing E "title") as Ht.
  pose proof (extract_listing_Some el listing E "price") as Hp.
  unfold DeduplicationEngine.check_duplicate, DeduplicationEngine.generate_hash,
    getitem.
  rewrite Ht, Hp, Ha.
  destruct (resolves el "title") as [t|]; simpl.
  - destruct (resolves el "price") as [p|]; simpl.
    + exists "address". repeat split; try done. set_solver.
    + exists "price". repeat split; try done. set_solver.
  - exists "title". repeat split; try done. set_solver.
Qed.

Lemma extracted_listing_not_hashable_witness :
  exists k,
    k ∈ ["title"; "price"; "address"]
    /\ DeduplicationEngine.generate_hash {[ "price" := VStr "450 000 €" ]}
       = Raise (KeyError k)
    /\ DeduplicationEngine.check_duplicate {[ "price" := VStr "450 000 €" ]}
         [stored_site_a]
       = (Raise (KeyError k), [stored_site_a])
    /\ (is_Some (resolves el_price_text "title") ->
        is_Some (resolves el_price_text "price") -> k = "address").
Proof.
  apply (extracted_listing_not_hashable el_price_text).
  vm_compute. reflexivity.
Defined.

(** X5: [parse] returns at most one listing per selected element, and every
    listing it returns is a non-empty dictionary whose keys are among the
    seven target fields and whose values are all text. *)
Theorem parse_listings_well_formed {Structure : Type}
    (soup_select : string -> string -> list DynamicParser.element)
    (html : string) (format_info : FormatDetector.format_info Structure) :
  let selected :=
    soup_select html
      (DynamicParser.join ", " (FormatDetector.fi_selectors format_info)) in
  let listings := DynamicParser.parse soup_select html format_info in
  length listings <= length selected
  /\ forall listing,
       listing ∈ listings ->
       listing <> ∅
       /\ forall k v,
            listing !! k = Some v ->
            k ∈ DynamicParser.FIELD_PATTERNS.*1 /\ exists text, v = VStr text.
Proof.
  intros selected listings. subst listings. unfold DynamicParser.parse.
  fold selected. rewrite parse_elements_omap, app_nil_l. split.
  - apply omap_length_le.
  - intros listing Hin. apply list_elem_of_omap in Hin as (el & _ & E). split.
    + by apply (extract_listing_nonempty el).
    + intros k v. by apply (extract_listing_entry el).
Qed.

(** X6: within a field the patterns are tried in order and the first one
    that selects a tag gives the value: when the patterns before it find
    nothing or raise, the listing holds its text, whatever the later
    patterns would select. *)
Theorem extract_listing_first_pattern (el : DynamicParser.element)
    (field pattern text : string) (before after : list string) :
  field_patterns field = before ++ pattern :: after ->
  Forall (fun p => forall t, el p <> DynamicParser.Selected t) before ->
  el pattern = DynamicParser.Selected text ->
  exists listing,
    DynamicParser.extract_listing el = Some listing
    /\ listing !! field = Some (VStr text).
Proof.
  intros Hpatterns Hbefore Hhit.
  assert (resolves el field = Some text) as Hres.
  { unfold resolves. rewrite Hpatterns. by apply first_match_first. }
  destruct (DynamicParser.extract_listing el) as [listing|] eqn:E.
  - exists listing. split; [done |].
    by rewrite (extract_listing_Some el listing E), Hres.
  - rewrite extract_listing_None in E. by rewrite E in Hres.
Qed.

(** An element with a second-level heading and a [.title] block, no [h1]. *)
Definition el_two_titles : DynamicParser.element :=
  fun pattern =>
    if decide (pattern = "h2") then DynamicParser.Selected "Maison 5 pièces"
    else if decide (pattern = ".title") then DynamicParser.Selected "Annonce 42"
    else DynamicParser.NoMatch.

Lemma extract_listing_first_pattern_witness :
  exists listing,
    DynamicParser.extract_listing el_two_titles = Some listing
    /\ listing !! "title" = Some (VStr "Maison 5 pièces").
Proof.
  apply (extract_listing_first_pattern el_two_titles "title" "h2"
           "Maison 5 pièces" ["h1"] [".title"; ".name"; "[data-title]"]).
  - vm_compute. reflexivity.
  - repeat constructor. intros t. vm_compute. discriminate.
  - vm_compute. reflexivity.
Defined.

(** X7: a pattern on which [select_one] raises has exactly the effect of a
    pattern that finds nothing: the exception is swallowed, for one element
    and for a whole page. *)
Theorem extract_listing_swallows_errors (el : DynamicParser.element)
    (els : list DynamicParser.element) :
  DynamicParser.extract_listing (quiet el) = DynamicParser.extract_listing el
  /\ DynamicParser.parse_elements (quiet <$> els) []
     = DynamicParser.parse_elements els [].
Proof.
  assert (forall e, DynamicParser.extract_listing (quiet e)
                    = DynamicParser.extract_listing e) as Hone.
  { intros e. unfold DynamicParser.extract_listing.
    by rewrite extract_fields_quiet. }
  split; [apply Hone |].
  rewrite !parse_elements_omap, !app_nil_l.
  induction els as [|e rest IH]; [done |].
  rewrite fmap_cons. cbn [omap list_omap]. rewrite Hone.
  fold (omap DynamicParser.extract_listing (quiet <$> rest)).
  fold (omap DynamicParser.extract_listing rest).
  by rewrite IH.
Qed.

(** X8: [parse] works element by element and keeps the page order: the
    listings of two runs of elements put end to end are the listings of the
    first run followed by those of the second, and listings already
    collected stay in front. *)
Theorem parse_elements_app (els1 els2 : list DynamicParser.element)
    (listings : list (gmap string py_val)) :
  DynamicParser.parse_elements (els1 ++ els2) listings
  = DynamicParser.parse_elements els1 listings
    ++ DynamicParser.parse_elements els2 [].
Proof.
  rewrite !parse_elements_omap, omap_app, app_nil_l. by rewrite app_assoc.
Qed.

(** ** Detection: what [detect] can answer *)

Section DetectAnswers.
Import FormatDetector.
Context {Structure : Type}.
Variable check_indicators : string -> string -> list string -> bool.

Lemma scan_found (html url : string) (table : list (string * pattern))
    (found : format_info Structure) :
  scan check_indicators table html url = Some found ->
  exists entry,
    entry ∈ table
    /\ platform found = entry.1
    /\ fi_selectors found = selectors entry.2
    /\ check_indicators html url (indicators entry.2) = true.
Proof.
  induction table as [|[n p] rest IH]; simpl; [done |].
  destruct (check_indicators html url (indicators p)) eqn:E.
  - intros [= <-]. exists (n, p). repeat split; [left | done].
  - intros Hrest. destruct (IH Hrest) as (entry & Hin & Hrest').
    exists entry. split; [by right | done].
Qed.
End DetectAnswers.

(** X9: whatever the page and the indicator check, [detect] answers with a
    platform name of the signature table (the fallback's "custom" is one of
    them) and with a selector list that is not empty and holds no empty
    selector, so that the selector [parse] joins from it is never empty. *)
Theorem detect_selectors_usable {Structure : Type}
    (check_indicators : string -> string -> list string -> bool)
    (analyze_structure : string -> Structure) (html url : string) :
  let format_info :=
    FormatDetector.detect check_indicators analyze_structure html url in
  FormatDetector.platform format_info ∈ FormatDetector.PATTERNS.*1
  /\ FormatDetector.fi_selectors format_info <> []
  /\ Forall (fun selector => selector <> "") (FormatDetector.fi_selectors format_info)
  /\ DynamicParser.join ", " (FormatDetector.fi_selectors format_info) <> "".
Proof.
  intros format_info.
  assert (FormatDetector.platform format_info ∈ FormatDetector.PATTERNS.*1
          /\ FormatDetector.fi_selectors format_info <> []
          /\ Forall (fun selector => selector <> "")
               (FormatDetector.fi_selectors format_info)) as (Hname & Hne & Hall).
  { subst format_info. unfold FormatDetector.detect.
    destruct (FormatDetector.scan check_indicators FormatDetector.PATTERNS html url)
      as [found|] eqn:E.
    - apply scan_found in E as (entry & Hin & -> & -> & _).
      assert (Forall (fun entry : string * FormatDetector.pattern =>
                        entry.1 ∈ FormatDetector.PATTERNS.*1
                        /\ FormatDetector.selectors entry.2 <> []
                        /\ Forall (fun selector => selector <> "")
                             (FormatDetector.selectors entry.2))
                FormatDetector.PATTERNS) as Htable.
      { repeat constructor; simpl; try done; set_solver. }
      rewrite Forall_forall in Htable. by apply Htable.
    - simpl. split; [set_solver |]. split; [done |].
      repeat constructor; done. }
  repeat split; try done.
  destruct (FormatDetector.fi_selectors format_info) as [|s rest]; [done |].
  apply Forall_cons in Hall as [Hs _].
  destruct s as [|c s]; [done |]. by destruct rest.
Qed.

(** X10: the fallback does not look at the page: whenever no signature
    matches, for whatever page, URL and analysed structure, [detect] returns
    the same selectors, five per keyword. *)
Theorem detect_fallback_ignores_page {Structure : Type}
    (check_indicators : string -> string -> list string -> bool)
    (analyze1 analyze2 : string -> Structure) (html1 url1 html2 url2 : string) :
  Forall (fun entry =>
            check_indicators html1 url1 (FormatDetector.indicators entry.2) = false)
    FormatDetector.PATTERNS ->
  Forall (fun entry =>
            check_indicators html2 url2 (FormatDetector.indicators entry.2) = false)
    FormatDetector.PATTERNS ->
  FormatDetector.fi_selectors
    (FormatDetector.detect check_indicators analyze1 html1 url1)
  = FormatDetector.fi_selectors
      (FormatDetector.detect check_indicators analyze2 html2 url2)
  /\ length (FormatDetector.fi_selectors
               (FormatDetector.detect check_indicators analyze1 html1 url1))
     = 5 * length FormatDetector.keywords.
Proof.
  intros H1 H2. unfold FormatDetector.detect.
  rewrite (scan_none check_indicators html1 url1 _ H1).
  rewrite (scan_none check_indicators html2 url2 _ H2).
  by split.
Qed.

Lemma detect_fallback_ignores_page_witness :
  FormatDetector.fi_selectors
    (FormatDetector.detect indicator_in_page (fun html => String.length html)
       "<div class='card'>Maison</div>" "https://agence-a.fr")
  = FormatDetector.fi_selectors
      (FormatDetector.detect indicator_in_page (fun _ => 0)
         "<ul><li>T3 Lyon</li></ul>" "https://agence-b.fr")
  /\ length (FormatDetector.fi_selectors
               (FormatDetector.detect indicator_in_page
                  (fun html => String.length html)
                  "<div class='card'>Maison</div>" "https://agence-a.fr"))
     = 5 * length FormatDetector.keywords.
Proof.
  apply (detect_fallback_ignores_page indicator_in_page
           (fun html => String.length html) (fun _ => 0));
    repeat constructor.
Defined.

(** X11: the table order decides. The entry "custom" has no indicator and
    stands before "immobilier_pro": with an indicator check that accepts an
    empty indicator list, "immobilier_pro" is never answered and the
    fallback never runs; with one that rejects it, the answer "custom"
    comes from the fallback only. *)
Theorem detect_custom_entry_order {Structure : Type}
    (check_indicators : string -> string -> list string -> bool)
    (analyze_structure : string -> Structure) (html url : string) :
  let format_info :=
    FormatDetector.detect check_indicators analyze_structure html url in
  (check_indicators html url [] = true ->
   FormatDetector.platform format_info <> "immobilier_pro"
   /\ FormatDetector.structure format_info = None)
  /\ (check_indicators html url [] = false ->
      (FormatDetector.platform format_info = "custom"
       <-> FormatDetector.structure format_info <> None)).
Proof.
  intros format_info. subst format_info.
  unfold FormatDetector.detect, FormatDetector.PATTERNS. simpl.
  destruct (check_indicators html url ["wp-content"; "wp-includes"]),
    (check_indicators html url ["wix.com"; "wixstatic.com"]),
    (check_indicators html url ["shopify.com"; "cdn.shopify.com"]),
    (check_indicators html url ["immobilier"; "bien"; "annonce"]);
    simpl; (split; intros H; try rewrite H; simpl; by split).
Qed.

(** A sample [check_indicators]: every indicator occurs in the page. *)
Definition all_indicators_in_page (html url : string) (indicators : list string)
  : bool :=
  forallb (fun indicator =>
             match String.index 0 indicator html with
             | Some _ => true
             | None => false
             end) indicators.

Lemma detect_custom_entry_order_witness :
  (FormatDetector.platform
     (FormatDetector.detect all_indicators_in_page (fun _ => tt)
        "<p>bien immobilier, annonce 12</p>" "https://agence-a.fr")
   <> "immobilier_pro"
   /\ FormatDetector.structure
        (FormatDetector.detect all_indicators_in_page (fun _ => tt)
           "<p>bien immobilier, annonce 12</p>" "https://agence-a.fr")
      = None)
  /\ (FormatDetector.platform
        (FormatDetector.detect indicator_in_page (fun _ => tt)
           "<div class='card'>Maison</div>" "https://agence-a.fr")
      = "custom"
      <-> FormatDetector.structure
            (FormatDetector.detect indicator_in_page (fun _ => tt)
               "<div class='card'>Maison</div>" "https://agence-a.fr")
          <> None).
Proof.
  split.
  - apply (detect_custom_entry_order all_indicators_in_page (fun _ => tt)
             "<p>bien immobilier, annonce 12</p>" "https://agence-a.fr").
    reflexivity.
  - apply (detect_custom_entry_order indicator_in_page (fun _ => tt)
             "<div class='card'>Maison</div>" "https://agence-a.fr").
    reflexivity.
Defined.

(** ** Proxy rotation: neighbours and the empty list *)

Section ProxyNeighbours.
Import ProxyRotation.

Lemma succ_mod_neq (k len : nat) : 2 <= len -> S k mod len <> k mod len.
Proof.
  intros Hlen Heq.
  assert (k mod len < len) as Hk by (apply Nat.mod_upper_bound; lia).
  replace (S k) with (k + 1) in Heq by lia.
  rewrite <- Nat.Div0.add_mod_idemp_l in Heq.
  destruct (decide (k mod len + 1 < len)) as [Hsmall|Hwrap].
  - rewrite Nat.mod_small in Heq by done. lia.
  - replace (k mod len + 1) with len in Heq by lia.
    rewrite Nat.Div0.mod_same in Heq. lia.
Qed.

Lemma get_proxies_empty (n : nat) (i : nat) :
  get_proxies n {| proxies := []; current_index := i |}
  = (replicate n (Raise IndexError), {| proxies := []; current_index := i |}).
Proof.
  induction n as [|n IH]; [done |].
  cbn [get_proxies]. unfold get_proxy. simpl. by rewrite IH.
Qed.
End ProxyNeighbours.

(** X12: each request uses a different proxy: with at least two proxies and
    no proxy listed twice, two calls in a row never return the same proxy. *)
Theorem get_proxy_neighbours_differ (ps : list string) (n k : nat) :
  NoDup ps -> 2 <= length ps -> S k < n ->
  exists p q,
    (ProxyRotation.get_proxies n (ProxyRotation.new ps)).1 !! k = Some (Return p)
    /\ (ProxyRotation.get_proxies n (ProxyRotation.new ps)).1 !! S k
       = Some (Return q)
    /\ p <> q.
Proof.
  intros Hnd Hlen Hk.
  assert (0 < length ps) as Hpos by lia.
  destruct (get_proxies_from ps n 0 Hpos) as (_ & _ & Hout).
  assert (k mod length ps < length ps) as Hi by (apply Nat.mod_upper_bound; lia).
  assert (S k mod length ps < length ps) as Hj by (apply Nat.mod_upper_bound; lia).
  destruct (lookup_lt_is_Some_2 ps _ Hi) as [p Hp].
  destruct (lookup_lt_is_Some_2 ps _ Hj) as [q Hq].
  exists p, q. unfold ProxyRotation.new.
  rewrite (Hout k) by lia. rewrite (Hout (S k)) by lia. simpl.
  rewrite Hp, Hq. repeat split; try done.
  intros ->. apply (succ_mod_neq k (length ps) Hlen).
  by apply (NoDup_lookup ps _ _ q).
Qed.

Lemma get_proxy_neighbours_differ_witness :
  exists p q,
    (ProxyRotation.get_proxies 7 ProxyRotation.init).1 !! 2 = Some (Return p)
    /\ (ProxyRotation.get_proxies 7 ProxyRotation.init).1 !! 3 = Some (Return q)
    /\ p <> q.
Proof.
  apply (get_proxy_neighbours_differ
           (ProxyRotation.proxies ProxyRotation.init) 7 2).
  - apply (bool_decide_unpack _). vm_compute. reflexivity.
  - simpl. lia.
  - lia.
Defined.

(** X13: with an empty proxy list every call raises [IndexError], the
    indexing failing before the modulo is computed, and the instance is left
    as it was. *)
Theorem get_proxy_empty_list (n : nat) :
  ProxyRotation.get_proxies n (ProxyRotation.new [])
  = (replicate n (Raise IndexError), ProxyRotation.new []).
Proof. apply get_proxies_empty. Qed.

(** ** Retry: any bound, no attempt at all, total wait *)

Section RetryWaits.
Import ErrorHandler.

Lemma sum_powers_of_two (m : nat) :
  foldr Z.add 0%Z ((fun attempt : nat => (2 ^ Z.of_nat attempt)%Z) <$> seq 0 m)
  = (2 ^ Z.of_nat m - 1)%Z.
Proof.
  induction m as [|m IH]; [done |].
  rewrite seq_S, fmap_app, foldr_app. simpl.
  replace (2 ^ Z.of_nat m + 0)%Z with (0 + 2 ^ Z.of_nat m)%Z by lia.
  assert (forall (l : list Z) (z : Z),
             foldr Z.add z l = (foldr Z.add 0 l + z)%Z) as Hshift.
  { induction l as [|x l IHl]; intros z; simpl; [lia |]. rewrite IHl. lia. }
  rewrite Hshift, IH.
  replace (Z.of_nat (S m)) with (Z.of_nat m + 1)%Z by lia.
  rewrite Z.pow_add_r by lia. lia.
Qed.
End RetryWaits.

(** The seconds the helper slept in all. *)
Definition total_wait {A : Type} (tr : list (ErrorHandler.event A)) : Z :=
  foldr Z.add 0%Z (ErrorHandler.sleeps tr).

(** X14: with [max_retries] zero or negative the loop body never runs: the
    operation is not invoked, nothing is awaited, no exception is raised and
    the helper returns [None]. *)
Theorem retry_with_backoff_no_attempt {W A : Type}
    (func : W -> py_result A * W) (max_retries : Z) (w : W) :
  (max_retries <= 0)%Z ->
  ErrorHandler.retry_with_backoff func max_retries w = (Return None, w, []).
Proof.
  intros Hle. unfold ErrorHandler.retry_with_backoff, ErrorHandler.range.
  by rewrite seqZ_nil.
Qed.

Lemma retry_with_backoff_no_attempt_witness :
  ErrorHandler.retry_with_backoff flaky 0 0 = (Return None, 0, []).
Proof. apply (retry_with_backoff_no_attempt flaky 0 0). lia. Defined.

(** X15: for every positive [max_retries] the helper invokes the operation
    at least once and at most [max_retries] times, each invocation starting
    from the world the one before left; it sleeps [2 ^ attempt] seconds after
    each failed attempt but the last; every invocation but the last failed
    with an [Exception]; the helper answers as the last invocation did; the
    last invocation is a caught failure only when all [max_retries] attempts
    were made; and the helper raises an [Exception] exactly when all
    [max_retries] attempts fail with one. *)
Theorem retry_with_backoff_any_bound {W A : Type}
    (func : W -> py_result A * W) (n : nat) (w w' : W)
    (res : py_result (option A)) (tr : list (ErrorHandler.event A)) :
  ErrorHandler.retry_with_backoff func (Z.of_nat (S n)) w = (res, w', tr) ->
  (1 <= length (ErrorHandler.invocations tr) <= S n)
  /\ ErrorHandler.invocations tr
     = take (length (ErrorHandler.invocations tr))
         (ErrorHandler.outcomes func (S n) w)
  /\ ErrorHandler.sleeps tr
     = (fun attempt : nat => (2 ^ Z.of_nat attempt)%Z)
         <$> seq 0 (length (ErrorHandler.invocations tr) - 1)
  /\ (exists failed r,
        ErrorHandler.invocations tr = failed ++ [r]
        /\ Forall (fun r => ErrorHandler.caught r = true) failed
        /\ res = ErrorHandler.answer r
        /\ (ErrorHandler.caught r = true ->
            length (ErrorHandler.invocations tr) = S n))
  /\ ((exists e, res = Raise e /\ is_Exception e = true)
      <-> Forall (fun r => ErrorHandler.caught r = true)
            (ErrorHandler.outcomes func (S n) w))
  /\ res <> Return None.
Proof.
  intros Hrun.
  destruct (retry_with_backoff_attempts func n w w' res tr Hrun)
    as (Hlen & Htake & Hsleep & _ & Hlast & Hraise).
  split; [exact Hlen |]. split; [exact Htake |]. split; [exact Hsleep |].
  split; [exact Hlast |]. split; [exact Hraise |].
  destruct Hlast as (_ & r & _ & _ & -> & _). by destruct r.
Qed.

(** An operation that never answers. *)
Definition always_down (w : nat) : py_result string * nat :=
  (Raise (OtherError "connection refused"), S w).

Lemma retry_with_backoff_any_bound_witness :
  let tr : list (ErrorHandler.event string) :=
    [ ErrorHandler.Invoke (Raise (OtherError "connection refused"));
      ErrorHandler.Sleep 1;
      ErrorHandler.Invoke (Raise (OtherError "connection refused"));
      ErrorHandler.Sleep 2;
      ErrorHandler.Invoke (Raise (OtherError "connection refused"));
      ErrorHandler.Sleep 4;
      ErrorHandler.Invoke (Raise (OtherError "connection refused"));
      ErrorHandler.Sleep 8;
      ErrorHandler.Invoke (Raise (OtherError "connection refused")) ] in
  let res : py_result (option string) :=
    Raise (OtherError "connection refused") in
  (1 <= length (ErrorHandler.invocations tr) <= 5)
  /\ ErrorHandler.invocations tr
     = take (length (ErrorHandler.invocations tr))
         (ErrorHandler.outcomes always_down 5 0)
  /\ ErrorHandler.sleeps tr
     = (fun attempt : nat => (2 ^ Z.of_nat attempt)%Z)
         <$> seq 0 (length (ErrorHandler.invocations tr) - 1)
  /\ (exists failed r,
        ErrorHandler.invocations tr = failed ++ [r]
        /\ Forall (fun r => ErrorHandler.caught r = true) failed
        /\ res = ErrorHandler.answer r
        /\ (ErrorHandler.caught r = true ->
            length (ErrorHandler.invocations tr) = 5))
  /\ ((exists e, res = Raise e /\ is_Exception e = true)
      <-> Forall (fun r => ErrorHandler.caught r = true)
            (ErrorHandler.outcomes always_down 5 0))
  /\ res <> Return None.
Proof.
  intros tr res.
  apply (retry_with_backoff_any_bound always_down 4 0 5 res tr).
  vm_compute. reflexivity.
Defined.

(** X16: the helper waits [2 ^ (k - 1) - 1] seconds in all when it makes [k]
    invocations, hence at most [2 ^ (max_retries - 1) - 1] seconds: 3 seconds
    with the default, and nothing when the first attempt succeeds. *)
Theorem retry_with_backoff_total_wait {W A : Type}
    (func : W -> py_result A * W) (n : nat) (w w' : W)
    (res : py_result (option A)) (tr : list (ErrorHandler.event A)) :
  ErrorHandler.retry_with_backoff func (Z.of_nat (S n)) w = (res, w', tr) ->
  total_wait tr
  = (2 ^ Z.of_nat (length (ErrorHandler.invocations tr) - 1) - 1)%Z
  /\ (0 <= total_wait tr <= 2 ^ Z.of_nat n - 1)%Z.
Proof.
  intros Hrun.
  destruct (retry_with_backoff_attempts func n w w' res tr Hrun)
    as (Hlen & _ & Hsleep & _).
  unfold total_wait. rewrite Hsleep, sum_powers_of_two.
  split; [done |].
  assert (2 ^ Z.of_nat (length (ErrorHandler.invocations tr) - 1)
          <= 2 ^ Z.of_nat n)%Z
    by (apply Z.pow_le_mono_r; lia).
  assert (0 < 2 ^ Z.of_nat (length (ErrorHandler.invocations tr) - 1))%Z
    by (apply Z.pow_pos_nonneg; lia).
  lia.
Qed.

Lemma retry_with_backoff_total_wait_witness :
  total_wait
    [ ErrorHandler.Invoke (Raise (OtherError "timeout")); ErrorHandler.Sleep 1;
      ErrorHandler.Invoke (Raise (OtherError "timeout")); ErrorHandler.Sleep 2;
      ErrorHandler.Invoke (Return "<html>") ]
  = (2 ^ Z.of_nat (3 - 1) - 1)%Z
  /\ (0 <= total_wait
             [ ErrorHandler.Invoke (Raise (OtherError "timeout"));
               ErrorHandler.Sleep 1;
               ErrorHandler.Invoke (Raise (OtherError "timeout"));
               ErrorHandler.Sleep 2;
               ErrorHandler.Invoke (Return "<html>") ]
      <= 2 ^ Z.of_nat 2 - 1)%Z.
Proof.
  apply (retry_with_backoff_total_wait flaky 2 0 3 (Return (Some "<html>"))).
  vm_compute. reflexivity.
Defined.

(** ** The scraper and the scheduler around the engine *)

Module IntelligentScraper.

(** The calls [scrape_agency] makes to the methods the document does not
    define, in order. *)
Inductive call : Type :=
  | FetchPage (url : string)
  | SaveListings (listings : list (gmap string py_val)) (agency_id : Z)
  | HandleError (agency_id : Z) (e : py_exc).

Section Scrape.
Context {W Format : Type}.
(** [fetch_page], [save_listings] and [handle_error] are awaited by
    [scrape_agency] and defined nowhere in the document: they are
    parameters, acting on a world [W]. *)
Variable fetch_page : string -> W -> py_result string * W.
(** [self.detector.detect] and [self.parser.parse]: plain calls, which raise
    what the helpers they call raise. *)
Variable detect : string -> string -> py_result Format.
Variable parse : string -> Format -> py_result (list (gmap string py_val)).
Variable save_listings :
  list (gmap string py_val) -> Agency -> W -> py_result unit * W.
Variable handle_error : Agency -> py_exc -> W -> py_result unit * W.

(** The body of the [try]: the first statement that raises ends it. *)
Definition try_body (agency : Agency) (w : W)
  : py_result unit * W * list call :=
  let url := ag_website_url agency in
  let (fetched, w1) := fetch_page url w in
  match fetched with
  | Raise e => (Raise e, w1, [FetchPage url])
  | Return html =>
      match detect html url with
      | Raise e => (Raise e, w1, [FetchPage url])
      | Return format_info =>
          match parse html format_info with
          | Raise e => (Raise e, w1, [FetchPage url])
          | Return listings =>
              let (saved, w2) := save_listings listings agency w1 in
              (saved, w2, [FetchPage url; SaveListings listings (ag_id agency)])
          end
      end
  end.

(** The [try] with its [except Exception] handler, which does not catch an
    exception that is not an [Exception]; the method has no [return] and
    answers [None]. *)
Definition scrape_agency (agency : Agency) (w : W)
  : py_result unit * W * list call :=
  let '(body, w1, calls) := try_body agency w in
  match body with
  | Return _ => (Return (), w1, calls)
  | Raise e =>
      if is_Exception e then
        let (handled, w2) := handle_error agency e w1 in
        (handled, w2, calls ++ [HandleError (ag_id agency) e])
      else (Raise e, w1, calls)
  end.
End Scrape.

(** The detector and the parser [__init__] binds, when the helpers they
    call do not raise. *)
Definition detector_detect {Structure : Type}
    (check_indicators : string -> string -> list string -> bool)
    (analyze_structure : string -> Structure) (html url : string)
  : py_result (FormatDetector.format_info Structure) :=
  Return (FormatDetector.detect check_indicators analyze_structure html url).

Definition parser_parse {Structure : Type}
    (soup_select : string -> string -> list DynamicParser.element)
    (html : string) (format_info : FormatDetector.format_info Structure)
  : py_result (list (gmap string py_val)) :=
  Return (DynamicParser.parse soup_select html format_info).

End IntelligentScraper.

Module ScrapingScheduler.

(** [scrape_agency_task.delay(agency.id)]: one more job at the end of the
    task queue, carrying the agency's key. *)
Definition queue_scraping_job (agency : Agency) (queue : list Z) : list Z :=
  queue ++ [ag_id agency].

(** The [for agency in agencies] loop. *)
Fixpoint queue_all (agencies : list Agency) (queue : list Z) : list Z :=
  match agencies with
  | [] => queue
  | agency :: rest => queue_all rest (queue_scraping_job agency queue)
  end.

(** [db.query(Agency).filter(Agency.is_active == True).all()], then the
    loop. *)
Definition schedule_scraping (table : list Agency) (queue : list Z) : list Z :=
  let agencies := filter (fun a => ag_is_active a = true) table in
  queue_all agencies queue.

End ScrapingScheduler.

Section ScraperFacts.
Import IntelligentScraper ScrapingScheduler.

Lemma queue_all_app (agencies : list Agency) (queue : list Z) :
  queue_all agencies queue = queue ++ (ag_id <$> agencies).
Proof.
  revert queue. induction agencies as [|a rest IH]; intros queue; simpl.
  - by rewrite app_nil_r.
  - rewrite IH. unfold queue_scraping_job. by rewrite <- app_assoc.
Qed.
End ScraperFacts.

(** Finds which call of a short call list a membership speaks of. *)
Ltac which_call :=
  match goal with
  | H : _ ∈ _ |- _ =>
      repeat (apply elem_of_cons in H as [H|H];
              [try discriminate H; try (injection H as -> ->) |]);
      try (by apply elem_of_nil in H); try done
  end.

Section ScrapeFacts.
Import IntelligentScraper.
Context {W Format : Type}.
Variable fetch_page : string -> W -> py_result string * W.
Variable detect : string -> string -> py_result Format.
Variable parse : string -> Format -> py_result (list (gmap string py_val)).
Variable save_listings :
  list (gmap string py_val) -> Agency -> W -> py_result unit * W.
Variable handle_error : Agency -> py_exc -> W -> py_result unit * W.

(** The calls of the [try] body: the fetch, then at most the save, of what
    [parse] returned. *)
Lemma try_body_calls (agency : Agency) (w : W) :
  let '(_, _, tried) :=
    try_body fetch_page detect parse save_listings agency w in
  (exists rest, tried = FetchPage (ag_website_url agency) :: rest
                /\ length rest <= 1)
  /\ (forall listings id,
        SaveListings listings id ∈ tried ->
        id = ag_id agency
        /\ exists html format_info,
             (fetch_page (ag_website_url agency) w).1 = Return html
             /\ detect html (ag_website_url agency) = Return format_info
             /\ parse html format_info = Return listings)
  /\ (forall id e, HandleError id e ∉ tried).
Proof.
  unfold try_body.
  destruct (fetch_page (ag_website_url agency) w) as [[html|e] w1]; cbn [fst].
  - destruct (detect html (ag_website_url agency)) as [format_info|e] eqn:Ed.
    + destruct (parse html format_info) as [listings|e] eqn:Ep.
      * destruct (save_listings listings agency w1) as [saved w2].
        split; [eexists; split; [done | simpl; lia] |].
        split.
        -- intros listings' id' Hin. which_call. split; [done |].
           by exists html, format_info.
        -- intros id' e' Hin. which_call.
      * split; [eexists; split; [done | simpl; lia] |].
        split; [intros listings' id' Hin | intros id' e' Hin]; which_call.
    + split; [eexists; split; [done | simpl; lia] |].
      split; [intros listings' id' Hin | intros id' e' Hin]; which_call.
  - split; [eexists; split; [done | simpl; lia] |].
    split; [intros listings' id' Hin | intros id' e' Hin]; which_call.
Qed.

End ScrapeFacts.

(** X17: [scrape_agency] keeps inside the failures that are [Exception]s:
    it starts by fetching the agency's URL; it saves only after the fetch,
    [detect] and [parse] all returned, and then what [parse] returned; a
    failure of the fetch, of [detect], of [parse] or of the save goes to
    [handle_error] when it is an [Exception] and leaves [scrape_agency] as
    it is when it is not; so an exception leaves [scrape_agency] only if it
    is not an [Exception] or [handle_error] itself raised it. *)
Theorem scrape_agency_contains_errors {W Format : Type}
    (fetch_page : string -> W -> py_result string * W)
    (detect : string -> string -> py_result Format)
    (parse : string -> Format -> py_result (list (gmap string py_val)))
    (save_listings : list (gmap string py_val) -> Agency -> W -> py_result unit * W)
    (handle_error : Agency -> py_exc -> W -> py_result unit * W)
    (agency : Agency) (w : W) :
  let '(body, w1, tried) :=
    IntelligentScraper.try_body fetch_page detect parse save_listings agency w in
  let '(res, w2, calls) :=
    IntelligentScraper.scrape_agency fetch_page detect parse save_listings
      handle_error agency w in
  head calls = Some (IntelligentScraper.FetchPage (ag_website_url agency))
  /\ length calls <= 3
  /\ (forall listings id,
        IntelligentScraper.SaveListings listings id ∈ calls ->
        id = ag_id agency
        /\ exists html format_info,
             (fetch_page (ag_website_url agency) w).1 = Return html
             /\ detect html (ag_website_url agency) = Return format_info
             /\ parse html format_info = Return listings)
  /\ (forall id e,
        IntelligentScraper.HandleError id e ∈ calls ->
        id = ag_id agency /\ body = Raise e /\ is_Exception e = true
        /\ (res, w2) = handle_error agency e w1)
  /\ (body = Return () -> res = Return () /\ w2 = w1 /\ calls = tried)
  /\ (forall e, body = Raise e -> is_Exception e = true ->
        calls = tried ++ [IntelligentScraper.HandleError (ag_id agency) e])
  /\ (forall e, res = Raise e ->
        (body = Raise e /\ is_Exception e = false /\ w2 = w1 /\ calls = tried)
        \/ exists e0,
             body = Raise e0 /\ is_Exception e0 = true
             /\ (handle_error agency e0 w1).1 = Raise e).
Proof.
  pose proof (try_body_calls fetch_page detect parse save_listings agency w)
    as Hbody.
  unfold IntelligentScraper.scrape_agency.
  destruct (IntelligentScraper.try_body fetch_page detect parse save_listings
              agency w) as [[body w1] tried].
  destruct Hbody as ((rest & -> & Hrest) & Hsave & Hnone).
  destruct body as [[]|e].
  - split; [done |]. split; [simpl; lia |]. split; [exact Hsave |].
    split; [intros id e Hin; by destruct (Hnone id e) |].
    split; [done |]. split; [done |]. done.
  - destruct (is_Exception e) eqn:Ee.
    + destruct (handle_error agency e w1) as [handled w2] eqn:Eh.
      split; [done |].
      split; [simpl; rewrite length_app; simpl; lia |].
      split.
      { intros listings id Hin. apply elem_of_app in Hin as [Hin|Hin].
        - by apply Hsave.
        - which_call. }
      split.
      { intros id e' Hin. apply elem_of_app in Hin as [Hin|Hin].
        - by destruct (Hnone id e').
        - which_call. }
      split; [done |].
      split; [by intros e' [= <-] _ |].
      intros e' ->. right. exists e. by rewrite Eh.
    + split; [done |]. split; [simpl; lia |]. split; [exact Hsave |].
      split; [intros id e' Hin; by destruct (Hnone id e') |].
      split; [done |].
      split; [intros e' [= <-] He'; congruence |].
      intros e' [= <-]. by left.
Qed.

(** A run with the detector and the parser of the document: the page
    matches no signature, the fallback selectors select one element, and the
    listing extracted from it is saved. *)
Example scrape_agency_saves_parsed :
  IntelligentScraper.scrape_agency
    (fun url log => (Return "<div class='card'>Maison</div>", log ++ ["fetch"]))
    (IntelligentScraper.detector_detect indicator_in_page (fun _ => tt))
    (IntelligentScraper.parser_parse (fun html selector => [el_price_text]))
    (fun listings agency log => (Return (), log ++ ["save"]))
    (fun agency e log => (Return (), log ++ ["error"]))
    agency_a []
  = (Return (), ["fetch"; "save"],
     [ IntelligentScraper.FetchPage "https://agence-a.fr";
       IntelligentScraper.SaveListings [ {[ "price" := VStr "450 000 €" ]} ] 10 ]).
Proof. vm_compute. reflexivity. Qed.

(** The same site when the task is cancelled during the fetch: the
    exception is not an [Exception], [handle_error] is not called and the
    exception leaves [scrape_agency]. *)
Example scrape_agency_cancelled :
  IntelligentScraper.scrape_agency
    (fun url log => (Raise CancelledError, log ++ ["fetch"]))
    (IntelligentScraper.detector_detect indicator_in_page (fun _ => tt))
    (IntelligentScraper.parser_parse (fun html selector => [el_price_text]))
    (fun listings agency log => (Return (), log ++ ["save"]))
    (fun agency e log => (Return (), log ++ ["error"]))
    agency_a []
  = (Raise CancelledError, ["fetch"],
     [ IntelligentScraper.FetchPage "https://agence-a.fr" ]).
Proof. vm_compute. reflexivity. Qed.

(** X18: [schedule_scraping] appends to the task queue one job per active
    agency, in table order, whatever the agency's [scraping_status], and
    none for an inactive agency; run again before the queue is served, it
    queues every active agency a second time. *)
Theorem schedule_scraping_jobs (table : list Agency) (queue : list Z) :
  let jobs := ag_id <$> filter (fun a => ag_is_active a = true) table in
  ScrapingScheduler.schedule_scraping table queue = queue ++ jobs
  /\ (forall id,
        id ∈ jobs <-> exists a, a ∈ table /\ ag_is_active a = true /\ ag_id a = id)
  /\ ScrapingScheduler.schedule_scraping table
       (ScrapingScheduler.schedule_scraping table queue)
     = queue ++ jobs ++ jobs.
Proof.
  intros jobs. unfold ScrapingScheduler.schedule_scraping.
  rewrite !queue_all_app. fold jobs. repeat split.
  - intros Hid. apply list_elem_of_fmap in Hid as (a & -> & Ha).
    apply list_elem_of_filter in Ha as [Hactive Hin]. by exists a.
  - intros (a & Hin & Hactive & <-). apply list_elem_of_fmap.
    exists a. split; [done |]. by apply list_elem_of_filter.
  - by rewrite <- app_assoc.
Qed.

(** The scraper of the document as the [self.scraper] of the change
    detector: what [scrape_agency] returns and the world it leaves. *)
Definition document_scraper {W Format : Type}
    (fetch_page : string -> W -> py_result string * W)
    (detect : string -> string -> py_result Format)
    (parse : string -> Format -> py_result (list (gmap string py_val)))
    (save_listings : list (gmap string py_val) -> Agency -> W -> py_result unit * W)
    (handle_error : Agency -> py_exc -> W -> py_result unit * W)
    (agency : Agency) (w : W) : py_result unit * W :=
  let '(res, w1, _) :=
    IntelligentScraper.scrape_agency fetch_page detect parse save_listings
      handle_error agency w in
  (res, w1).

(** X19: with the scraper of the document as its [self.scraper],
    [detect_changes] compares [None] with the stored rows: [scrape_agency]
    has no [return], so [find_new] and [find_removed] receive [None]
    whatever the site showed; the rows are read in the world the scraper
    left, after its save; a fetch that fails with an [Exception] which
    [handle_error] absorbs does not stop the cycle, which goes on to compare
    and to notify; and the cycle stops before the comparison only when
    [scrape_agency] raises. *)
Theorem detect_changes_compares_none {W Format New Removed : Type}
    (fetch_page : string -> W -> py_result string * W)
    (detect : string -> string -> py_result Format)
    (parse : string -> Format -> py_result (list (gmap string py_val)))
    (save_listings : list (gmap string py_val) -> Agency -> W -> py_result unit * W)
    (handle_error : Agency -> py_exc -> W -> py_result unit * W)
    (stored : W -> list AggregatedListing)
    (find_new : unit -> list AggregatedListing -> py_result New)
    (find_removed : unit -> list AggregatedListing -> py_result Removed)
    (notify_changes : Agency -> New -> Removed -> W -> py_result unit * W)
    (agency : Agency) (w : W) :
  let scraper :=
    document_scraper fetch_page detect parse save_listings handle_error in
  let cycle :=
    ChangeDetector.detect_changes scraper stored find_new find_removed
      notify_changes agency w in
  let compare (w1 : W) : py_result unit * W :=
    let previous := ChangeDetector.active_listings agency (stored w1) in
    match find_new () previous with
    | Raise e => (Raise e, w1)
    | Return new_listings =>
        match find_removed () previous with
        | Raise e => (Raise e, w1)
        | Return removed_listings =>
            notify_changes agency new_listings removed_listings w1
        end
    end in
  (forall w1, scraper agency w = (Return (), w1) -> cycle = compare w1)
  /\ (forall e w1, scraper agency w = (Raise e, w1) -> cycle = (Raise e, w1))
  /\ (forall e w1 w2,
        fetch_page (ag_website_url agency) w = (Raise e, w1) ->
        is_Exception e = true ->
        handle_error agency e w1 = (Return (), w2) ->
        cycle = compare w2)
  /\ (forall html format_info listings w1 w2,
        fetch_page (ag_website_url agency) w = (Return html, w1) ->
        detect html (ag_website_url agency) = Return format_info ->
        parse html format_info = Return listings ->
        save_listings listings agency w1 = (Return (), w2) ->
        cycle = compare w2).
Proof.
  intros scraper cycle compare. subst cycle.
  unfold ChangeDetector.detect_changes.
  split; [| split; [| split]].
  - intros w1 ->. reflexivity.
  - intros e w1 ->. reflexivity.
  - intros e w1 w2 Hfetch He Hhandle.
    assert (scraper agency w = (Return (), w2)) as ->; [| reflexivity].
    subst scraper. unfold document_scraper, IntelligentScraper.scrape_agency,
      IntelligentScraper.try_body.
    by rewrite Hfetch, He, Hhandle.
  - intros html format_info listings w1 w2 Hfetch Hdetect Hparse Hsave.
    assert (scraper agency w = (Return (), w2)) as ->; [| reflexivity].
    subst scraper. unfold document_scraper, IntelligentScraper.scrape_agency,
      IntelligentScraper.try_body.
    by rewrite Hfetch, Hdetect, Hparse, Hsave.
Qed.

(** A site that is down, an error handler that logs, a comparison that
    takes [None] for an empty site and a notifier: the world is the log. *)
Definition site_down (url : string) (log : list string)
  : py_result string * list string :=
  (Raise (OtherError "timeout"), log ++ ["fetch " +:+ url]).

Definition log_error (agency : Agency) (e : py_exc) (log : list string)
  : py_result unit * list string :=
  (Return (), log ++ ["error at " +:+ ag_name agency]).

Definition notify_removed (agency : Agency) (new_listings : list string)
    (removed_listings : list AggregatedListing) (log : list string)
  : py_result unit * list string :=
  (Return (), log ++ ["removed: " +:+ pretty (length removed_listings)]).

Lemma detect_changes_compares_none_witness :
  ChangeDetector.detect_changes
    (document_scraper site_down
       (fun html url => Return tt) (fun html format_info => Return [])
       (fun listings agency log => (Return (), log)) log_error)
    (fun _ => [stored_site_a])
    (fun _ previous => Return [])
    (fun _ previous => Return previous)
    notify_removed agency_a []
  = (Return (),
     ["fetch https://agence-a.fr"; "error at Agence A"; "removed: 1"]).
Proof.
  destruct (detect_changes_compares_none site_down
              (fun html url => Return tt) (fun html format_info => Return [])
              (fun listings agency log => (Return (), log)) log_error
              (fun _ => [stored_site_a])
              (fun _ previous => Return ([] : list string))
              (fun _ previous => Return previous)
              notify_removed agency_a [])
    as (_ & _ & Hdown & _).
  rewrite (Hdown (OtherError "timeout") ["fetch https://agence-a.fr"]
             ["fetch https://agence-a.fr"; "error at Agence A"]);
    reflexivity.
Defined.

(** ** The agency panel of the front end ([AgencyDiscovery.tsx]) *)

Module AgencyDiscovery.

(** The [Agency] interface of the panel: the fields [loadAgencies] and the
    counters read. The counts are JavaScript numbers holding integers. *)
Record Agency : Type := {
  id : Z;
  name : string;
  website_url : string;
  scraping_status : string;
  total_listings : Z;
  active_listings : Z;
  last_scraped : option string
}.

(** [Array.prototype.sort(comparefn)]: the sort is stable and, for a
    consistent [comparefn], its result is the one of this insertion sort: an
    element goes in front of the first element it does not compare greater
    than. *)
Fixpoint insert {A : Type} (comparefn : A -> A -> Z) (x : A) (l : list A) : list A :=
  match l with
  | [] => [x]
  | y :: rest =>
      if (comparefn x y <=? 0)%Z then x :: l else y :: insert comparefn x rest
  end.

Fixpoint sort {A : Type} (comparefn : A -> A -> Z) (l : list A) : list A :=
  match l with
  | [] => []
  | x :: rest => insert comparefn x (sort comparefn rest)
  end.

(** The chain of [if (filter === ...)]: four status filters, and any other
    value of the filter keeps the whole response. *)
Definition apply_filter (filter : string) (agencies : list Agency) : list Agency :=
  if decide (filter = "pending")
  then List.filter (fun a => bool_decide (scraping_status a = "pending")) agencies
  else if decide (filter = "active")
  then List.filter (fun a => bool_decide (scraping_status a = "active")) agencies
  else if decide (filter = "success")
  then List.filter (fun a => bool_decide (scraping_status a = "success")) agencies
  else if decide (filter = "failed")
  then List.filter (fun a => bool_decide (scraping_status a = "failed")) agencies
  else agencies.

Section Load.
(** [String.prototype.localeCompare] depends on the locale of the browser,
    and [new Date(s).getTime()] on its date parser: both are parameters. *)
Variable localeCompare : string -> string -> Z.
Variable date_time : string -> Z.

(** [new Date(a.last_scraped || 0).getTime()]: a missing or empty date is
    the epoch. *)
Definition scraped_time (a : Agency) : Z :=
  match last_scraped a with
  | None => 0
  | Some "" => 0
  | Some s => date_time s
  end.

(** The chain of [if (sortBy === ...)]. *)
Definition apply_sort (sortBy : string) (filtered : list Agency) : list Agency :=
  if decide (sortBy = "name")
  then sort (fun a b => localeCompare (name a) (name b)) filtered
  else if decide (sortBy = "listings")
  then sort (fun a b => total_listings b - total_listings a)%Z filtered
  else if decide (sortBy = "recent")
  then sort (fun a b => scraped_time b - scraped_time a)%Z filtered
  else filtered.

(** What [loadAgencies] hands to [setAgencies] for a response. *)
Definition loadAgencies (filter sortBy : string) (response : list Agency)
  : list Agency :=
  let filtered := apply_filter filter response in
  apply_sort sortBy filtered.
End Load.

(** The counters of the statistics section, computed on the list shown. *)
Definition stat_total (agencies : list Agency) : Z :=
  fold_left (fun sum a => sum + total_listings a)%Z agencies 0%Z.

Definition stat_scraped (agencies : list Agency) : nat :=
  length (List.filter (fun a => bool_decide (scraping_status a = "success")) agencies).

Definition stat_pending (agencies : list Agency) : nat :=
  length (List.filter (fun a => bool_decide (scraping_status a = "pending")) agencies).

End AgencyDiscovery.

Section PanelFacts.
Import AgencyDiscovery.

Lemma insert_perm {A : Type} (comparefn : A -> A -> Z) (x : A) (l : list A) :
  insert comparefn x l ≡ₚ x :: l.
Proof.
  induction l as [|y rest IH]; simpl; [done |].
  destruct (comparefn x y <=? 0)%Z; [done |].
  rewrite IH. apply Permutation_swap.
Qed.

Lemma sort_perm {A : Type} (comparefn : A -> A -> Z) (l : list A) :
  sort comparefn l ≡ₚ l.
Proof.
  induction l as [|x rest IH]; simpl; [done |].
  by rewrite insert_perm, IH.
Qed.

Lemma apply_sort_perm (localeCompare : string -> string -> Z)
    (date_time : string -> Z) (sortBy : string) (l : list Agency) :
  apply_sort localeCompare date_time sortBy l ≡ₚ l.
Proof.
  unfold apply_sort. repeat case_decide; try apply sort_perm. done.
Qed.

Lemma filter_status_spec (status : string) (l : list Agency) (a : Agency) :
  a ∈ List.filter (fun a => bool_decide (scraping_status a = status)) l
  <-> a ∈ l /\ scraping_status a = status.
Proof.
  rewrite !list_elem_of_In, filter_In, bool_decide_eq_true. done.
Qed.

(** Sorting by descending key with a key comparison: the result is in
    descending order and elements with the same key keep their order. *)
Lemma insert_sorted (key : Agency -> Z) (x : Agency) (l : list Agency) :
  StronglySorted (fun a b => key b <= key a)%Z l ->
  StronglySorted (fun a b => key b <= key a)%Z
    (insert (fun a b => key b - key a)%Z x l).
Proof.
  induction 1 as [|y rest Hsorted IH Hall]; simpl.
  - by repeat constructor.
  - destruct (key y - key x <=? 0)%Z eqn:E.
    + apply Z.leb_le in E. constructor; [by constructor |].
      constructor; [lia |].
      eapply Forall_impl; [exact Hall |]. simpl. intros b Hb. lia.
    + apply Z.leb_gt in E. constructor; [done |].
      rewrite insert_perm. constructor; [lia | done].
Qed.

Lemma sort_sorted (key : Agency -> Z) (l : list Agency) :
  StronglySorted (fun a b => key b <= key a)%Z
    (sort (fun a b => key b - key a)%Z l).
Proof.
  induction l as [|x rest IH]; simpl; [constructor | by apply insert_sorted].
Qed.

Lemma insert_stable (key : Agency -> Z) (t : Z) (x : Agency) (l : list Agency) :
  filter (fun a => key a = t) (insert (fun a b => key b - key a)%Z x l)
  = filter (fun a => key a = t) (x :: l).
Proof.
  induction l as [|y rest IH]; simpl; [done |].
  destruct (key y - key x <=? 0)%Z eqn:E; [done |].
  apply Z.leb_gt in E. rewrite filter_cons, IH, !filter_cons.
  repeat case_decide; try done; lia.
Qed.

Lemma sort_stable (key : Agency -> Z) (t : Z) (l : list Agency) :
  filter (fun a => key a = t) (sort (fun a b => key b - key a)%Z l)
  = filter (fun a => key a = t) l.
Proof.
  induction l as [|x rest IH]; simpl; [done |].
  by rewrite insert_stable, !filter_cons, IH.
Qed.

Lemma stat_total_shift (l : list Agency) (z : Z) :
  fold_left (fun sum a => sum + total_listings a)%Z l z
  = (z + stat_total l)%Z.
Proof.
  unfold stat_total. revert z. induction l as [|a rest IH]; intros z; simpl.
  - lia.
  - rewrite (IH (z + total_listings a)%Z), (IH (0 + total_listings a)%Z). lia.
Qed.

Lemma stat_total_perm (l1 l2 : list Agency) :
  l1 ≡ₚ l2 -> stat_total l1 = stat_total l2.
Proof.
  induction 1 as [|a l1 l2 _ IH|a b l|l1 l2 l3 _ IH1 _ IH2].
  - done.
  - unfold stat_total. simpl. rewrite !stat_total_shift. lia.
  - unfold stat_total. simpl. rewrite !stat_total_shift. lia.
  - congruence.
Qed.

Lemma filter_length_perm (P : Agency -> bool) (l1 l2 : list Agency) :
  l1 ≡ₚ l2 -> length (List.filter P l1) = length (List.filter P l2).
Proof.
  induction 1 as [|a l1 l2 _ IH|a b l|l1 l2 l3 _ IH1 _ IH2]; simpl.
  - done.
  - destruct (P a); simpl; lia.
  - destruct (P a), (P b); simpl; lia.
  - congruence.
Qed.

Lemma filter_other_status (s1 s2 : string) (l : list Agency) :
  s1 <> s2 ->
  List.filter (fun a => bool_decide (scraping_status a = s1))
    (List.filter (fun a => bool_decide (scraping_status a = s2)) l) = [].
Proof.
  intros Hne. induction l as [|a rest IH]; simpl; [done |].
  destruct (bool_decide (scraping_status a = s2)) eqn:E2; [| done].
  simpl. apply bool_decide_eq_true in E2.
  rewrite bool_decide_false by congruence. done.
Qed.
End PanelFacts.

(** X20: whatever the sort, the panel shows each agency of the filtered
    response exactly once. With the filter pending, active, success or
    failed these are the agencies of the response with that status; with
    any other value of the filter, "blocked" included, these are all the
    agencies of the response. *)
Theorem loadAgencies_filter (localeCompare : string -> string -> Z)
    (date_time : string -> Z) (filter sortBy : string)
    (response : list AgencyDiscovery.Agency) :
  let shown :=
    AgencyDiscovery.loadAgencies localeCompare date_time filter sortBy response in
  shown ≡ₚ AgencyDiscovery.apply_filter filter response
  /\ (filter ∈ ["pending"; "active"; "success"; "failed"] ->
      forall a, a ∈ shown
                <-> a ∈ response /\ AgencyDiscovery.scraping_status a = filter)
  /\ (filter ∉ ["pending"; "active"; "success"; "failed"] ->
      shown ≡ₚ response).
Proof.
  intros shown. subst shown. unfold AgencyDiscovery.loadAgencies.
  split; [apply apply_sort_perm |]. split.
  - intros Hfilter a. rewrite apply_sort_perm.
    unfold AgencyDiscovery.apply_filter.
    repeat case_decide; subst; try apply filter_status_spec.
    repeat (apply elem_of_cons in Hfilter as [->|Hfilter]; [done |]).
    by apply elem_of_nil in Hfilter.
  - intros Hfilter. rewrite apply_sort_perm.
    unfold AgencyDiscovery.apply_filter.
    repeat case_decide; subst; try done; destruct Hfilter; set_solver.
Qed.

(** X21: sorted by number of listings, the panel shows the agencies by
    decreasing [total_listings], and agencies with the same number keep the
    order they had in the response. *)
Theorem loadAgencies_by_listings (localeCompare : string -> string -> Z)
    (date_time : string -> Z) (filter : string)
    (response : list AgencyDiscovery.Agency) :
  let shown :=
    AgencyDiscovery.loadAgencies localeCompare date_time filter "listings" response in
  StronglySorted
    (fun a b => AgencyDiscovery.total_listings b <= AgencyDiscovery.total_listings a)%Z
    shown
  /\ forall t : Z,
       base.filter (fun a => AgencyDiscovery.total_listings a = t) shown
       = base.filter (fun a => AgencyDiscovery.total_listings a = t)
           (AgencyDiscovery.apply_filter filter response).
Proof.
  intros shown. subst shown.
  unfold AgencyDiscovery.loadAgencies, AgencyDiscovery.apply_sort.
  rewrite decide_False by done. rewrite decide_True by done. split.
  - apply (sort_sorted AgencyDiscovery.total_listings).
  - intros t. apply (sort_stable AgencyDiscovery.total_listings).
Qed.

(** X22: the counters are computed on the list shown, not on the response:
    the total is the sum over the filtered agencies whatever the sort, the
    counter of scraped agencies is zero under the filters pending, active
    and failed, and the counter of pending agencies is zero under the
    filters active, success and failed. *)
Theorem panel_counters_follow_filter (localeCompare : string -> string -> Z)
    (date_time : string -> Z) (filter sortBy : string)
    (response : list AgencyDiscovery.Agency) :
  let shown :=
    AgencyDiscovery.loadAgencies localeCompare date_time filter sortBy response in
  AgencyDiscovery.stat_total shown
  = AgencyDiscovery.stat_total (AgencyDiscovery.apply_filter filter response)
  /\ (filter ∈ ["pending"; "active"; "failed"] ->
      AgencyDiscovery.stat_scraped shown = 0)
  /\ (filter ∈ ["active"; "success"; "failed"] ->
      AgencyDiscovery.stat_pending shown = 0).
Proof.
  intros shown. subst shown. unfold AgencyDiscovery.loadAgencies.
  split; [apply stat_total_perm, apply_sort_perm |].
  unfold AgencyDiscovery.stat_scraped, AgencyDiscovery.stat_pending.
  split; intros Hfilter;
    rewrite (filter_length_perm _ _ _ (apply_sort_perm _ _ _ _));
    unfold AgencyDiscovery.apply_filter;
    repeat (apply elem_of_cons in Hfilter as [->|Hfilter];
            [repeat case_decide; try done;
             by rewrite filter_other_status |]);
    by apply elem_of_nil in Hfilter.
Qed.

(** ** The favourites panel of the front end ([Favorites]) *)

Module Favorites.

Record Favorite : Type := {
  id : Z;
  listing_id : Z;
  created_at : string
}.

(** The three [useState] cells of the component. *)
Record state : Type := {
  favorites : list Favorite;
  loading : bool;
  error : option string
}.

(** The first render: [useState([])], [useState(true)], [useState(null)]. *)
Definition initial : state :=
  {| favorites := []; loading := true; error := None |}.

(** How a request ends: with its data, or with an exception that may carry
    [err.response.data.detail]. *)
Inductive response (A : Type) : Type :=
  | Ok (data : A)
  | Failed (detail : option string).
Arguments Ok {A} data.
Arguments Failed {A} detail.

(** [err.response?.data?.detail || fallback]: an empty detail is falsy. *)
Definition detail_or (detail : option string) (fallback : string) : string :=
  match detail with
  | None => fallback
  | Some "" => fallback
  | Some d => d
  end.

(** [fetchFavorites], once its request has ended. *)
Definition fetchFavorites (r : response (list Favorite)) (s : state) : state :=
  match r with
  | Ok data => {| favorites := data; loading := false; error := error s |}
  | Failed detail =>
      {| favorites := favorites s;
         loading := false;
         error := Some (detail_or detail "Erreur lors du chargement des favoris") |}
  end.

(** [removeFavorite(listingId)], once its request has ended. [rendered] is
    the [favorites] of the render whose button was clicked: the handler
    closes over it and filters that list, not the current one. *)
Definition removeFavorite (listingId : Z) (rendered : list Favorite)
    (r : response unit) (s : state) : state :=
  match r with
  | Ok _ =>
      {| favorites := filter (fun f => listing_id f <> listingId) rendered;
         loading := loading s;
         error := error s |}
  | Failed detail =>
      {| favorites := favorites s;
         loading := loading s;
         error := Some (detail_or detail "Erreur lors de la suppression") |}
  end.

(** What the component returns. *)
Inductive view : Type :=
  | LoadingView
  | ErrorView (message : string)
  | ListView (shown : list Favorite).

Definition render (s : state) : view :=
  if loading s then LoadingView
  else match error s with
       | Some "" => ListView (favorites s)
       | Some message => ErrorView message
       | None => ListView (favorites s)
       end.

(** A handler that has run to its end. *)
Inductive event : Type :=
  | Fetched (r : response (list Favorite))
  | Removed (listingId : Z) (rendered : list Favorite) (r : response unit).

Definition step (s : state) (ev : event) : state :=
  match ev with
  | Fetched r => fetchFavorites r s
  | Removed listingId rendered r => removeFavorite listingId rendered r s
  end.

Definition run (events : list event) (s : state) : state :=
  fold_left step events s.

End Favorites.

Section FavoritesFacts.
Import Favorites.

(** An error message that [if (error)] takes as set. *)
Definition error_set (s : state) : Prop :=
  exists message, error s = Some message /\ message <> "".

Lemma detail_or_truthy (detail : option string) (fallback : string) :
  fallback <> "" -> detail_or detail fallback <> "".
Proof. intros Hf. by destruct detail as [[|c d]|]. Qed.

Lemma step_keeps_error (s : state) (ev : event) :
  error_set s -> error_set (step s ev).
Proof.
  intros Hset. destruct ev as [[data|detail]|listingId rendered [[]|detail]];
    simpl; try done;
    (eexists; split; [reflexivity | by apply detail_or_truthy]).
Qed.

Lemma run_keeps_error (events : list event) (s : state) :
  error_set s -> error_set (run events s).
Proof.
  revert s. induction events as [|ev rest IH]; intros s Hset; simpl; [done |].
  by apply IH, step_keeps_error.
Qed.
End FavoritesFacts.

(** X23: a removal that the server accepted, clicked on the current list,
    takes every favourite of that listing off the list and keeps all the
    others in their order; a removal that failed leaves the list as it was
    and sets the error message, the server's detail when it sent one. *)
Theorem removeFavorite_effect (listingId : Z) (r : Favorites.response unit)
    (s : Favorites.state) :
  let s' := Favorites.removeFavorite listingId (Favorites.favorites s) r s in
  match r with
  | Favorites.Ok _ =>
      (forall f, f ∈ Favorites.favorites s'
                 <-> f ∈ Favorites.favorites s /\ Favorites.listing_id f <> listingId)
      /\ Favorites.favorites s' `sublist_of` Favorites.favorites s
      /\ Favorites.error s' = Favorites.error s
      /\ Favorites.favorites
           (Favorites.removeFavorite listingId (Favorites.favorites s') r s')
         = Favorites.favorites s'
  | Favorites.Failed detail =>
      Favorites.favorites s' = Favorites.favorites s
      /\ Favorites.error s'
         = Some (Favorites.detail_or detail "Erreur lors de la suppression")
  end.
Proof.
  destruct r as [[]|detail]; simpl; [| done].
  split; [| split; [| split]].
  - intros f. rewrite list_elem_of_filter. tauto.
  - apply sublist_filter.
  - reflexivity.
  - apply list_filter_filter_l. done.
Qed.

(** X24: two removals clicked on the same render overwrite each other: each
    handler filters the list of the render it was clicked on, so once both
    requests have succeeded only the second listing is off the list and the
    favourites of the first listing are shown again. *)
Theorem removeFavorite_stale_list (a b : Z) (s : Favorites.state) :
  a <> b ->
  let rendered := Favorites.favorites s in
  let s' :=
    Favorites.run
      [ Favorites.Removed a rendered (Favorites.Ok ());
        Favorites.Removed b rendered (Favorites.Ok ()) ] s in
  Favorites.favorites s'
  = filter (fun f => Favorites.listing_id f <> b) rendered
  /\ forall f, f ∈ rendered -> Favorites.listing_id f = a ->
               f ∈ Favorites.favorites s'.
Proof.
  intros Hab rendered s'. subst s'. simpl. split; [done |].
  intros f Hin Hf. apply list_elem_of_filter. split; [congruence | done].
Qed.

Definition two_favorites : Favorites.state :=
  {| Favorites.favorites :=
       [ {| Favorites.id := 1; Favorites.listing_id := 101;
            Favorites.created_at := "2024-01-05" |};
         {| Favorites.id := 2; Favorites.listing_id := 202;
            Favorites.created_at := "2024-01-06" |} ];
     Favorites.loading := false;
     Favorites.error := None |}.

Lemma removeFavorite_stale_list_witness :
  let rendered := Favorites.favorites two_favorites in
  let s' :=
    Favorites.run
      [ Favorites.Removed 101 rendered (Favorites.Ok ());
        Favorites.Removed 202 rendered (Favorites.Ok ()) ] two_favorites in
  Favorites.favorites s'
  = filter (fun f => Favorites.listing_id f <> 202%Z) rendered
  /\ forall f, f ∈ rendered -> Favorites.listing_id f = 101%Z ->
               f ∈ Favorites.favorites s'.
Proof. apply (removeFavorite_stale_list 101 202 two_favorites). lia. Defined.

(** X25: the panel never clears its error: once a request has failed, the
    error message stays set through every later fetch and removal, even
    successful ones, and the panel shows an error instead of the list
    whenever it is not loading. *)
Theorem favorites_error_is_sticky (events : list Favorites.event)
    (s : Favorites.state) :
  error_set s ->
  error_set (Favorites.run events s)
  /\ (Favorites.loading (Favorites.run events s) = false ->
      exists message,
        Favorites.render (Favorites.run events s) = Favorites.ErrorView message).
Proof.
  intros Hset. pose proof (run_keeps_error events s Hset) as (m & Hm & Hne).
  split; [by exists m |].
  intros Hloading. exists m. unfold Favorites.render.
  rewrite Hloading, Hm. by destruct m.
Qed.

Lemma favorites_error_is_sticky_witness :
  let s := Favorites.fetchFavorites (Favorites.Failed None) Favorites.initial in
  let events :=
    [ Favorites.Fetched (Favorites.Ok (Favorites.favorites two_favorites));
      Favorites.Removed 101 (Favorites.favorites two_favorites) (Favorites.Ok ()) ] in
  error_set (Favorites.run events s)
  /\ (Favorites.loading (Favorites.run events s) = false ->
      exists message,
        Favorites.render (Favorites.run events s) = Favorites.ErrorView message).
Proof.
  intros s events. apply (favorites_error_is_sticky events s).
  exists "Erreur lors du chargement des favoris". by split.
Defined.
